(** * SentinelSecure backend: scan orchestration and network discovery

    A shallow embedding of [backend/models.py],
    [backend/services/network_scanner.py] and the background task
    [run_scan] of [backend/server.py], with the properties of the
    target parser, the device classifier, the per-host profiler, the
    device / vulnerability merge and the scan-job life cycle.

    Conventions of the embedding:
    - Python [str] is [string]; host names, target expressions and
      addresses are ASCII.  [int()] is embedded for ASCII text only.
    - Python [int] is [Z]; [datetime] values are [Z] readings of a clock.
      [utcnow] moves the clock of the embedding on by one tick, so that two
      readings can be told apart; the wall clock of the program gives no
      such order, and no property below states one.
    - [Optional[T]] is [option T]; a [set] is a [gset]; a [dict] with string
      keys is a [gmap string _].
    - A call that may raise is a value of [Result]; the exception carries
      the text that [str(e)] yields.
    - The Mongo collections are lists of records in insertion order;
      [find_one] returns the first match and [update_one] rewrites it.
      The store is in memory: its operations do not raise.
    - The scanning engine, the resolver, the ARP table, the address
      library, the AI summary and the vulnerability prober are fields of
      an environment record [Env]; a job runs against any such record.
    - Jobs run one after the other. *)

From Stdlib Require Import ZArith Ascii String List Bool DecimalString DecimalZ DecimalPos.
From stdpp Require Import base tactics option list strings gmap.

Import ListNotations.
Local Open Scope Z_scope.
Local Open Scope string_scope.
Local Open Scope list_scope.

(** ** Python built-ins used by the sources *)

Module Py.

(** [c.lower()] for one ASCII character. *)
Definition lower_ascii (c : ascii) : ascii :=
  let n := nat_of_ascii c in
  if ((65 <=? n)%nat && (n <=? 90)%nat)%bool then ascii_of_nat (n + 32) else c.

(** [s.lower()] *)
Fixpoint lower (s : string) : string :=
  match s with
  | EmptyString => EmptyString
  | String c s' => String (lower_ascii c) (lower s')
  end.

(** [s.startswith(p)] *)
Fixpoint startswith (p s : string) : bool :=
  match p, s with
  | EmptyString, _ => true
  | String _ _, EmptyString => false
  | String a p', String b s' => (Ascii.eqb a b && startswith p' s')%bool
  end.

(** [sub in s] for strings. *)
Fixpoint contains (sub s : string) : bool :=
  (startswith sub s ||
   match s with
   | EmptyString => false
   | String _ s' => contains sub s'
   end)%bool.

(** [c in s] for a one-character string [c]. *)
Fixpoint has_char (c : ascii) (s : string) : bool :=
  match s with
  | EmptyString => false
  | String b s' => (Ascii.eqb c b || has_char c s')%bool
  end.

(** Truth value of a string: the empty string is false. *)
Definition truthy_str (s : string) : bool :=
  match s with EmptyString => false | _ => true end.

(** [any(f(x) for x in l)] *)
Definition any {A} (f : A -> bool) (l : list A) : bool := existsb f l.

(** [s.split(sep)] for a one-character separator. *)
Fixpoint split (sep : ascii) (s : string) : list string :=
  match s with
  | EmptyString => [EmptyString]
  | String c s' =>
      if Ascii.eqb c sep then EmptyString :: split sep s'
      else match split sep s' with
           | [] => [String c EmptyString]
           | w :: ws => String c w :: ws
           end
  end.

(** [s.rsplit(sep, 1)]: the text before and after the last separator, or
    [None] when the separator does not occur (Python then returns the
    one-element list [[s]]). *)
Fixpoint rsplit1 (sep : ascii) (s : string) : option (string * string) :=
  match s with
  | EmptyString => None
  | String c s' =>
      match rsplit1 sep s' with
      | Some (a, b) => Some (String c a, b)
      | None => if Ascii.eqb c sep then Some (EmptyString, s') else None
      end
  end.

(** White space as [int()] and [str.strip()] see it, in ASCII. *)
Definition is_space (c : ascii) : bool :=
  let n := nat_of_ascii c in
  (((9 <=? n)%nat && (n <=? 13)%nat) || ((28 <=? n)%nat && (n <=? 32)%nat))%bool.

Fixpoint lstrip (s : string) : string :=
  match s with
  | EmptyString => EmptyString
  | String c s' => if is_space c then lstrip s' else s
  end.

Fixpoint rstrip (s : string) : string :=
  match s with
  | EmptyString => EmptyString
  | String c s' =>
      match rstrip s' with
      | EmptyString => if is_space c then EmptyString else String c EmptyString
      | r => String c r
      end
  end.

Definition strip (s : string) : string := rstrip (lstrip s).

Definition digit_val (c : ascii) : option Z :=
  let n := nat_of_ascii c in
  if ((48 <=? n)%nat && (n <=? 57)%nat)%bool then Some (Z.of_nat (n - 48)) else None.

(** The digits of an [int()] literal: decimal digits, with single
    underscores allowed between two digits.  [seen] tells whether the
    previous character was a digit. *)
Fixpoint int_digits (acc : Z) (seen : bool) (s : string) : option Z :=
  match s with
  | EmptyString => if seen then Some acc else None
  | String c s' =>
      if Ascii.eqb c "_" then
        if seen then int_digits acc false s' else None
      else
        match digit_val c with
        | Some d => int_digits (10 * acc + d) true s'
        | None => None
        end
  end.

(** [int(s)] in base 10, for an ASCII text [s]; [None] stands for
    [ValueError].  The decimal digits and the white space of other scripts,
    which [int()] reads as well, are not embedded. *)
Definition int (s : string) : option Z :=
  match strip s with
  | String "+" r => int_digits 0 false r
  | String "-" r => Z.opp <$> int_digits 0 false r
  | r => int_digits 0 false r
  end.

(** [str(i)] for an integer. *)
Definition str (i : Z) : string := NilZero.string_of_int (Z.to_int i).

(** [list(range(a, b))] *)
Definition range (a b : Z) : list Z := seqZ a (b - a).

End Py.

(** ** models.py *)

Inductive ScanType :=
  NETWORK_DISCOVERY | VULNERABILITY_SCAN | PORT_SCAN | SMB_SCAN | AD_SCAN.

Inductive ScanStatus := PENDING | RUNNING | COMPLETED | FAILED | CANCELLED.

Inductive ThreatLevel := CRITICAL | HIGH | MEDIUM | LOW | INFO.

Inductive DeviceType :=
  ROUTER | SWITCH | SERVER | WORKSTATION | MOBILE | IOT | PRINTER | UNKNOWN.

#[global] Instance DeviceType_eq_dec : EqDecision DeviceType.
Proof. solve_decision. Defined.

#[global] Instance ScanStatus_eq_dec : EqDecision ScanStatus.
Proof. solve_decision. Defined.

(** The per-port record that [port_scan_device] stores under
    [services[str(port)]]. *)
Record ServiceInfo := mkServiceInfo {
  svc_port : Z;
  svc_protocol : string;
  svc_state : string;
  svc_name : string;
  svc_product : string;
  svc_version : string;
  svc_extrainfo : string
}.

Record Device := mkDevice {
  id : string;
  ip_address : string;
  mac_address : option string;
  hostname : option string;
  device_type : DeviceType;
  os_name : option string;
  os_version : option string;
  vendor : option string;
  open_ports : list Z;
  services : gmap string ServiceInfo;
  last_seen : Z;
  first_discovered : Z;
  is_active : bool;
  created_at : Z;
  updated_at : Z
}.

(** [cvss_score] is a float in the source; it is carried here in tenths. *)
Record Vulnerability := mkVulnerability {
  vuln_id : string;
  device_id : string;
  cve_id : option string;
  title : string;
  description : string;
  severity : ThreatLevel;
  cvss_score : option Z;
  affected_service : option string;
  port : option Z;
  solution : option string;
  references : list string;
  discovered_at : Z;
  is_resolved : bool;
  ai_analysis : option string
}.

(** The [scan_metadata] dictionary of [discover_network_devices]; a key
    that is not set is [None].  The vulnerability job leaves it empty. *)
Record ScanMetadata := mkScanMetadata {
  md_target : option string;
  md_scan_type : option string;
  md_started_at : option Z;
  md_techniques_used : list string;
  md_completed_at : option Z;
  md_devices_found : option Z;
  md_duration : option Z;
  md_error : option string
}.

Definition empty_metadata : ScanMetadata :=
  {| md_target := None; md_scan_type := None; md_started_at := None;
     md_techniques_used := []; md_completed_at := None;
     md_devices_found := None; md_duration := None; md_error := None |}.

Record ScanResult := mkScanResult {
  scan_id : string;
  scan_type : ScanType;
  target : string;
  status : ScanStatus;
  started_at : Z;
  completed_at : option Z;
  duration_seconds : option Z;
  devices_discovered : Z;
  vulnerabilities_found : Z;
  ports_scanned : Z;
  results : ScanMetadata;
  error_message : option string;
  ai_summary : option string;
  created_by : option string
}.

(** Scalar values of the [options] dictionary of a scan request, with
    Python's truth value. *)
Inductive PyValue :=
| PyNone
| PyBool (b : bool)
| PyInt (n : Z)
| PyStr (s : string).

Definition truthy (v : PyValue) : bool :=
  match v with
  | PyNone => false
  | PyBool b => b
  | PyInt n => negb (n =? 0)%Z
  | PyStr s => Py.truthy_str s
  end.

(** The outcome of a call that may raise; [Raise msg] carries [str(e)]. *)
Inductive Result (A : Type) :=
| Ok (a : A)
| Raise (msg : string).
#[global] Arguments Ok {A} a.
#[global] Arguments Raise {A} msg.

(** ** network_scanner.py: the device classifier *)

Module Classifier.

(** [port in open_ports], where [open_ports = set(device.open_ports)]. *)
Definition port_open (open_ports : gset Z) (port : Z) : bool :=
  bool_decide (port ∈ open_ports).

(** [device.hostname and 'router' in device.hostname.lower()] *)
Definition router_hostname (h : option string) : bool :=
  match h with
  | None => false
  | Some s => (Py.truthy_str s && Py.contains "router" (Py.lower s))%bool
  end.

Definition router_ports : list Z := [23; 80; 443; 161; 22].
Definition server_ports : list Z := [80; 443; 22; 21; 25; 53; 110; 143; 993; 995].
Definition printer_ports : list Z := [515; 631; 9100].
Definition workstation_ports : list Z := [135; 139; 445; 3389].

Definition _classify_device_type (device : Device) : DeviceType :=
  let open_ports : gset Z := list_to_set (open_ports device) in
  (* Router indicators *)
  if (Py.any (port_open open_ports) router_ports
      && router_hostname (hostname device))%bool then ROUTER
  (* Server indicators *)
  else if Py.any (port_open open_ports) server_ports then SERVER
  (* Printer indicators *)
  else if Py.any (port_open open_ports) printer_ports then PRINTER
  (* Switch indicators *)
  else if (port_open open_ports 161
           && negb (port_open open_ports 80 || port_open open_ports 443))%bool
  then SWITCH
  (* Workstation indicators *)
  else if Py.any (port_open open_ports) workstation_ports then WORKSTATION
  else UNKNOWN.

(** The port signatures of the individual rules, on a device. *)
Definition port_set (d : Device) : gset Z := list_to_set (open_ports d).
Definition router_rule (d : Device) : bool :=
  (Py.any (port_open (port_set d)) router_ports
   && router_hostname (hostname d))%bool.
Definition server_signature (d : Device) : bool :=
  Py.any (port_open (port_set d)) server_ports.
Definition printer_signature (d : Device) : bool :=
  Py.any (port_open (port_set d)) printer_ports.

(** A device as [Device(ip_address=ip, ...)] builds it, with the given
    host name and port list. *)
Definition sample (h : option string) (ports : list Z) : Device :=
  {| id := "dev-1"; ip_address := "10.0.0.1"; mac_address := None;
     hostname := h; device_type := UNKNOWN; os_name := None;
     os_version := None; vendor := None; open_ports := ports;
     services := ∅; last_seen := 0; first_discovered := 0;
     is_active := true; created_at := 0; updated_at := 0 |}.

End Classifier.

Import Classifier.

(** ** network_scanner.py: the target parser *)

(** The two constructors of the [netaddr] package that the scanner calls.
    [IPNetwork t] is [str(IPNetwork(t))], and [IPAddress t] tells whether
    [IPAddress(t)] accepts its argument; [None] and [false] stand for the
    [AddrFormatError] the package raises. *)
Class Netaddr := {
  IPNetwork : string -> option string;
  IPAddress : string -> bool
}.

Module TargetParser.

Section WithNetaddr.
Context `{Netaddr}.

(** The body of the [try] block of [_parse_target]; [None] is any exception
    raised inside it. *)
Definition parse_target_body (target : string) : option (list string) :=
  (* Handle CIDR notation *)
  if Py.has_char "/" target then
    network ← IPNetwork target;
    Some [network]
  (* Handle IP range (e.g., 192.168.1.1-50) *)
  else if (Py.has_char "-" target && Py.has_char "." target)%bool then
    '(base_ip, range_part) ← Py.rsplit1 "." target;
    if Py.has_char "-" range_part then
      match Py.split "-" range_part with
      | [start; end_] =>
          a ← Py.int start;
          b ← Py.int end_;
          Some (map (fun i => base_ip +:+ "." +:+ Py.str i +:+ "/32")
                    (Py.range a (b + 1)))
      | _ => None
      end
    else Some []
  (* Single IP *)
  else
    if IPAddress target then Some [target +:+ "/32"] else None.

Definition _parse_target (target : string) : list string :=
  match parse_target_body target with
  | Some targets => targets
  | None => []
  end.

End WithNetaddr.

(** Target resolution as [discover_network_devices] performs it: the
    parsed list, or the [ValueError] raised when that list is empty. *)
Definition resolve_target `{Netaddr} (target : string) : Result (list string) :=
  match _parse_target target with
  | [] => Raise ("Invalid target format: " +:+ target)
  | ip_ranges => Ok ip_ranges
  end.

(** A strict reading of dotted-quad IPv4 text, used to instantiate
    [Netaddr] on concrete inputs: four decimal fields in 0..255. *)
Fixpoint all_digits (s : string) : bool :=
  match s with
  | EmptyString => true
  | String c s' => (bool_decide (is_Some (Py.digit_val c)) && all_digits s')%bool
  end.

Definition octet (s : string) : bool :=
  (Py.truthy_str s && all_digits s &&
   match Py.int s with Some n => (n <=? 255)%Z | None => false end)%bool.

Definition dotted_quad (s : string) : bool :=
  match Py.split "." s with
  | [a; b; c; d] => (octet a && octet b && octet c && octet d)%bool
  | _ => false
  end.

Definition cidr_text (s : string) : option string :=
  match Py.split "/" s with
  | [ip; n] =>
      if (dotted_quad ip && all_digits n && Py.truthy_str n &&
          match Py.int n with Some k => (k <=? 32)%Z | None => false end)%bool
      then Some s else None
  | _ => None
  end.

Definition strict_ipv4 : Netaddr :=
  {| IPNetwork := cidr_text; IPAddress := dotted_quad |}.

End TargetParser.

Import TargetParser.

(** ** The store, the clock and the job monad *)

(** The three Mongo collections the job touches, in insertion order. *)
Record DB := mkDB {
  devices : list Device;
  vulnerabilities : list Vulnerability;
  scan_results : list ScanResult
}.

(** What a job can change: the store, the clock read by
    [datetime.utcnow()], and the number of identifiers drawn so far by
    [uuid.uuid4()]. *)
Record World := mkWorld {
  db : DB;
  clock : Z;
  uuids : nat
}.

Module Job.

(** A step of a job: it ends normally or raises, and leaves a world
    behind in both cases. *)
Definition M (A : Type) : Type := World -> Result A * World.

Definition ret {A} (a : A) : M A := fun w => (Ok a, w).

Definition bind {A B} (m : M A) (k : A -> M B) : M B :=
  fun w =>
    match m w with
    | (Ok a, w') => k a w'
    | (Raise e, w') => (Raise e, w')
    end.

Definition raise {A} (msg : string) : M A := fun w => (Raise msg, w).

(** [try: body  except Exception as e: handler(str(e))] *)
Definition try_except {A} (body : M A) (handler : string -> M A) : M A :=
  fun w =>
    match body w with
    | (Ok a, w') => (Ok a, w')
    | (Raise e, w') => handler e w'
    end.

(** [for x in l: body(x)] *)
Fixpoint for_each {A} (l : list A) (body : A -> M unit) : M unit :=
  match l with
  | [] => ret tt
  | x :: l' => bind (body x) (fun _ => for_each l' body)
  end.

Definition get_db : M DB := fun w => (Ok (db w), w).

Definition modify_db (f : DB -> DB) : M unit :=
  fun w => (Ok tt, mkWorld (f (db w)) (clock w) (uuids w)).

(** [datetime.utcnow()]: read the clock, which then moves on. *)
Definition utcnow : M Z :=
  fun w => (Ok (clock w), mkWorld (db w) (clock w + 1) (uuids w)).

(** The world a job leaves behind. *)
Definition exec {A} (m : M A) (w : World) : World := snd (m w).

End Job.

Import Job.

Notation "'let*' x ':=' m 'in' k" := (bind m (fun x => k))
  (at level 10, x pattern, m at level 100, k at level 200, only parsing).

Module Store.

(** [collection.find_one(query)]: the first matching document. *)
Definition find_one {A} (query : A -> bool) (l : list A) : option A :=
  List.find query l.

(** [collection.find(query).to_list(length=None)] *)
Definition find_all {A} (query : A -> bool) (l : list A) : list A :=
  List.filter query l.

(** [collection.update_one(query, {"$set": ...})]: the first matching
    document is rewritten in place, the others are left alone; nothing
    happens when no document matches. *)
Fixpoint update_one {A} (query : A -> bool) (set : A -> A) (l : list A) : list A :=
  match l with
  | [] => []
  | x :: l' => if query x then set x :: l' else x :: update_one query set l'
  end.

(** [collection.insert_one(doc)] *)
Definition insert_one {A} (doc : A) (l : list A) : list A := l ++ [doc].

Definition with_devices (f : list Device -> list Device) (d : DB) : DB :=
  mkDB (f (devices d)) (vulnerabilities d) (scan_results d).

Definition with_vulnerabilities
    (f : list Vulnerability -> list Vulnerability) (d : DB) : DB :=
  mkDB (devices d) (f (vulnerabilities d)) (scan_results d).

Definition with_scan_results (f : list ScanResult -> list ScanResult) (d : DB) : DB :=
  mkDB (devices d) (vulnerabilities d) (f (scan_results d)).

(** The queries of [run_scan]. *)
Definition by_ip (ip : string) (d : Device) : bool := String.eqb (ip_address d) ip.

Definition by_scan_id (i : string) (r : ScanResult) : bool := String.eqb (scan_id r) i.

Definition by_vuln_key (dev : string) (t : string) (p : option Z) (v : Vulnerability) : bool :=
  (String.eqb (device_id v) dev && String.eqb (title v) t
   && bool_decide (port v = p))%bool.

End Store.

Import Store.

(** ** Field updates on the records *)

Definition set_updated_at (t : Z) (d : Device) : Device :=
  {| id := id d; ip_address := ip_address d; mac_address := mac_address d;
     hostname := hostname d; device_type := device_type d; os_name := os_name d;
     os_version := os_version d; vendor := vendor d; open_ports := open_ports d;
     services := services d; last_seen := last_seen d;
     first_discovered := first_discovered d; is_active := is_active d;
     created_at := created_at d; updated_at := t |}.

Definition set_hostname (h : option string) (d : Device) : Device :=
  {| id := id d; ip_address := ip_address d; mac_address := mac_address d;
     hostname := h; device_type := device_type d; os_name := os_name d;
     os_version := os_version d; vendor := vendor d; open_ports := open_ports d;
     services := services d; last_seen := last_seen d;
     first_discovered := first_discovered d; is_active := is_active d;
     created_at := created_at d; updated_at := updated_at d |}.

Definition set_ports (ports : list Z) (svcs : gmap string ServiceInfo) (d : Device) : Device :=
  {| id := id d; ip_address := ip_address d; mac_address := mac_address d;
     hostname := hostname d; device_type := device_type d; os_name := os_name d;
     os_version := os_version d; vendor := vendor d; open_ports := ports;
     services := svcs; last_seen := last_seen d;
     first_discovered := first_discovered d; is_active := is_active d;
     created_at := created_at d; updated_at := updated_at d |}.

Definition set_os (name version vend : option string) (d : Device) : Device :=
  {| id := id d; ip_address := ip_address d; mac_address := mac_address d;
     hostname := hostname d; device_type := device_type d; os_name := name;
     os_version := version; vendor := vend; open_ports := open_ports d;
     services := services d; last_seen := last_seen d;
     first_discovered := first_discovered d; is_active := is_active d;
     created_at := created_at d; updated_at := updated_at d |}.

Definition set_device_type (t : DeviceType) (d : Device) : Device :=
  {| id := id d; ip_address := ip_address d; mac_address := mac_address d;
     hostname := hostname d; device_type := t; os_name := os_name d;
     os_version := os_version d; vendor := vendor d; open_ports := open_ports d;
     services := services d; last_seen := last_seen d;
     first_discovered := first_discovered d; is_active := is_active d;
     created_at := created_at d; updated_at := updated_at d |}.

Definition set_mac_address (m : option string) (d : Device) : Device :=
  {| id := id d; ip_address := ip_address d; mac_address := m;
     hostname := hostname d; device_type := device_type d; os_name := os_name d;
     os_version := os_version d; vendor := vendor d; open_ports := open_ports d;
     services := services d; last_seen := last_seen d;
     first_discovered := first_discovered d; is_active := is_active d;
     created_at := created_at d; updated_at := updated_at d |}.

(** [{"$set": {"status": "running", "started_at": now}}] *)
Definition set_running (now : Z) (r : ScanResult) : ScanResult :=
  {| scan_id := scan_id r; scan_type := scan_type r; target := target r;
     status := RUNNING; started_at := now; completed_at := completed_at r;
     duration_seconds := duration_seconds r;
     devices_discovered := devices_discovered r;
     vulnerabilities_found := vulnerabilities_found r;
     ports_scanned := ports_scanned r; results := results r;
     error_message := error_message r; ai_summary := ai_summary r;
     created_by := created_by r |}.

(** The [$set] document of the normal end of [run_scan]. *)
Definition set_completed (now : Z) (n_devices n_vulns : Z) (md : ScanMetadata)
    (summary : string) (r : ScanResult) : ScanResult :=
  {| scan_id := scan_id r; scan_type := scan_type r; target := target r;
     status := COMPLETED; started_at := started_at r; completed_at := Some now;
     duration_seconds := Some (default 0 (md_duration md));
     devices_discovered := n_devices;
     vulnerabilities_found := n_vulns;
     ports_scanned := ports_scanned r; results := md;
     error_message := error_message r; ai_summary := Some summary;
     created_by := created_by r |}.

(** The [$set] document of the exception handler of [run_scan]. *)
Definition set_failed (now : Z) (e : string) (r : ScanResult) : ScanResult :=
  {| scan_id := scan_id r; scan_type := scan_type r; target := target r;
     status := FAILED; started_at := started_at r; completed_at := Some now;
     duration_seconds := duration_seconds r;
     devices_discovered := devices_discovered r;
     vulnerabilities_found := vulnerabilities_found r;
     ports_scanned := ports_scanned r; results := results r;
     error_message := Some e; ai_summary := ai_summary r;
     created_by := created_by r |}.

(** ** The collaborators of a job *)

(** A row of the port table that [nm.scan] leaves for a host: protocol,
    port, state, and the optional descriptive keys. *)
Record PortRow := mkPortRow {
  row_protocol : string;
  row_port : Z;
  row_state : string;
  row_name : option string;
  row_product : option string;
  row_version : option string;
  row_extrainfo : option string
}.

(** [socket.gethostbyaddr(ip)]: a name, the [herror] / [gaierror] the
    profiler silences, or any other exception. *)
Inductive HostLookup :=
| Resolved (name : string)
| NoName
| LookupFailed (msg : string).

(** Everything outside the three source files that a job calls.  During
    one job each answer is a function of the request.
    - [nm_ping_scan t]: the hosts and their states after
      [nm.scan(hosts=t, arguments='-sn -T4')];
    - [private_network t]: the [try] body of [_is_local_network];
    - [arp_a]: the addresses written in parentheses in the lines of
      [arp -a];
    - [in_network ip t]: [IPAddress(ip) in IPNetwork(t)];
    - [nm_port_scan ip]: the port table of [ip] after the SYN scan of ports
      1-1000, [None] when [ip] is not among [all_hosts()];
    - [nm_os_scan ip]: the [osmatch] list of [ip] after [nm.scan(ip, '-O -T4')],
      [None] when the host or the key is missing;
    - [arp_n ip]: the MAC address found in the output of [arp -n ip];
    - [analyze_scan_results]: the AI summary, which never raises;
    - [scan_device_vulnerabilities]: the vulnerability prober. *)
Record Env := mkEnv {
  env_netaddr : Netaddr;
  uuid4 : nat -> string;
  nm_ping_scan : string -> Result (list (string * string));
  private_network : string -> option bool;
  arp_a : Result (list string);
  in_network : string -> string -> option bool;
  gethostbyaddr : string -> HostLookup;
  nm_port_scan : string -> Result (option (list PortRow));
  nm_os_scan : string -> Result (option (list (gmap string string)));
  arp_n : string -> option string;
  analyze_scan_results : ScanMetadata -> list Device -> string;
  scan_device_vulnerabilities :
    Device -> gmap string PyValue -> Result (list Vulnerability * ScanMetadata)
}.

(** ** network_scanner.py: discovery and profiling *)

Module Scanner.

Section WithEnv.
Variable env : Env.

(** [str(uuid.uuid4())] *)
Definition new_uuid : M string :=
  fun w => (Ok (uuid4 env (uuids w)), mkWorld (db w) (clock w) (S (uuids w))).

(** A dictionary with [True] values, as the list of its keys in insertion
    order. *)
Definition dict_set (k : string) (keys : list string) : list string :=
  if bool_decide (k ∈ keys) then keys else keys ++ [k].

(** [d.update(other)] *)
Definition dict_update (keys other : list string) : list string :=
  fold_left (fun acc k => dict_set k acc) other keys.

Definition _ping_sweep (target : string) : list string :=
  match nm_ping_scan env target with
  | Ok hosts =>
      fold_left
        (fun responsive_hosts '(host, state) =>
           if String.eqb state "up" then dict_set host responsive_hosts
           else responsive_hosts)
        hosts []
  | Raise _ => []
  end.

Definition _arp_scan (target : string) : list string :=
  match arp_a env with
  | Ok ips =>
      fold_left
        (fun arp_results ip =>
           match in_network env ip target with
           | Some true => dict_set ip arp_results
           | _ => arp_results
           end)
        ips []
  | Raise _ => []
  end.

Definition _is_local_network (target : string) : bool :=
  match private_network env target with
  | Some b => b
  | None => false
  end.

(** The result dictionary of [port_scan_device]. *)
Inductive PortScan :=
| PortResults (open_ports filtered_ports closed_ports : list Z)
              (services : gmap string ServiceInfo)
| PortError (error : string).

Definition port_row_step (acc : list Z * list Z * list Z * gmap string ServiceInfo)
    (row : PortRow) : list Z * list Z * list Z * gmap string ServiceInfo :=
  let '(open_, filtered, closed, svcs) := acc in
  if String.eqb (row_state row) "open" then
    let service_info :=
      {| svc_port := row_port row; svc_protocol := row_protocol row;
         svc_state := row_state row;
         svc_name := default "" (row_name row);
         svc_product := default "" (row_product row);
         svc_version := default "" (row_version row);
         svc_extrainfo := default "" (row_extrainfo row) |} in
    (open_ ++ [row_port row], filtered, closed,
     <[Py.str (row_port row) := service_info]> svcs)
  else if String.eqb (row_state row) "filtered" then
    (open_, filtered ++ [row_port row], closed, svcs)
  else if String.eqb (row_state row) "closed" then
    (open_, filtered, closed ++ [row_port row], svcs)
  else acc.

(** [port_scan_device(ip, "1-1000", "syn")] *)
Definition port_scan_device (ip : string) : M PortScan :=
  match nm_port_scan env ip with
  | Ok host =>
      let* scan_time := utcnow in
      let '(open_, filtered, closed, svcs) :=
        match host with
        | Some rows => fold_left port_row_step rows ([], [], [], ∅)
        | None => ([], [], [], ∅)
        end in
      ret (PortResults open_ filtered closed svcs)
  | Raise e =>
      let* scan_time := utcnow in
      ret (PortError e)
  end.

Definition _detect_os (ip : string) : option (gmap string string) :=
  match nm_os_scan env ip with
  | Ok (Some os_matches) =>
      match os_matches with
      | best_match :: _ =>
          Some (<["name" := default "" (best_match !! "name")]>
                (<["accuracy" := default "" (best_match !! "accuracy")]>
                 (<["vendor" := default "" (best_match !! "vendor")]> ∅)))
      | [] => None
      end
  | Ok None => None
  | Raise _ => None
  end.

Definition _get_mac_address (ip : string) : option string := arp_n env ip.

(** [Device(ip_address=ip, first_discovered=utcnow(), last_seen=utcnow())]:
    the two arguments are evaluated first, then the default factories of
    [id], [created_at] and [updated_at] run in field order. *)
Definition new_device (ip : string) : M Device :=
  let* fd := utcnow in
  let* ls := utcnow in
  let* i := new_uuid in
  let* ca := utcnow in
  let* ua := utcnow in
  ret {| id := i; ip_address := ip; mac_address := None; hostname := None;
         device_type := UNKNOWN; os_name := None; os_version := None;
         vendor := None; open_ports := []; services := ∅; last_seen := ls;
         first_discovered := fd; is_active := true; created_at := ca;
         updated_at := ua |}.

Definition _scan_device_details (ip : string) (options : gmap string PyValue)
  : M (option Device) :=
  try_except
    ((* Start with basic device info *)
     let* device := new_device ip in
     (* Get hostname *)
     let* device :=
       match gethostbyaddr env ip with
       | Resolved h => ret (set_hostname (Some h) device)
       | NoName => ret device
       | LookupFailed msg => raise msg
       end in
     (* Perform quick port scan to identify services *)
     let* port_results := port_scan_device ip in
     let device :=
       match port_results with
       | PortResults open_ _ _ svcs => set_ports open_ svcs device
       | PortError _ => device
       end in
     (* OS detection (if enabled in options) *)
     let device :=
       if truthy (default (PyBool false) (options !! "os_detection")) then
         match _detect_os ip with
         | Some os_info =>
             if bool_decide (os_info ≠ ∅) then
               set_os (os_info !! "name") (os_info !! "version")
                      (os_info !! "vendor") device
             else device
         | None => device
         end
       else device in
     (* Device type classification *)
     let device := set_device_type (_classify_device_type device) device in
     (* MAC address detection (for local network) *)
     let device :=
       match _get_mac_address ip with
       | Some mac =>
           if Py.truthy_str mac then set_mac_address (Some mac) device else device
       | None => device
       end in
     ret (Some device))
    (fun _ => ret None).

(** The loop over the responsive hosts of one range. *)
Fixpoint scan_hosts (options : gmap string PyValue) (hosts : list string)
    (devices : list Device) : M (list Device) :=
  match hosts with
  | [] => ret devices
  | ip :: rest =>
      let* device :=
        try_except (_scan_device_details ip options) (fun _ => ret None) in
      scan_hosts options rest
        (match device with
         | Some d => devices ++ [d]
         | None => devices
         end)
  end.

(** The responsive hosts of one range: the ping sweep, joined by the ARP
    table on a local network. *)
Definition responsive_hosts (ip_range : string) : list string :=
  let ping_results := _ping_sweep ip_range in
  if _is_local_network ip_range then dict_update ping_results (_arp_scan ip_range)
  else ping_results.

Definition techniques_of (ip_range : string) : list string :=
  if _is_local_network ip_range then ["ping_sweep"; "arp_scan"] else ["ping_sweep"].

(** The loop over the parsed ranges. *)
Fixpoint scan_ranges (options : gmap string PyValue) (ip_ranges : list string)
    (devices : list Device) (techniques : list string)
  : M (list Device * list string) :=
  match ip_ranges with
  | [] => ret (devices, techniques)
  | ip_range :: rest =>
      let* devices := scan_hosts options (responsive_hosts ip_range) devices in
      scan_ranges options rest devices (techniques ++ techniques_of ip_range)
  end.

Definition discover_network_devices (target : string) (scan_options : gmap string PyValue)
  : M (list Device * ScanMetadata) :=
  let* started := utcnow in
  match @resolve_target (env_netaddr env) target with
  | Ok ip_ranges =>
      let* (devices, techniques) := scan_ranges scan_options ip_ranges [] [] in
      let* completed := utcnow in
      ret (devices,
           {| md_target := Some target; md_scan_type := Some "network_discovery";
              md_started_at := Some started; md_techniques_used := techniques;
              md_completed_at := Some completed;
              md_devices_found := Some (Z.of_nat (length devices));
              md_duration := Some (completed - started);
              md_error := None |})
  | Raise e =>
      let* completed := utcnow in
      ret ([],
           {| md_target := Some target; md_scan_type := Some "network_discovery";
              md_started_at := Some started; md_techniques_used := [];
              md_completed_at := Some completed;
              md_devices_found := None; md_duration := None;
              md_error := Some e |})
  end.

End WithEnv.

End Scanner.

Import Scanner.

(** ** server.py: the background task *)

Module Server.

(** Lines 357-368: the upsert of one discovered device, keyed by its IP
    address.  The update writes every field of [device.dict()] and a
    fresh [updated_at]. *)
Definition save_device (device : Device) : M unit :=
  let* d := get_db in
  (* Check if device already exists *)
  match find_one (by_ip (ip_address device)) (devices d) with
  | Some existing =>
      (* Update existing device *)
      let* now := utcnow in
      modify_db (with_devices
        (update_one (by_ip (ip_address device)) (fun _ => set_updated_at now device)))
  | None =>
      (* Insert new device *)
      modify_db (with_devices (insert_one device))
  end.

(** Lines 384-393: a finding is inserted unless a stored one has the same
    [device_id], [title] and [port]. *)
Definition save_vulnerability (vuln : Vulnerability) : M unit :=
  let* d := get_db in
  (* Check if vulnerability already exists *)
  match find_one (by_vuln_key (device_id vuln) (title vuln) (port vuln))
                 (vulnerabilities d) with
  | Some existing => ret tt
  | None => modify_db (with_vulnerabilities (insert_one vuln))
  end.

Section WithEnv.
Variable env : Env.

(** The loop over the target devices of a vulnerability scan. *)
Fixpoint scan_target_devices (options : gmap string PyValue)
    (target_devices : list Device) (vulnerabilities : list Vulnerability)
  : M (list Vulnerability) :=
  match target_devices with
  | [] => ret vulnerabilities
  | device :: rest =>
      match scan_device_vulnerabilities env device options with
      | Ok (device_vulns, device_metadata) =>
          (* Save vulnerabilities *)
          let* _ := for_each device_vulns save_vulnerability in
          scan_target_devices options rest (vulnerabilities ++ device_vulns)
      | Raise e => raise e
      end
  end.

(** Lines 353-393 of [run_scan]: the branch on the scan type, which
    yields the job's [devices], [vulnerabilities] and [scan_metadata]. *)
Definition run_scan_kind (scan_type : ScanType) (target : string)
    (options : gmap string PyValue)
  : M (list Device * list Vulnerability * ScanMetadata) :=
  match scan_type with
  | NETWORK_DISCOVERY =>
      let* (devices, scan_metadata) :=
        discover_network_devices env target options in
      (* Save discovered devices *)
      let* _ := for_each devices save_device in
      ret (devices, [], scan_metadata)
  | VULNERABILITY_SCAN =>
      (* Get devices for target *)
      let* d := get_db in
      let target_devices :=
        if String.eqb target "all" then find_all is_active (devices d)
        else find_all (by_ip target) (devices d) in
      let* vulnerabilities := scan_target_devices options target_devices [] in
      ret ([], vulnerabilities, empty_metadata)
  | _ => ret ([], [], empty_metadata)
  end.

(** The [try] block of [run_scan]. *)
Definition run_scan_body (scan_id : string) (scan_type : ScanType) (target : string)
    (options : gmap string PyValue) : M unit :=
  (* Update scan status to running *)
  let* now := utcnow in
  let* _ := modify_db (with_scan_results
              (update_one (by_scan_id scan_id) (set_running now))) in
  let* (devices, vulnerabilities, scan_metadata) :=
    run_scan_kind scan_type target options in
  (* Get AI analysis of scan results *)
  let ai_summary :=
    match devices with
    | _ :: _ => analyze_scan_results env scan_metadata devices
    | [] => "Scan completed successfully"
    end in
  (* Update scan result *)
  let* now := utcnow in
  modify_db (with_scan_results
    (update_one (by_scan_id scan_id)
       (set_completed now (Z.of_nat (length devices))
          (Z.of_nat (length vulnerabilities)) scan_metadata ai_summary))).

(** The [except Exception as e] block of [run_scan]. *)
Definition run_scan_failed (scan_id : string) (e : string) : M unit :=
  let* now := utcnow in
  modify_db (with_scan_results (update_one (by_scan_id scan_id) (set_failed now e))).

Definition run_scan (scan_id : string) (scan_type : ScanType) (target : string)
    (options : gmap string PyValue) : M unit :=
  try_except (run_scan_body scan_id scan_type target options)
             (run_scan_failed scan_id).

End WithEnv.

(** The stored job record. *)
Definition job (scan_id : string) (w : World) : option ScanResult :=
  find_one (by_scan_id scan_id) (scan_results (db w)).

End Server.

Import Server.

(** ** Vocabulary of the statements *)

(** The dedup key of a finding. *)
Definition vuln_key (v : Vulnerability) : string * string * option Z :=
  (device_id v, title v, port v).

(** The stored findings that carry a given key. *)
Definition stored_with_key (k : string * string * option Z) (w : World)
  : list Vulnerability :=
  filter (fun v => vuln_key v = k) (vulnerabilities (db w)).

(** The stored devices that carry a given IP address. *)
Definition stored_with_ip (ip : string) (w : World) : list Device :=
  filter (fun d => ip_address d = ip) (devices (db w)).

(** One step of the finding merge on the collection itself. *)
Definition merge_vuln (stored : list Vulnerability) (v : Vulnerability)
  : list Vulnerability :=
  match find_one (by_vuln_key (device_id v) (title v) (port v)) stored with
  | Some _ => stored
  | None => insert_one v stored
  end.

(** The merge loop of one job over the findings of one device. *)
Definition save_vulnerabilities (device_vulns : list Vulnerability) : M unit :=
  for_each device_vulns save_vulnerability.

(** Profiling of a host fails when its reverse lookup raises anything but
    the two silenced errors; every other step of the profiler catches its
    own exceptions. *)
Definition profiling_fails (env : Env) (ip : string) : bool :=
  match gethostbyaddr env ip with
  | LookupFailed _ => true
  | _ => false
  end.

(** The hosts of a list whose profiling does not fail. *)
Definition profiled (env : Env) (hosts : list string) : list string :=
  filter (fun ip => profiling_fails env ip = false) hosts.

(** All responsive hosts of a target, range by range, in the order the
    discovery loop visits them; none when the target does not resolve. *)
Definition all_responsive (env : Env) (target : string) : list string :=
  match @resolve_target (env_netaddr env) target with
  | Ok ip_ranges => concat (responsive_hosts env <$> ip_ranges)
  | Raise _ => []
  end.

(** [options.get('os_detection', False)] as a truth value. *)
Definition os_detection (options : gmap string PyValue) : bool :=
  truthy (default (PyBool false) (options !! "os_detection")).

(** A step keeps an invariant of the store. *)
Definition preserves {A} (P : DB -> Prop) (m : M A) : Prop :=
  forall w, P (db w) -> P (db (snd (m w))).

(** ** A small network, for running the model

    The scenario of the end-to-end test plan: the block 10.0.0.0/29, where
    10.0.0.1 (ports 22 and 80) and 10.0.0.2 (port 631) answer, 10.0.0.3
    answers but its reverse lookup times out, and 10.0.0.4 is down.  The
    blocks within 10.0.0.0/8 are private, and the scenario has no other;
    the [arp] command is missing, so the ARP scan that follows the ping
    sweep of a private block finds nothing.  The prober finds the same weak service twice on
    10.0.0.1, raises without a message on 10.0.0.2 and with one on
    10.0.0.3. *)

Module Lab.

Definition row (p : Z) (state name : string) : PortRow :=
  {| row_protocol := "tcp"; row_port := p; row_state := state;
     row_name := Some name; row_product := None; row_version := None;
     row_extrainfo := None |}.

Definition os_match (name accuracy vend version : string) : gmap string string :=
  <["name" := name]> (<["accuracy" := accuracy]>
    (<["vendor" := vend]> (<["version" := version]> ∅))).

Definition finding (i dev t : string) (p : option Z) : Vulnerability :=
  {| vuln_id := i; device_id := dev; cve_id := None; title := t;
     description := "weak service"; severity := HIGH; cvss_score := None;
     affected_service := None; port := p; solution := None; references := [];
     discovered_at := 0; is_resolved := false; ai_analysis := None |}.

Definition env : Env :=
  {| env_netaddr := strict_ipv4;
     uuid4 := fun n => "uuid-" +:+ Py.str (Z.of_nat n);
     nm_ping_scan := fun t =>
       if String.eqb t "10.0.0.0/29" then
         Ok [("10.0.0.1", "up"); ("10.0.0.2", "up"); ("10.0.0.3", "up");
             ("10.0.0.4", "down")]
       else if String.eqb t "10.0.0.1/32" then Ok [("10.0.0.1", "up")]
       else Raise "nmap program was not found in path";
     private_network := fun t =>
       match cidr_text t with
       | Some _ => if Py.startswith "10." t then Some true else None
       | None => None
       end;
     arp_a := Raise "arp: command not found";
     in_network := fun _ _ => None;
     gethostbyaddr := fun ip =>
       if String.eqb ip "10.0.0.1" then Resolved "web-1"
       else if String.eqb ip "10.0.0.3" then LookupFailed "timed out"
       else NoName;
     nm_port_scan := fun ip =>
       if String.eqb ip "10.0.0.1" then
         Ok (Some [row 22 "open" "ssh"; row 80 "open" "http"; row 443 "closed" "https"])
       else if String.eqb ip "10.0.0.2" then Ok (Some [row 631 "open" "ipp"])
       else Ok None;
     nm_os_scan := fun _ =>
       Ok (Some [os_match "Linux 5.4" "98" "Linux" "5.4";
                 os_match "FreeBSD 12" "85" "FreeBSD" "12"]);
     arp_n := fun _ => None;
     analyze_scan_results := fun _ _ =>
       "AI analysis unavailable. Manual review of scan results recommended.";
     scan_device_vulnerabilities := fun d _ =>
       if String.eqb (ip_address d) "10.0.0.1" then
         Ok ([finding "v-1" (id d) "Telnet enabled" (Some 23);
              finding "v-2" (id d) "Telnet enabled" (Some 23)], empty_metadata)
       else if String.eqb (ip_address d) "10.0.0.2" then Raise ""
       else Raise "probe timed out" |}.

(** A pending job record, as [create_scan] inserts it. *)
Definition pending (i : string) (ty : ScanType) (t : string) : ScanResult :=
  {| scan_id := i; scan_type := ty; target := t; status := PENDING;
     started_at := 0; completed_at := None; duration_seconds := None;
     devices_discovered := 0; vulnerabilities_found := 0; ports_scanned := 0;
     results := empty_metadata; error_message := None; ai_summary := None;
     created_by := None |}.

(** A world with an empty device store and the given job records. *)
Definition fresh (jobs : list ScanResult) : World :=
  mkWorld (mkDB [] [] jobs) 100 0.

(** A device record as a first discovery stored it, and the record a later
    profiling pass of the same address produces. *)
Definition first_seen : Device :=
  {| id := "dev-A"; ip_address := "10.0.0.1"; mac_address := None;
     hostname := Some "web-1"; device_type := SERVER; os_name := None;
     os_version := None; vendor := None; open_ports := [22; 80];
     services := ∅; last_seen := 2; first_discovered := 1;
     is_active := true; created_at := 3; updated_at := 4 |}.

Definition seen_again : Device :=
  {| id := "dev-B"; ip_address := "10.0.0.1"; mac_address := None;
     hostname := Some "web-1"; device_type := SERVER; os_name := None;
     os_version := None; vendor := None; open_ports := [22; 80; 443];
     services := ∅; last_seen := 51; first_discovered := 50;
     is_active := true; created_at := 52; updated_at := 53 |}.

(** A stored device of the given address. *)
Definition host (ip : string) (ports : list Z) : Device :=
  {| id := "dev-" +:+ ip; ip_address := ip; mac_address := None;
     hostname := None; device_type := UNKNOWN; os_name := None;
     os_version := None; vendor := None; open_ports := ports;
     services := ∅; last_seen := 2; first_discovered := 1;
     is_active := true; created_at := 3; updated_at := 4 |}.

End Lab.

(** Unfolds the steps of a job. *)
Ltac run_job :=
  repeat (unfold bind, ret, raise, try_except, utcnow, new_uuid, get_db,
            modify_db, new_device, port_scan_device; simpl).

(** ** network_scanner.py: network statistics *)

Module Stats.

(** [DeviceType.value] *)
Definition device_type_value (t : DeviceType) : string :=
  match t with
  | ROUTER => "router"
  | SWITCH => "switch"
  | SERVER => "server"
  | WORKSTATION => "workstation"
  | MOBILE => "mobile"
  | IOT => "iot"
  | PRINTER => "printer"
  | UNKNOWN => "unknown"
  end.

(** The [stats] dictionary of [get_network_statistics]; the four counters
    are those of its [security_summary]. *)
Record NetworkStats := mkNetworkStats {
  total_devices : Z;
  active_devices : Z;
  device_types : gmap string Z;
  common_ports : gmap string Z;
  os_distribution : gmap string Z;
  devices_with_ssh : Z;
  devices_with_rdp : Z;
  devices_with_web : Z;
  devices_with_smb : Z
}.

(** [d[k] = d.get(k, 0) + 1] *)
Definition incr (k : string) (d : gmap string Z) : gmap string Z :=
  <[k := default 0 (d !! k) + 1]> d.

(** [port in device.open_ports], on the list itself. *)
Definition has_port (device : Device) (p : Z) : bool :=
  bool_decide (p ∈ open_ports device).

(** [n += 1] under a condition. *)
Definition bump (c : bool) (n : Z) : Z := if c then n + 1 else n.

(** The body of the loop over the devices. *)
Definition stats_step (stats : NetworkStats) (device : Device) : NetworkStats :=
  {| total_devices := total_devices stats;
     active_devices := active_devices stats;
     (* Device type distribution *)
     device_types := incr (device_type_value (device_type device)) (device_types stats);
     (* Common ports *)
     common_ports :=
       fold_left (fun acc port => incr (Py.str port) acc) (open_ports device)
                 (common_ports stats);
     (* OS distribution *)
     os_distribution :=
       match os_name device with
       | Some name =>
           if Py.truthy_str name then incr name (os_distribution stats)
           else os_distribution stats
       | None => os_distribution stats
       end;
     (* Security-relevant services *)
     devices_with_ssh := bump (has_port device 22) (devices_with_ssh stats);
     devices_with_rdp := bump (has_port device 3389) (devices_with_rdp stats);
     devices_with_web :=
       bump (Py.any (has_port device) [80; 443; 8080; 8443]) (devices_with_web stats);
     devices_with_smb := bump (has_port device 445) (devices_with_smb stats) |}.

Definition get_network_statistics (devices : list Device) : NetworkStats :=
  fold_left stats_step devices
    {| total_devices := Z.of_nat (length devices);
       active_devices := Z.of_nat (length (List.filter is_active devices));
       device_types := ∅; common_ports := ∅; os_distribution := ∅;
       devices_with_ssh := 0; devices_with_rdp := 0; devices_with_web := 0;
       devices_with_smb := 0 |}.

(** The number of elements of a list that satisfy a test. *)
Definition count {A} (f : A -> bool) (l : list A) : Z :=
  Z.of_nat (length (List.filter f l)).

End Stats.

(** ** server.py: the endpoints around a job *)

Module Api.

(** The answer of an endpoint: a body, or the [HTTPException] it raises. *)
Inductive Http (A : Type) :=
| Response (body : A)
| HTTPException (status_code : Z) (detail : string).
#[global] Arguments Response {A} body.
#[global] Arguments HTTPException {A} status_code detail.

Record ScanRequest := mkScanRequest {
  req_scan_type : ScanType;
  req_target : string;
  req_options : option (gmap string PyValue)
}.

Record DeviceCreate := mkDeviceCreate {
  new_ip_address : string;
  new_mac_address : option string;
  new_hostname : option string;
  new_device_type : DeviceType
}.

Definition by_device_id (i : string) (d : Device) : bool := String.eqb (id d) i.

Section WithEnv.
Variable env : Env.

(** [POST /scans], up to the scheduling of the background task:
    [ScanResult(scan_type=..., target=..., status=PENDING)] draws its [id]
    and its [started_at] from the default factories, and is inserted. *)
Definition create_scan (scan_request : ScanRequest) : M ScanResult :=
  (* Create scan record *)
  let* i := new_uuid env in
  let* started := utcnow in
  let scan_result :=
    {| scan_id := i; scan_type := req_scan_type scan_request;
       target := req_target scan_request; status := PENDING;
       started_at := started; completed_at := None; duration_seconds := None;
       devices_discovered := 0; vulnerabilities_found := 0; ports_scanned := 0;
       results := empty_metadata; error_message := None; ai_summary := None;
       created_by := None |} in
  (* Save to database *)
  let* _ := modify_db (with_scan_results (insert_one scan_result)) in
  ret scan_result.

(** The task that [create_scan] hands to [background_tasks.add_task]. *)
Definition background_task (scan_request : ScanRequest) (scan_result : ScanResult)
  : M unit :=
  run_scan env (scan_id scan_result) (req_scan_type scan_request)
    (req_target scan_request) (default ∅ (req_options scan_request)).

(** A request served and its task run to the end. *)
Definition submit_and_run (scan_request : ScanRequest) : M ScanResult :=
  let* scan_result := create_scan scan_request in
  let* _ := background_task scan_request scan_result in
  ret scan_result.

(** [GET /scans/{scan_id}] *)
Definition get_scan (scan_id : string) : M (Http ScanResult) :=
  let* d := get_db in
  match find_one (by_scan_id scan_id) (scan_results d) with
  | Some scan => ret (Response scan)
  | None => ret (HTTPException 404 "Scan not found")
  end.

(** [POST /devices]: the [Device] built from [device_data.dict()] draws [id],
    [last_seen], [first_discovered], [created_at] and [updated_at] from the
    default factories, in field order, and is inserted. *)
Definition add_device (device_data : DeviceCreate) : M Device :=
  let* i := new_uuid env in
  let* ls := utcnow in
  let* fd := utcnow in
  let* ca := utcnow in
  let* ua := utcnow in
  let device :=
    {| id := i; ip_address := new_ip_address device_data;
       mac_address := new_mac_address device_data;
       hostname := new_hostname device_data;
       device_type := new_device_type device_data;
       os_name := None; os_version := None; vendor := None; open_ports := [];
       services := ∅; last_seen := ls; first_discovered := fd;
       is_active := true; created_at := ca; updated_at := ua |} in
  let* _ := modify_db (with_devices (insert_one device)) in
  ret device.

(** [GET /devices/{device_id}] *)
Definition get_device (device_id : string) : M (Http Device) :=
  let* d := get_db in
  match find_one (by_device_id device_id) (devices d) with
  | Some device => ret (Response device)
  | None => ret (HTTPException 404 "Device not found")
  end.

End WithEnv.

End Api.

(** ** Further vocabulary *)

(** The rows of a port table in a given state. *)
Definition rows_in_state (state : string) (rows : list PortRow) : list PortRow :=
  List.filter (fun row => String.eqb (row_state row) state) rows.

(** The service record that [port_scan_device] builds from a row. *)
Definition service_of_row (row : PortRow) : ServiceInfo :=
  {| svc_port := row_port row; svc_protocol := row_protocol row;
     svc_state := row_state row;
     svc_name := default "" (row_name row);
     svc_product := default "" (row_product row);
     svc_version := default "" (row_version row);
     svc_extrainfo := default "" (row_extrainfo row) |}.

(** The open ports that the engine reports for a host: none when the scan
    raises or the host is missing from its answer. *)
Definition scanned_open_ports (env : Env) (ip : string) : list Z :=
  match nm_port_scan env ip with
  | Ok (Some rows) => row_port <$> rows_in_state "open" rows
  | _ => []
  end.

(** The host name the resolver gives, if any. *)
Definition resolved_name (env : Env) (ip : string) : option string :=
  match gethostbyaddr env ip with
  | Resolved h => Some h
  | _ => None
  end.

(** The hosts a ping sweep reports as up. *)
Definition hosts_up (env : Env) (t : string) : list string :=
  match nm_ping_scan env t with
  | Ok hosts => fst <$> List.filter (fun hs => String.eqb (snd hs) "up") hosts
  | Raise _ => []
  end.

(** The ARP entries that lie in a range. *)
Definition arp_in_range (env : Env) (t : string) : list string :=
  match arp_a env with
  | Ok ips =>
      List.filter
        (fun ip => match in_network env ip t with Some true => true | _ => false end)
        ips
  | Raise _ => []
  end.

(** The devices a vulnerability job scans for a target. *)
Definition vulnerability_targets (target : string) (w : World) : list Device :=
  if String.eqb target "all" then find_all is_active (devices (db w))
  else find_all (by_ip target) (devices (db w)).

(** The findings the prober returns for a list of devices, in order, when
    it raises on none of them. *)
Fixpoint findings_of (env : Env) (options : gmap string PyValue)
    (ds : list Device) : option (list Vulnerability) :=
  match ds with
  | [] => Some []
  | d :: rest =>
      match scan_device_vulnerabilities env d options with
      | Ok (vs, _) => (fun more => vs ++ more) <$> findings_of env options rest
      | Raise _ => None
      end
  end.

(** The IP addresses of the stored devices. *)
Definition stored_ips (w : World) : list string := ip_address <$> devices (db w).

(** A tally over a list: [d[k] = d.get(k, 0) + 1] for the key of each
    element that has one. *)
Definition tally {A} (key : A -> option string) (xs : list A)
    (m : gmap string Z) : gmap string Z :=
  fold_left (fun m x => match key x with
                        | Some k => Stats.incr k m
                        | None => m
                        end) xs m.

(** The key under which a device counts in [os_distribution]: its OS
    name, when it has a non-empty one. *)
Definition os_key (d : Device) : option string :=
  match os_name d with
  | Some name => if Py.truthy_str name then Some name else None
  | None => None
  end.

(** All the open ports of a list of devices, with repetitions. *)
Definition all_open_ports (ds : list Device) : list Z :=
  concat (open_ports <$> ds).

(** [s.isascii()] *)
Definition ascii_text (s : string) : bool :=
  forallb (fun c => (nat_of_ascii c <? 128)%nat) (list_ascii_of_string s).

(** The three scan types that [run_scan] has no branch for. *)
Definition unsupported (ty : ScanType) : bool :=
  match ty with
  | PORT_SCAN | SMB_SCAN | AD_SCAN => true
  | _ => false
  end.

(* ================================================================= *)
(** * Properties *)

(** ** The classifier *)

Section ClassifierFacts.

Lemma port_open_spec (l : list Z) (p : Z) :
  port_open (list_to_set l) p = true <-> p ∈ l.
Proof.
  unfold port_open. rewrite bool_decide_eq_true. apply elem_of_list_to_set.
Qed.

(** The rule chain, read off rule by rule. *)
Lemma classify_router_rule d :
  router_rule d = true -> _classify_device_type d = ROUTER.
Proof.
  unfold router_rule, port_set, _classify_device_type. intros ->. reflexivity.
Qed.

Lemma classify_server_rule d :
  router_rule d = false -> server_signature d = true ->
  _classify_device_type d = SERVER.
Proof.
  unfold router_rule, server_signature, port_set, _classify_device_type.
  intros -> ->. reflexivity.
Qed.

Lemma classify_printer_rule d :
  router_rule d = false -> server_signature d = false ->
  printer_signature d = true ->
  _classify_device_type d = PRINTER.
Proof.
  unfold router_rule, server_signature, printer_signature, port_set,
    _classify_device_type.
  intros -> -> ->. reflexivity.
Qed.

Lemma router_rule_no_hostname d :
  router_hostname (hostname d) = false -> router_rule d = false.
Proof. unfold router_rule. intros ->. apply andb_false_r. Qed.

(** The classification is a function of the port set and the host name. *)
Lemma classify_by_port_set d1 d2 :
  port_set d1 = port_set d2 -> hostname d1 = hostname d2 ->
  _classify_device_type d1 = _classify_device_type d2.
Proof.
  unfold port_set, _classify_device_type. intros -> ->. reflexivity.
Qed.

Lemma classify_range d :
  _classify_device_type d ∈ [ROUTER; SERVER; PRINTER; SWITCH; WORKSTATION; UNKNOWN].
Proof.
  unfold _classify_device_type.
  repeat case_match; set_solver.
Qed.

End ClassifierFacts.

Example classify_22_80 : _classify_device_type (sample None [22; 80]) = SERVER.
Proof. vm_compute. reflexivity. Qed.

Example classify_router :
  _classify_device_type (sample (Some "Core-ROUTER-1") [80; 631]) = ROUTER.
Proof. vm_compute. reflexivity. Qed.

Example classify_161_router :
  _classify_device_type (sample (Some "router.lan") [161]) = ROUTER.
Proof. vm_compute. reflexivity. Qed.

(** C2, as stated, fails: a device that matches the server and the printer
    port signatures is classified [ROUTER], not [SERVER], when one of its
    open ports is a router port and its host name contains "router"; the
    router rule comes before both. *)
Lemma server_before_printer_not_universal :
  ~ (forall d : Device,
       server_signature d = true -> printer_signature d = true ->
       _classify_device_type d = SERVER).
Proof.
  intros H.
  specialize (H (sample (Some "router") [80; 631])).
  vm_compute in H. specialize (H eq_refl eq_refl). discriminate H.
Qed.

(** C2 (amended): the classifier is a first-match-wins rule chain.  A device
    with open ports {22,80} and no "router" host name is a server; one with
    {631} is a printer; one with exactly {161} and no "router" host name is a
    switch; one with no open port is unknown; and a device matching both the
    server and the printer port signatures is a server, never a printer,
    unless the router rule, which comes first, matches: then it is a
    router. *)
Theorem classifier_rule_chain :
  (forall d, port_set d = {[22; 80]} -> router_hostname (hostname d) = false ->
             _classify_device_type d = SERVER) /\
  (forall d, port_set d = {[631]} -> _classify_device_type d = PRINTER) /\
  (forall d, port_set d = {[161]} -> router_hostname (hostname d) = false ->
             _classify_device_type d = SWITCH) /\
  (forall d, port_set d = ∅ -> _classify_device_type d = UNKNOWN) /\
  (forall d, server_signature d = true -> printer_signature d = true ->
             _classify_device_type d = (if router_rule d then ROUTER else SERVER)
             /\ _classify_device_type d <> PRINTER).
Proof.
  repeat split.
  - intros d Hp Hh. apply classify_server_rule.
    + by apply router_rule_no_hostname.
    + unfold server_signature. rewrite Hp. vm_compute. reflexivity.
  - intros d Hp. apply classify_printer_rule.
    + unfold router_rule. rewrite Hp. reflexivity.
    + unfold server_signature. rewrite Hp. vm_compute. reflexivity.
    + unfold printer_signature. rewrite Hp. vm_compute. reflexivity.
  - intros d Hp Hh. unfold _classify_device_type.
    fold (port_set d). rewrite Hp, Hh. vm_compute. reflexivity.
  - intros d Hp. unfold _classify_device_type.
    fold (port_set d). rewrite Hp. reflexivity.
  - destruct (router_rule d) eqn:Hr.
    + by apply classify_router_rule.
    + by apply classify_server_rule.
  - destruct (router_rule d) eqn:Hr.
    + rewrite (classify_router_rule d Hr). discriminate.
    + rewrite (classify_server_rule d Hr H). discriminate.
Qed.

Lemma classifier_rule_chain_witness :
  _classify_device_type (sample None [80; 22]) = SERVER /\
  _classify_device_type (sample (Some "router") [631]) = PRINTER /\
  _classify_device_type (sample (Some "sw-3") [161]) = SWITCH /\
  _classify_device_type (sample (Some "router") []) = UNKNOWN /\
  _classify_device_type (sample (Some "files") [21; 9100]) = SERVER /\
  _classify_device_type (sample (Some "Edge-Router") [80; 631]) = ROUTER.
Proof.
  destruct classifier_rule_chain as (H1 & H2 & H3 & H4 & H5).
  split; [| split; [| split; [| split; [| split]]]].
  - apply H1; vm_compute; reflexivity.
  - apply H2; vm_compute; reflexivity.
  - apply H3; vm_compute; reflexivity.
  - apply H4; vm_compute; reflexivity.
  - apply (H5 (sample (Some "files") [21; 9100])); vm_compute; reflexivity.
  - apply (H5 (sample (Some "Edge-Router") [80; 631])); vm_compute; reflexivity.
Defined.

(** C10: the classifier only ever answers router, server, printer, switch,
    workstation or unknown (never mobile or iot), and its answer is
    determined by the set of open ports and the host name: two devices that
    agree on those are classified alike, whatever their other fields. *)
Theorem classifier_range_and_inputs :
  (forall d, _classify_device_type d ∈
               [ROUTER; SERVER; PRINTER; SWITCH; WORKSTATION; UNKNOWN]
             /\ _classify_device_type d <> MOBILE
             /\ _classify_device_type d <> IOT) /\
  (forall d1 d2,
      (forall p, p ∈ open_ports d1 <-> p ∈ open_ports d2) ->
      hostname d1 = hostname d2 ->
      _classify_device_type d1 = _classify_device_type d2).
Proof.
  split.
  - intros d. pose proof (classify_range d) as Hr.
    split; [exact Hr |].
    split; intros E; rewrite E in Hr;
      repeat (apply elem_of_cons in Hr as [Hr | Hr]; [discriminate |]);
      by apply elem_of_nil in Hr.
  - intros d1 d2 Hp Hh. apply classify_by_port_set; [| exact Hh].
    unfold port_set. apply set_eq. intros p.
    rewrite !elem_of_list_to_set. apply Hp.
Qed.

(** ** The target parser *)

Section StringFacts.

Lemma has_char_app c a b :
  Py.has_char c (a +:+ b) = (Py.has_char c a || Py.has_char c b)%bool.
Proof.
  induction a as [| x a IH]; simpl; [reflexivity |].
  rewrite IH. apply orb_assoc.
Qed.

Lemma all_digits_app a b :
  all_digits (a +:+ b) = (all_digits a && all_digits b)%bool.
Proof.
  induction a as [| x a IH]; simpl; [reflexivity |].
  rewrite IH. apply andb_assoc.
Qed.

Lemma all_digits_no_char c s :
  Py.digit_val c = None -> all_digits s = true -> Py.has_char c s = false.
Proof.
  intros Hc. induction s as [| x s IH]; simpl; [reflexivity |].
  intros [Hx Hs]%andb_true_iff. rewrite (IH Hs), orb_false_r.
  destruct (Ascii.eqb_spec c x) as [-> | Hne]; [| reflexivity].
  rewrite Hc in Hx. apply bool_decide_eq_true in Hx. by destruct Hx.
Qed.

Lemma digit_not_space c : is_Some (Py.digit_val c) -> Py.is_space c = false.
Proof.
  unfold Py.digit_val, Py.is_space. intros [d Hd].
  destruct (48 <=? nat_of_ascii c)%nat eqn:H1; [| discriminate].
  destruct (nat_of_ascii c <=? 57)%nat eqn:H2; [| discriminate].
  apply Nat.leb_le in H1, H2.
  apply orb_false_iff; split; apply andb_false_iff.
  - right. apply Nat.leb_gt. lia.
  - right. apply Nat.leb_gt. lia.
Qed.

Lemma all_digits_rstrip s : all_digits s = true -> Py.rstrip s = s.
Proof.
  induction s as [| x s IH]; simpl; [reflexivity |].
  intros [Hx Hs]%andb_true_iff. rewrite (IH Hs).
  apply bool_decide_eq_true in Hx.
  destruct s; [| reflexivity]. by rewrite digit_not_space.
Qed.

Lemma all_digits_strip s : all_digits s = true -> Py.strip s = s.
Proof.
  intros Hs. unfold Py.strip.
  assert (Py.lstrip s = s) as ->; [| by apply all_digits_rstrip].
  destruct s as [| x s]; simpl in *; [reflexivity |].
  apply andb_true_iff in Hs as [Hx _]. apply bool_decide_eq_true in Hx.
  by rewrite digit_not_space.
Qed.

(** On a digit string [int] has neither white space to strip nor a sign
    to read. *)
Lemma int_all_digits s :
  all_digits s = true -> Py.int s = Py.int_digits 0 false s.
Proof.
  intros Hs. unfold Py.int. rewrite (all_digits_strip s Hs).
  destruct s as [| x s]; [reflexivity |].
  simpl in Hs. apply andb_true_iff in Hs as [Hx _].
  apply bool_decide_eq_true in Hx.
  destruct x as [[] [] [] [] [] [] [] []]; try reflexivity;
    vm_compute in Hx; by destruct Hx.
Qed.

Lemma all_digits_string_of_uint d :
  all_digits (NilEmpty.string_of_uint d) = true.
Proof. induction d; simpl; auto. Qed.

Lemma int_digits_of_uint_acc d p :
  Py.int_digits (Z.pos p) true (NilEmpty.string_of_uint d) =
  Some (Z.pos (Pos.of_uint_acc d p)).
Proof.
  revert p. induction d; intros p; simpl; [reflexivity | ..];
    match goal with
    | |- Py.int_digits ?a true _ = Some (Z.pos (Pos.of_uint_acc _ ?q)) =>
        replace a with (Z.pos q) by lia
    end; apply IHd.
Qed.

Lemma int_digits_of_uint d seen :
  d <> Decimal.Nil ->
  Py.int_digits 0 seen (NilEmpty.string_of_uint d) = Some (Z.of_N (Pos.of_uint d)).
Proof.
  revert seen. induction d; intros seen Hd; [done | ..]; simpl;
    try apply int_digits_of_uint_acc.
  destruct d; [reflexivity | ..]; by apply IHd.
Qed.

Lemma str_nonneg_digits n : 0 <= n -> all_digits (Py.str n) = true.
Proof.
  intros Hn. unfold Py.str. destruct n as [| p | p]; [reflexivity | | lia].
  simpl. unfold NilZero.string_of_uint.
  destruct (Pos.to_uint p); try reflexivity; apply all_digits_string_of_uint.
Qed.

(** [int(str(n)) == n] *)
Lemma int_str n : 0 <= n -> Py.int (Py.str n) = Some n.
Proof.
  intros Hn. rewrite int_all_digits by by apply str_nonneg_digits.
  unfold Py.str. destruct n as [| p | p]; [reflexivity | | lia].
  simpl. pose proof (DecimalPos.Unsigned.to_uint_nonnil p) as Hnil.
  assert (NilZero.string_of_uint (Pos.to_uint p) =
          NilEmpty.string_of_uint (Pos.to_uint p)) as ->
    by (by destruct (Pos.to_uint p)).
  rewrite int_digits_of_uint by exact Hnil.
  by rewrite DecimalPos.Unsigned.of_to.
Qed.

Lemma rsplit1_none sep s : Py.has_char sep s = false -> Py.rsplit1 sep s = None.
Proof.
  induction s as [| x s IH]; simpl; [reflexivity |].
  intros [Hx Hs]%orb_false_iff. rewrite (IH Hs).
  rewrite Ascii.eqb_sym. by rewrite Hx.
Qed.

Lemma rsplit1_last sep a b :
  Py.has_char sep b = false ->
  Py.rsplit1 sep (a +:+ String sep b) = Some (a, b).
Proof.
  intros Hb. induction a as [| x a IH]; simpl.
  - rewrite (rsplit1_none sep b Hb). by rewrite Ascii.eqb_refl.
  - by rewrite IH.
Qed.

Lemma split_none sep s : Py.has_char sep s = false -> Py.split sep s = [s].
Proof.
  induction s as [| x s IH]; simpl; [reflexivity |].
  intros [Hx Hs]%orb_false_iff. rewrite (IH Hs).
  rewrite Ascii.eqb_sym. by rewrite Hx.
Qed.

Lemma split_first sep a b :
  Py.has_char sep a = false ->
  Py.split sep (a +:+ String sep b) = a :: Py.split sep b.
Proof.
  induction a as [| x a IH]; simpl.
  - intros _. by rewrite Ascii.eqb_refl.
  - intros [Hx Ha]%orb_false_iff. rewrite (IH Ha).
    rewrite Ascii.eqb_sym. by rewrite Hx.
Qed.

End StringFacts.

Section ParserFacts.
Context `{Netaddr}.

(** The range branch on a target written [base.start-end]. *)
Lemma parse_target_range base a b :
  Py.has_char "/" base = false -> 0 <= a -> 0 <= b ->
  _parse_target (base +:+ "." +:+ Py.str a +:+ "-" +:+ Py.str b) =
  (fun i => base +:+ "." +:+ Py.str i +:+ "/32") <$> seqZ a (b + 1 - a).
Proof.
  intros Hbase Ha Hb.
  pose proof (str_nonneg_digits a Ha) as Da.
  pose proof (str_nonneg_digits b Hb) as Db.
  assert (Py.has_char "/" (base +:+ "." +:+ Py.str a +:+ "-" +:+ Py.str b) = false) as H1.
  { rewrite !has_char_app, Hbase.
    by rewrite (all_digits_no_char "/" _ eq_refl Da),
               (all_digits_no_char "/" _ eq_refl Db). }
  assert (Py.has_char "-" (base +:+ "." +:+ Py.str a +:+ "-" +:+ Py.str b) = true) as H2.
  { rewrite !has_char_app. simpl Py.has_char. by rewrite !orb_true_r. }
  assert (Py.has_char "." (base +:+ "." +:+ Py.str a +:+ "-" +:+ Py.str b) = true) as H3.
  { rewrite !has_char_app. simpl Py.has_char. by rewrite !orb_true_r. }
  assert (Py.has_char "." (Py.str a +:+ "-" +:+ Py.str b) = false) as H4.
  { rewrite !has_char_app.
    by rewrite (all_digits_no_char "." _ eq_refl Da),
               (all_digits_no_char "." _ eq_refl Db). }
  assert (Py.has_char "-" (Py.str a +:+ "-" +:+ Py.str b) = true) as H5.
  { rewrite !has_char_app. simpl Py.has_char. by rewrite !orb_true_r. }
  unfold _parse_target, parse_target_body.
  rewrite H1, H2, H3. cbn [andb].
  change ("." +:+ Py.str a +:+ "-" +:+ Py.str b)
    with (String "." (Py.str a +:+ "-" +:+ Py.str b)).
  rewrite (rsplit1_last "." base _ H4). cbn [mbind option_bind].
  rewrite H5.
  change ("-" +:+ Py.str b) with (String "-" (Py.str b)).
  rewrite split_first by by apply all_digits_no_char.
  rewrite split_none by by apply all_digits_no_char.
  rewrite !int_str by assumption. reflexivity.
Qed.

End ParserFacts.

Example parse_range_1_3 :
  @_parse_target strict_ipv4 "10.0.0.1-3" = ["10.0.0.1/32"; "10.0.0.2/32"; "10.0.0.3/32"].
Proof. vm_compute. reflexivity. Qed.

Example parse_single :
  @_parse_target strict_ipv4 "10.0.0.5" = ["10.0.0.5/32"].
Proof. vm_compute. reflexivity. Qed.

Example parse_999 : @_parse_target strict_ipv4 "999.1.1.1" = [].
Proof. vm_compute. reflexivity. Qed.

Example parse_cidr : @_parse_target strict_ipv4 "192.168.1.0/30" = ["192.168.1.0/30"].
Proof. vm_compute. reflexivity. Qed.

Example parse_reversed : @_parse_target strict_ipv4 "10.0.0.5-3" = [].
Proof. vm_compute. reflexivity. Qed.

Example parse_254_257 :
  @_parse_target strict_ipv4 "10.0.0.254-257" =
  ["10.0.0.254/32"; "10.0.0.255/32"; "10.0.0.256/32"; "10.0.0.257/32"].
Proof. vm_compute. reflexivity. Qed.

Example int_examples :
  Py.int " 12 " = Some 12 /\ Py.int "+7" = Some 7 /\ Py.int "-7" = Some (-7) /\
  Py.int "1_000" = Some 1000 /\ Py.int "1__0" = None /\ Py.int "" = None /\
  Py.int "0x10" = None /\ Py.int "007" = Some 7 /\ Py.int "_1" = None /\
  Py.int "1_" = None /\ Py.str (-12) = "-12" /\ Py.str 0 = "0".
Proof. vm_compute. repeat split. Qed.

(** ** The vulnerability merge *)

Section VulnerabilityMerge.

Lemma by_vuln_key_spec v x :
  by_vuln_key (device_id v) (title v) (port v) x = true <-> vuln_key x = vuln_key v.
Proof.
  unfold by_vuln_key, vuln_key.
  rewrite !andb_true_iff, !String.eqb_eq, bool_decide_eq_true.
  split; [intros [[-> ->] ->]; reflexivity | intros [= -> -> ->]; auto].
Qed.

Lemma find_key_none stored v :
  find_one (by_vuln_key (device_id v) (title v) (port v)) stored = None <->
  vuln_key v ∉ vuln_key <$> stored.
Proof.
  unfold find_one. split.
  - intros Hnone [x [Hk Hx]]%list_elem_of_fmap.
    apply list_elem_of_In in Hx.
    pose proof (find_none _ _ Hnone x Hx) as Hf.
    apply not_true_iff_false in Hf. apply Hf. by apply by_vuln_key_spec.
  - intros Hnot. destruct (find _ stored) as [x |] eqn:E; [| reflexivity].
    apply find_some in E as [Hx Hk]. exfalso. apply Hnot.
    apply by_vuln_key_spec in Hk. rewrite <- Hk.
    apply list_elem_of_fmap_2. by apply list_elem_of_In.
Qed.

(** A merge step keeps the keys distinct and makes the key present. *)
Lemma merge_vuln_NoDup stored v :
  NoDup (vuln_key <$> stored) -> NoDup (vuln_key <$> merge_vuln stored v).
Proof.
  intros Hnd. unfold merge_vuln.
  destruct (find_one _ stored) eqn:E; [exact Hnd |].
  apply find_key_none in E. unfold insert_one. rewrite fmap_app.
  apply NoDup_app. split; [exact Hnd |]. split; [| apply NoDup_singleton].
  intros k Hk Hk'. apply list_elem_of_singleton in Hk'. by subst k.
Qed.

Lemma merge_vuln_keys stored v k :
  k ∈ vuln_key <$> merge_vuln stored v <->
  k ∈ vuln_key <$> stored \/ k = vuln_key v.
Proof.
  unfold merge_vuln. destruct (find_one _ stored) as [x |] eqn:E.
  - split; [auto |]. intros [Hk | ->]; [exact Hk |].
    apply find_some in E as [Hx Hkey]. apply by_vuln_key_spec in Hkey.
    rewrite <- Hkey. apply list_elem_of_fmap_2. by apply list_elem_of_In.
  - unfold insert_one. rewrite fmap_app, elem_of_app. simpl.
    by rewrite list_elem_of_singleton.
Qed.

(** [save_vulnerability] is the merge step on the collection; it never
    raises and touches nothing else. *)
Lemma save_vulnerability_run v w :
  save_vulnerability v w =
  (Ok tt, mkWorld (mkDB (devices (db w)) (merge_vuln (vulnerabilities (db w)) v)
                        (scan_results (db w)))
                  (clock w) (uuids w)).
Proof.
  destruct w as [[ds vs rs] c u].
  unfold save_vulnerability, merge_vuln, bind, get_db, modify_db, ret. simpl.
  destruct (find_one _ vs); reflexivity.
Qed.

Lemma save_vulnerabilities_run vs w :
  save_vulnerabilities vs w =
  (Ok tt, mkWorld (mkDB (devices (db w))
                        (fold_left merge_vuln vs (vulnerabilities (db w)))
                        (scan_results (db w)))
                  (clock w) (uuids w)).
Proof.
  unfold save_vulnerabilities. revert w.
  induction vs as [| v vs IH]; intros w.
  - by destruct w as [[ds vl rs] c u].
  - simpl. unfold bind at 1. rewrite save_vulnerability_run, IH. reflexivity.
Qed.

Lemma fold_merge_NoDup vs stored :
  NoDup (vuln_key <$> stored) -> NoDup (vuln_key <$> fold_left merge_vuln vs stored).
Proof.
  revert stored. induction vs as [| v vs IH]; intros stored Hnd; [exact Hnd |].
  simpl. apply IH. by apply merge_vuln_NoDup.
Qed.

Lemma fold_merge_keys vs stored k :
  k ∈ vuln_key <$> fold_left merge_vuln vs stored <->
  k ∈ vuln_key <$> stored \/ k ∈ vuln_key <$> vs.
Proof.
  revert stored. induction vs as [| v vs IH]; intros stored; simpl.
  - rewrite elem_of_nil. tauto.
  - rewrite IH, merge_vuln_keys, elem_of_cons. tauto.
Qed.

(** With distinct keys, the records under a key are as many as the key
    occurs: none or one. *)
Lemma NoDup_keys_count (stored : list Vulnerability) k :
  NoDup (vuln_key <$> stored) -> k ∈ vuln_key <$> stored ->
  length (filter (fun v => vuln_key v = k) stored) = 1%nat.
Proof.
  induction stored as [| x stored IH]; simpl; intros Hnd Hin.
  - by apply elem_of_nil in Hin.
  - apply NoDup_cons in Hnd as [Hx Hnd].
    destruct (decide (vuln_key x = k)) as [Heq | Hne].
    + rewrite filter_cons_True by exact Heq. simpl. f_equal.
      destruct (filter _ stored) as [| y ys] eqn:E; [reflexivity |].
      exfalso. apply Hx.
      assert (y ∈ filter (fun v => vuln_key v = k) stored) as Hy
        by (rewrite E; left).
      apply list_elem_of_filter in Hy as [Hk Hy]. rewrite Heq, <- Hk.
      by apply list_elem_of_fmap_2.
    + rewrite filter_cons_False by exact Hne. apply IH; [exact Hnd |].
      apply elem_of_cons in Hin as [-> | Hin]; [done | exact Hin].
Qed.

(** The merge loops of any sequence of jobs. *)
Lemma merge_sequence_run (batches : list (list Vulnerability)) w :
  for_each batches save_vulnerabilities w =
  (Ok tt, mkWorld (mkDB (devices (db w))
                        (fold_left merge_vuln (concat batches) (vulnerabilities (db w)))
                        (scan_results (db w)))
                  (clock w) (uuids w)).
Proof.
  revert w. induction batches as [| vs batches IH]; intros w.
  - by destruct w as [[ds vl rs] c u].
  - simpl. unfold bind at 1. rewrite save_vulnerabilities_run, IH. simpl.
    by rewrite fold_left_app.
Qed.

End VulnerabilityMerge.

(** ** The device merge *)

Section DeviceMerge.

Lemma update_one_length {A} (q : A -> bool) (f : A -> A) l :
  length (update_one q f l) = length l.
Proof.
  induction l as [| x l IH]; simpl; [reflexivity |].
  destruct (q x); simpl; congruence.
Qed.

Lemma update_one_find {A} (q : A -> bool) (f : A -> A) l x :
  find_one q l = Some x -> q (f x) = true ->
  find_one q (update_one q f l) = Some (f x).
Proof.
  unfold find_one. induction l as [| y l IH]; simpl; [discriminate |].
  destruct (q y) eqn:E; simpl.
  - intros [= ->] Hq. by rewrite Hq.
  - intros Hx Hq. rewrite E. by apply IH.
Qed.

Lemma update_one_no_match {A} (q : A -> bool) (f : A -> A) l :
  find_one q l = None -> update_one q f l = l.
Proof.
  unfold find_one. induction l as [| y l IH]; simpl; [reflexivity |].
  destruct (q y); [discriminate |]. intros Hn. by rewrite IH.
Qed.

(** The number of records under an IP address does not change when the
    first of them is rewritten by a record of the same address. *)
Lemma update_one_same_ip ip (device : Device) l :
  ip_address device = ip ->
  length (filter (fun d => ip_address d = ip) (update_one (by_ip ip) (fun _ => device) l)) =
  length (filter (fun d => ip_address d = ip) l).
Proof.
  intros Hip. induction l as [| y l IH]; simpl; [reflexivity |].
  unfold by_ip at 1. destruct (String.eqb_spec (ip_address y) ip) as [Heq | Hne].
  - rewrite !filter_cons_True by done. reflexivity.
  - rewrite !filter_cons_False by done. exact IH.
Qed.

(** The update branch of the upsert: the stored record of that address
    becomes the new [Device], with a fresh [updated_at]. *)
Lemma save_device_existing device existing w :
  find_one (by_ip (ip_address device)) (devices (db w)) = Some existing ->
  save_device device w =
  (Ok tt,
   mkWorld (mkDB (update_one (by_ip (ip_address device))
                    (fun _ => set_updated_at (clock w) device) (devices (db w)))
                 (vulnerabilities (db w)) (scan_results (db w)))
           (clock w + 1) (uuids w)).
Proof.
  intros Hf. destruct w as [[ds vs rs] c u]. simpl in *.
  unfold save_device, bind, get_db, utcnow, modify_db. simpl. by rewrite Hf.
Qed.

Lemma save_device_new device w :
  find_one (by_ip (ip_address device)) (devices (db w)) = None ->
  save_device device w =
  (Ok tt,
   mkWorld (mkDB (devices (db w) ++ [device])
                 (vulnerabilities (db w)) (scan_results (db w)))
           (clock w) (uuids w)).
Proof.
  intros Hf. destruct w as [[ds vs rs] c u]. simpl in *.
  unfold save_device, bind, get_db, utcnow, modify_db. simpl. by rewrite Hf.
Qed.

(** What a rediscovery does to the stored record: one record per address
    stays one record, and it carries every field of the new [Device],
    [id] and [first_discovered] included. *)
Lemma save_device_rediscovery device existing w :
  find_one (by_ip (ip_address device)) (devices (db w)) = Some existing ->
  let w' := exec (save_device device) w in
  find_one (by_ip (ip_address device)) (devices (db w')) =
    Some (set_updated_at (clock w) device) /\
  length (stored_with_ip (ip_address device) w') =
    length (stored_with_ip (ip_address device) w) /\
  length (devices (db w')) = length (devices (db w)).
Proof.
  intros Hf w'. subst w'. unfold exec, stored_with_ip.
  rewrite (save_device_existing _ _ _ Hf). simpl.
  split; [| split].
  - apply (update_one_find _ (fun _ => set_updated_at (clock w) device) _ existing Hf).
    unfold by_ip. simpl. apply String.eqb_refl.
  - by apply update_one_same_ip.
  - apply update_one_length.
Qed.

End DeviceMerge.

(** C1, on the code: the store holds the record of the first discovery of
    10.0.0.1 and the merge receives the [Device] of a later profiling pass of
    that address.  One record remains, and its mutable fields and
    [last_seen] are the new ones; but its [id] and its [first_discovered]
    are those of the new [Device] too, not those of the first discovery. *)
Theorem rediscovery_replaces_identity :
  let w := mkWorld (mkDB [Lab.first_seen] [] []) 60 0 in
  let w' := exec (save_device Lab.seen_again) w in
  devices (db w') = [set_updated_at 60 Lab.seen_again] /\
  (id <$> find_one (by_ip "10.0.0.1") (devices (db w'))) = Some "dev-B" /\
  (first_discovered <$> find_one (by_ip "10.0.0.1") (devices (db w'))) = Some 50 /\
  (last_seen <$> find_one (by_ip "10.0.0.1") (devices (db w'))) = Some 51 /\
  id Lab.first_seen = "dev-A" /\ first_discovered Lab.first_seen = 1.
Proof. vm_compute. repeat split. Qed.

(** The same through two discovery jobs on the one host 10.0.0.1: the
    second job leaves one device record, with another [id] and another
    [first_discovered] than the first job stored. *)
Lemma two_discovery_jobs_change_identity :
  let w0 := Lab.fresh [Lab.pending "job-1" NETWORK_DISCOVERY "10.0.0.1";
                       Lab.pending "job-2" NETWORK_DISCOVERY "10.0.0.1"] in
  let w1 := exec (run_scan Lab.env "job-1" NETWORK_DISCOVERY "10.0.0.1" ∅) w0 in
  let w2 := exec (run_scan Lab.env "job-2" NETWORK_DISCOVERY "10.0.0.1" ∅) w1 in
  (id <$> devices (db w1)) = ["uuid-0"] /\
  (id <$> devices (db w2)) = ["uuid-1"] /\
  (first_discovered <$> devices (db w1)) = [102] /\
  (first_discovered <$> devices (db w2)) = [111] /\
  (status <$> job "job-2" w2) = Some COMPLETED.
Proof. vm_compute. repeat split. Qed.

(** ** The profiler and the discovery loop *)

Section Profiler.
Variable env : Env.

(** The profiler never raises and never touches the store.  It answers
    [None] exactly when the reverse lookup failed; otherwise it answers a
    device of the requested address whose OS fields are filled as
    follows: nothing without the [os_detection] option; with it, name and
    vendor of the first fingerprint match; the OS version in no case. *)
Lemma scan_device_details_run ip options w :
  exists r w',
    _scan_device_details env ip options w = (Ok r, w') /\
    db w' = db w /\
    (profiling_fails env ip = true -> r = None) /\
    (profiling_fails env ip = false ->
     exists d, r = Some d /\ ip_address d = ip /\ os_version d = None /\
       (os_detection options = false -> os_name d = None /\ vendor d = None) /\
       (os_detection options = true ->
        forall best others,
          nm_os_scan env ip = Ok (Some (best :: others)) ->
          os_name d = Some (default "" (best !! "name")) /\
          vendor d = Some (default "" (best !! "vendor")))).
Proof.
  unfold _scan_device_details, profiling_fails, os_detection, _detect_os,
    _get_mac_address.
  run_job.
  destruct (gethostbyaddr env ip) as [h | | msg]; simpl.
  3:{ eexists _, _. split; [reflexivity |]. split; [reflexivity |].
      split; [reflexivity | discriminate]. }
  all: destruct (nm_port_scan env ip) as [[rows |] | e]; simpl.
  all: try destruct (fold_left port_row_step rows _) as [[[o f] c] sv]; simpl.
  all: eexists _, _; (split; [reflexivity |]); (split; [reflexivity |]).
  all: (split; [discriminate |]); intros _.
  all: eexists; (split; [reflexivity |]).
  all: destruct (truthy (default (PyBool false) (options !! "os_detection")));
    simpl.
  all: split; [by repeat case_match |].
  all: split;
    [ destruct (nm_os_scan env ip) as [[[| b os] |] | e']; simpl;
      repeat case_match; simpl; try reflexivity;
      rewrite !lookup_insert_ne by done; apply lookup_empty |].
  all: split; [intros Hoff | intros Hon best others Hos]; try discriminate.
  all: try (split; by repeat case_match).
  all: rewrite Hos; simpl.
  all: rewrite bool_decide_eq_true_2 by apply insert_non_empty.
  all: split; repeat case_match; simpl.
  all: try (by rewrite lookup_insert_eq).
  all: rewrite lookup_insert_ne by done; rewrite lookup_insert_ne by done;
    by rewrite lookup_insert_eq.
Qed.

End Profiler.

Section DiscoveryLoop.
Variable env : Env.
Variable options : gmap string PyValue.

(** The host loop never raises, leaves the store alone, and appends one
    device for each host whose profiling did not fail, in order. *)
Lemma scan_hosts_run hosts : forall devices w,
  exists ds w',
    scan_hosts env options hosts devices w = (Ok ds, w') /\
    db w' = db w /\
    ip_address <$> ds = (ip_address <$> devices) ++ profiled env hosts.
Proof.
  unfold profiled. induction hosts as [| ip hosts IH]; intros devices w.
  - exists devices, w. simpl. by rewrite app_nil_r.
  - simpl. unfold bind at 1, try_except at 1.
    destruct (scan_device_details_run env ip options w)
      as (r & w1 & E & Hdb & Hfail & Hok).
    rewrite E. cbn [ret].
    destruct (profiling_fails env ip) eqn:Hp.
    + rewrite (Hfail eq_refl).
      destruct (IH devices w1) as (ds & w' & E' & Hdb' & Hips).
      exists ds, w'. rewrite E'. split; [reflexivity |].
      split; [congruence |].
      rewrite filter_cons_False by (rewrite Hp; discriminate). exact Hips.
    + destruct (Hok eq_refl) as (d & -> & Hip & _).
      destruct (IH (devices ++ [d]) w1) as (ds & w' & E' & Hdb' & Hips).
      exists ds, w'. rewrite E'. split; [reflexivity |].
      split; [congruence |].
      rewrite filter_cons_True by exact Hp.
      rewrite Hips, fmap_app, <- app_assoc. simpl. by rewrite Hip.
Qed.

Lemma scan_ranges_run ip_ranges : forall devices techniques w,
  exists ds ts w',
    scan_ranges env options ip_ranges devices techniques w = (Ok (ds, ts), w') /\
    db w' = db w /\
    ip_address <$> ds =
      (ip_address <$> devices) ++ profiled env (concat (responsive_hosts env <$> ip_ranges)).
Proof.
  induction ip_ranges as [| t ip_ranges IH]; intros devices techniques w.
  - exists devices, techniques, w. simpl. by rewrite app_nil_r.
  - simpl. unfold bind at 1.
    destruct (scan_hosts_run (responsive_hosts env t) devices w)
      as (ds1 & w1 & E1 & Hdb1 & Hips1).
    rewrite E1.
    destruct (IH ds1 (techniques ++ techniques_of env t) w1)
      as (ds & ts & w' & E' & Hdb' & Hips).
    exists ds, ts, w'. rewrite E'. split; [reflexivity |].
    split; [congruence |].
    unfold profiled in *. by rewrite Hips, Hips1, filter_app, app_assoc.
Qed.

(** Discovery as a whole: no exception leaves it, the store is as before,
    and the devices it returns are those of the responsive hosts whose
    profiling did not fail. *)
Lemma discover_run target w :
  exists ds md w',
    discover_network_devices env target options w = (Ok (ds, md), w') /\
    db w' = db w /\
    ip_address <$> ds = profiled env (all_responsive env target).
Proof.
  unfold discover_network_devices, all_responsive.
  unfold bind at 1, utcnow at 1.
  destruct (@resolve_target (env_netaddr env) target) as [ip_ranges | e].
  - unfold bind at 1.
    destruct (scan_ranges_run ip_ranges [] [] (mkWorld (db w) (clock w + 1) (uuids w)))
      as (ds & ts & w1 & E & Hdb & Hips).
    rewrite E. run_job. eexists _, _, _. split; [reflexivity |].
    split; [exact Hdb | exact Hips].
  - run_job. eexists _, _, _. split; [reflexivity |]. split; reflexivity.
Qed.

End DiscoveryLoop.

(** ** Invariants of the store along a job *)

Section Invariants.
Context {P : DB -> Prop}.

Lemma preserves_ret {A} (a : A) : preserves P (ret a).
Proof. intros w Hw. exact Hw. Qed.

Lemma preserves_raise {A} e : preserves P (@raise A e).
Proof. intros w Hw. exact Hw. Qed.

Lemma preserves_bind {A B} (m : M A) (k : A -> M B) :
  preserves P m -> (forall a, preserves P (k a)) -> preserves P (bind m k).
Proof.
  intros Hm Hk w Hw. unfold bind. specialize (Hm w Hw).
  destruct (m w) as [[a | e] w1]; simpl in *; [by apply Hk | exact Hm].
Qed.

Lemma preserves_try {A} (body : M A) (handler : string -> M A) :
  preserves P body -> (forall e, preserves P (handler e)) ->
  preserves P (try_except body handler).
Proof.
  intros Hm Hk w Hw. unfold try_except. specialize (Hm w Hw).
  destruct (body w) as [[a | e] w1]; simpl in *; [exact Hm | by apply Hk].
Qed.

Lemma preserves_for_each {A} (l : list A) (body : A -> M unit) :
  (forall x, preserves P (body x)) -> preserves P (for_each l body).
Proof.
  intros Hb. induction l as [| x l IH]; simpl.
  - apply preserves_ret.
  - apply preserves_bind; [apply Hb | intros _; exact IH].
Qed.

Lemma preserves_utcnow : preserves P utcnow.
Proof. intros w Hw. exact Hw. Qed.

Lemma preserves_get_db : preserves P get_db.
Proof. intros w Hw. exact Hw. Qed.

Lemma preserves_modify_db f : (forall d, P d -> P (f d)) -> preserves P (modify_db f).
Proof. intros Hf w Hw. by apply Hf. Qed.

(** A step that leaves the store as it was keeps every invariant. *)
Lemma preserves_same_db {A} (m : M A) :
  (forall w, db (snd (m w)) = db w) -> preserves P m.
Proof. intros Hm w Hw. by rewrite Hm. Qed.

Lemma preserves_discover env target options :
  preserves P (discover_network_devices env target options).
Proof.
  apply preserves_same_db. intros w.
  destruct (discover_run env options target w) as (ds & md & w' & E & Hdb & _).
  by rewrite E.
Qed.

End Invariants.

Section JobRecord.
Variable env : Env.

(** The job records, the device store apart, are out of reach of the
    device and finding merges. *)
Lemma save_device_keeps (Q : list Vulnerability -> list ScanResult -> Prop) device :
  preserves (fun d => Q (vulnerabilities d) (scan_results d)) (save_device device).
Proof.
  unfold save_device. apply preserves_bind; [apply preserves_get_db |].
  intros d. destruct (find_one _ (devices d)).
  - apply preserves_bind; [apply preserves_utcnow |]. intros now.
    by apply preserves_modify_db.
  - by apply preserves_modify_db.
Qed.

Lemma save_vulnerability_keeps (Q : list Device -> list ScanResult -> Prop) v :
  preserves (fun d => Q (devices d) (scan_results d)) (save_vulnerability v).
Proof.
  unfold save_vulnerability. apply preserves_bind; [apply preserves_get_db |].
  intros d. destruct (find_one _ (vulnerabilities d)).
  - apply preserves_ret.
  - by apply preserves_modify_db.
Qed.

Lemma scan_target_devices_preserves (P : DB -> Prop) options :
  (forall v, preserves P (save_vulnerability v)) ->
  forall target_devices vulns,
    preserves P (scan_target_devices env options target_devices vulns).
Proof.
  intros Hsave target_devices.
  induction target_devices as [| d rest IH]; intros vulns; simpl.
  - apply preserves_ret.
  - destruct (scan_device_vulnerabilities env d options) as [[vs md] | e].
    + apply preserves_bind; [by apply preserves_for_each |]. intros _. apply IH.
    + apply preserves_raise.
Qed.

(** The branch on the scan type keeps every invariant that the two merges
    keep. *)
Lemma run_scan_kind_preserves (P : DB -> Prop) ty target options :
  (forall d, preserves P (save_device d)) ->
  (forall v, preserves P (save_vulnerability v)) ->
  preserves P (run_scan_kind env ty target options).
Proof.
  intros Hd Hv. destruct ty; simpl; try apply preserves_ret.
  - apply preserves_bind; [apply preserves_discover |]. intros [ds md].
    apply preserves_bind; [by apply preserves_for_each |]. intros _.
    apply preserves_ret.
  - apply preserves_bind; [apply preserves_get_db |]. intros d.
    apply preserves_bind; [by apply scan_target_devices_preserves |].
    intros vs. apply preserves_ret.
Qed.

Lemma run_scan_kind_keeps_jobs ty target options w :
  scan_results (db (snd (run_scan_kind env ty target options w))) = scan_results (db w).
Proof.
  apply (run_scan_kind_preserves (fun d => scan_results d = scan_results (db w)));
    [| | reflexivity].
  - intros d. apply (save_device_keeps (fun _ rs => rs = scan_results (db w))).
  - intros v. apply (save_vulnerability_keeps (fun _ rs => rs = scan_results (db w))).
Qed.

Lemma job_after_update i f w r :
  job i w = Some r -> scan_id (f r) = scan_id r ->
  find_one (by_scan_id i) (update_one (by_scan_id i) f (scan_results (db w))) = Some (f r).
Proof.
  unfold job. intros Hr Hid. apply update_one_find; [exact Hr |].
  apply find_some in Hr as [_ Hq]. unfold by_scan_id in *. by rewrite Hid.
Qed.

(** The [try] block, one step at a time. *)
Lemma run_scan_body_run i ty target options w :
  run_scan_body env i ty target options w =
  match run_scan_kind env ty target options
          (mkWorld (with_scan_results
                      (update_one (by_scan_id i) (set_running (clock w))) (db w))
                   (clock w + 1) (uuids w)) with
  | (Ok (ds, vs, md), w1) =>
      (Ok tt,
       mkWorld (with_scan_results
                  (update_one (by_scan_id i)
                     (set_completed (clock w1) (Z.of_nat (length ds))
                        (Z.of_nat (length vs)) md
                        match ds with
                        | _ :: _ => analyze_scan_results env md ds
                        | [] => "Scan completed successfully"
                        end))
                  (db w1))
               (clock w1 + 1) (uuids w1))
  | (Raise e, w1) => (Raise e, w1)
  end.
Proof.
  unfold run_scan_body, bind, utcnow, modify_db. simpl.
  destruct (run_scan_kind env ty target options _) as [[[[ds vs] md] | e] w1];
    reflexivity.
Qed.

(** The two ways a job ends.  Either the [try] block ends normally and the
    record is the completed one, or an exception [e] leaves it and the
    record is the failed one, with [str(e)] as its error text and the time
    of the handler as its completion time. *)
Lemma run_scan_job i ty target options w r :
  job i w = Some r ->
  let w' := exec (run_scan env i ty target options) w in
  (exists ds vs md w1 summary,
      run_scan_kind env ty target options
          (mkWorld (with_scan_results
                      (update_one (by_scan_id i) (set_running (clock w))) (db w))
                   (clock w + 1) (uuids w)) = (Ok (ds, vs, md), w1) /\
      job i w' =
        Some (set_completed (clock w1) (Z.of_nat (length ds)) (Z.of_nat (length vs))
                md summary (set_running (clock w) r))) \/
  (exists e w1,
      run_scan_body env i ty target options w = (Raise e, w1) /\
      job i w' = Some (set_failed (clock w1) e (set_running (clock w) r))).
Proof.
  intros Hr w'. subst w'. unfold exec, run_scan, try_except.
  rewrite run_scan_body_run.
  set (w0 := mkWorld _ (clock w + 1) (uuids w)).
  pose proof (run_scan_kind_keeps_jobs ty target options w0) as Hjobs.
  assert (job i w0 = Some (set_running (clock w) r)) as Hr0
    by (by apply job_after_update).
  destruct (run_scan_kind env ty target options w0) as [[[[ds vs] md] | e] w1] eqn:E;
    simpl in Hjobs.
  - left. exists ds, vs, md, w1. eexists. split; [reflexivity |].
    unfold job. simpl. rewrite Hjobs.
    by apply (job_after_update i _ w0).
  - right. exists e, w1. split; [reflexivity |].
    unfold run_scan_failed. run_job. unfold job. simpl. rewrite Hjobs.
    by apply (job_after_update i _ w0).
Qed.

End JobRecord.

(** ** Discovery jobs *)

Section DiscoveryJob.
Variable env : Env.

Lemma save_devices_total ds : forall w, exists w', for_each ds save_device w = (Ok tt, w').
Proof.
  induction ds as [| d ds IH]; intros w; simpl; [by eexists |].
  unfold bind at 1.
  destruct (find_one (by_ip (ip_address d)) (devices (db w))) as [x |] eqn:E.
  - rewrite (save_device_existing _ _ _ E). apply IH.
  - rewrite (save_device_new _ _ E). apply IH.
Qed.

(** The discovery branch never raises; its devices are those of the
    responsive hosts whose profiling did not fail. *)
Lemma run_scan_kind_discovery target options w :
  exists ds md w1,
    run_scan_kind env NETWORK_DISCOVERY target options w = (Ok (ds, [], md), w1) /\
    ip_address <$> ds =
      profiled env (all_responsive env target).
Proof.
  simpl. unfold bind at 1.
  destruct (discover_run env options target w) as (ds & md & w1 & E & _ & Hips).
  rewrite E. unfold bind at 1.
  destruct (save_devices_total ds w1) as [w2 E2]. rewrite E2.
  by exists ds, md, w2.
Qed.

(** A discovery job ends [completed], whatever its hosts did, and counts
    the devices that profiling produced. *)
Lemma discovery_job_completes i target options w r :
  job i w = Some r ->
  exists r',
    job i (exec (run_scan env i NETWORK_DISCOVERY target options) w) = Some r' /\
    status r' = COMPLETED /\
    devices_discovered r' =
      Z.of_nat (length (profiled env (all_responsive env target))) /\
    error_message r' = error_message r /\
    is_Some (completed_at r').
Proof.
  intros Hr.
  destruct (run_scan_kind_discovery target options
              (mkWorld (with_scan_results
                          (update_one (by_scan_id i) (set_running (clock w))) (db w))
                       (clock w + 1) (uuids w)))
    as (ds & md & w1 & E & Hips).
  destruct (run_scan_job env i NETWORK_DISCOVERY target options w r Hr)
    as [(ds' & vs' & md' & w1' & summary & E' & Hjob) | (e & w1' & E' & _)].
  - rewrite E in E'. injection E' as <- <- <- <-.
    eexists. split; [exact Hjob |]. simpl.
    split; [reflexivity |]. split; [| split; [reflexivity | by eexists]].
    by rewrite <- Hips, length_fmap.
  - rewrite run_scan_body_run, E in E'. discriminate.
Qed.

End DiscoveryJob.

(** No range answers: no host at all. *)
Lemma all_responsive_nil env target :
  (forall t, responsive_hosts env t = []) -> all_responsive env target = [].
Proof.
  intros Hnone. unfold all_responsive.
  destruct (@resolve_target (env_netaddr env) target) as [ip_ranges | e];
    [| reflexivity].
  induction ip_ranges as [| t ip_ranges IH]; [reflexivity |].
  rewrite fmap_cons. cbn [concat]. by rewrite Hnone, IH.
Qed.

(** C6: a discovery job with no responsive host ends in status completed,
    not failed, with [devices_discovered = 0]; and a technique that fails
    contributes an empty set of hosts, so that the failure of both the ping
    sweep and the ARP lookup is such a case. *)
Theorem zero_hosts_job_completes :
  (forall env t e, nm_ping_scan env t = Raise e -> _ping_sweep env t = []) /\
  (forall env t e, arp_a env = Raise e -> _arp_scan env t = []) /\
  (forall env t e1 e2,
      nm_ping_scan env t = Raise e1 -> arp_a env = Raise e2 ->
      responsive_hosts env t = []) /\
  (forall env i target options w r,
      job i w = Some r ->
      all_responsive env target = [] ->
      exists r',
        job i (exec (run_scan env i NETWORK_DISCOVERY target options) w) = Some r' /\
        status r' = COMPLETED /\ status r' <> FAILED /\
        devices_discovered r' = 0) /\
  (forall env i target options w r e,
      job i w = Some r ->
      (forall t, exists e', nm_ping_scan env t = Raise e') ->
      arp_a env = Raise e ->
      exists r',
        job i (exec (run_scan env i NETWORK_DISCOVERY target options) w) = Some r' /\
        status r' = COMPLETED /\ status r' <> FAILED /\
        devices_discovered r' = 0).
Proof.
  assert (forall env i target options w r,
            job i w = Some r -> all_responsive env target = [] ->
            exists r',
              job i (exec (run_scan env i NETWORK_DISCOVERY target options) w)
                = Some r' /\
              status r' = COMPLETED /\ status r' <> FAILED /\
              devices_discovered r' = 0) as Hzero.
  { intros env i target options w r Hr Hnone.
    destruct (discovery_job_completes env i target options w r Hr)
      as (r' & Hjob & Hst & Hn & _).
    exists r'. split; [exact Hjob |]. split; [exact Hst |].
    split; [rewrite Hst; discriminate |].
    rewrite Hn, Hnone. reflexivity. }
  split; [| split; [| split; [| split; [exact Hzero |]]]].
  - intros env t e H. unfold _ping_sweep. by rewrite H.
  - intros env t e H. unfold _arp_scan. by rewrite H.
  - intros env t e1 e2 H1 H2. unfold responsive_hosts, _ping_sweep, _arp_scan.
    rewrite H1, H2. by destruct (_is_local_network env t).
  - intros env i target options w r e Hr Hping Harp.
    apply (Hzero env i target options w r Hr).
    apply all_responsive_nil. intros t. destruct (Hping t) as [e' He'].
    unfold responsive_hosts, _ping_sweep, _arp_scan.
    rewrite He', Harp. by destruct (_is_local_network env t).
Qed.

Lemma zero_hosts_job_completes_witness :
  _ping_sweep Lab.env "10.0.0.9/32" = [] /\
  _arp_scan Lab.env "10.0.0.9/32" = [] /\
  responsive_hosts Lab.env "10.0.0.9/32" = [] /\
  exists r',
    job "job-1"
        (exec (run_scan Lab.env "job-1" NETWORK_DISCOVERY "10.0.0.9" ∅)
              (Lab.fresh [Lab.pending "job-1" NETWORK_DISCOVERY "10.0.0.9"])) = Some r' /\
    status r' = COMPLETED /\ status r' <> FAILED /\ devices_discovered r' = 0.
Proof.
  destruct zero_hosts_job_completes as (H1 & H2 & H3 & H4 & _).
  split; [| split; [| split]].
  - apply (H1 Lab.env "10.0.0.9/32" "nmap program was not found in path").
    reflexivity.
  - apply (H2 Lab.env "10.0.0.9/32" "arp: command not found"). reflexivity.
  - apply (H3 Lab.env "10.0.0.9/32" "nmap program was not found in path"
              "arp: command not found"); reflexivity.
  - apply (H4 Lab.env "job-1" "10.0.0.9" ∅ _
              (Lab.pending "job-1" NETWORK_DISCOVERY "10.0.0.9"));
      vm_compute; reflexivity.
Defined.

(** C9: a responsive host whose profiling raises is left out of the
    devices of the job and the hosts after it are still profiled: the
    devices of a discovery are exactly those of the responsive hosts whose
    profiling did not fail, in order; and the job ends completed, counting
    them, whichever hosts failed. *)
Theorem profiling_failure_omits_host :
  forall env i target options w r,
    job i w = Some r ->
    (exists ds md w1,
        discover_network_devices env target options w = (Ok (ds, md), w1) /\
        ip_address <$> ds =
          profiled env (all_responsive env target) /\
        (forall ip, profiling_fails env ip = true -> ip ∉ ip_address <$> ds) /\
        (forall ip, ip ∈ all_responsive env target ->
                    profiling_fails env ip = false -> ip ∈ ip_address <$> ds)) /\
    (exists r',
        job i (exec (run_scan env i NETWORK_DISCOVERY target options) w) = Some r' /\
        status r' = COMPLETED /\
        devices_discovered r' =
          Z.of_nat (length (profiled env (all_responsive env target)))).
Proof.
  intros env i target options w r Hr. split.
  - destruct (discover_run env options target w) as (ds & md & w1 & E & _ & Hips).
    exists ds, md, w1. split; [exact E |]. split; [exact Hips |].
    rewrite Hips. unfold profiled. split.
    + intros ip Hf [Hok _]%list_elem_of_filter. congruence.
    + intros ip Hin Hok. by apply list_elem_of_filter.
  - destruct (discovery_job_completes env i target options w r Hr)
      as (r' & Hjob & Hst & Hn & _).
    by exists r'.
Qed.

Lemma profiling_failure_omits_host_witness :
  let w := Lab.fresh [Lab.pending "job-1" NETWORK_DISCOVERY "10.0.0.0/29"] in
  profiling_fails Lab.env "10.0.0.3" = true /\
  all_responsive Lab.env "10.0.0.0/29" = ["10.0.0.1"; "10.0.0.2"; "10.0.0.3"] /\
  (exists ds md w1,
      discover_network_devices Lab.env "10.0.0.0/29" ∅ w = (Ok (ds, md), w1) /\
      ip_address <$> ds = ["10.0.0.1"; "10.0.0.2"]) /\
  (exists r',
      job "job-1" (exec (run_scan Lab.env "job-1" NETWORK_DISCOVERY "10.0.0.0/29" ∅) w)
        = Some r' /\
      status r' = COMPLETED /\ devices_discovered r' = 2).
Proof.
  intros w.
  destruct (profiling_failure_omits_host Lab.env "job-1" "10.0.0.0/29" ∅ w
              (Lab.pending "job-1" NETWORK_DISCOVERY "10.0.0.0/29") eq_refl)
    as [(ds & md & w1 & E & Hips & _) (r' & Hjob & Hst & Hn)].
  split; [reflexivity |]. split; [vm_compute; reflexivity |]. split.
  - exists ds, md, w1. split; [exact E |]. rewrite Hips. vm_compute. reflexivity.
  - exists r'. split; [exact Hjob |]. split; [exact Hst |]. rewrite Hn.
    vm_compute. reflexivity.
Defined.

(** ** Failed jobs *)

(** C7, as stated, fails: the prober raises an exception without a message
    on 10.0.0.2, the vulnerability job on that device ends failed, and the
    error text of the stored record is the empty string. *)
Lemma failed_job_with_empty_error :
  let w := mkWorld (mkDB [Lab.host "10.0.0.2" [631]] []
                         [Lab.pending "job-7" VULNERABILITY_SCAN "10.0.0.2"]) 100 0 in
  let w' := exec (run_scan Lab.env "job-7" VULNERABILITY_SCAN "10.0.0.2" ∅) w in
  (status <$> job "job-7" w') = Some FAILED /\
  (error_message <$> job "job-7" w') = Some (Some "") /\
  ~ (exists msg, (error_message <$> job "job-7" w') = Some (Some msg) /\ msg <> "").
Proof.
  vm_compute. split; [reflexivity |]. split; [reflexivity |].
  intros (msg & [= <-] & Hne). by apply Hne.
Qed.

(** C7 (amended): a job ends failed exactly when an exception left its
    top-level procedure, and then the stored record carries the text of
    that exception, verbatim, as its error string (the empty string when
    the exception has no message) and the time of the handler as its
    completion timestamp. *)
Theorem failed_job_records_error :
  forall env i ty target options w r r',
    job i w = Some r ->
    job i (exec (run_scan env i ty target options) w) = Some r' ->
    (status r' = FAILED ->
     exists e w1,
       run_scan_body env i ty target options w = (Raise e, w1) /\
       error_message r' = Some e /\
       completed_at r' = Some (clock w1)) /\
    (forall e w1,
       run_scan_body env i ty target options w = (Raise e, w1) ->
       status r' = FAILED /\ error_message r' = Some e /\
       completed_at r' = Some (clock w1)).
Proof.
  intros env i ty target options w r r' Hr Hr'.
  destruct (run_scan_job env i ty target options w r Hr)
    as [(ds & vs & md & w1 & summary & E & Hjob) | (e & w1 & E & Hjob)];
    rewrite Hjob in Hr'; injection Hr' as <-.
  - split; [discriminate |]. intros e w2 E2.
    rewrite run_scan_body_run, E in E2. discriminate.
  - split.
    + intros _. by exists e, w1.
    + intros e2 w2 E2. rewrite E in E2. injection E2 as <- <-. by repeat split.
Qed.

Lemma failed_job_records_error_witness :
  let w := mkWorld (mkDB [Lab.host "10.0.0.3" [554]] []
                         [Lab.pending "job-7" VULNERABILITY_SCAN "all"]) 100 0 in
  exists r',
    job "job-7" (exec (run_scan Lab.env "job-7" VULNERABILITY_SCAN "all" ∅) w) = Some r' /\
    status r' = FAILED /\
    error_message r' = Some "probe timed out" /\
    completed_at r' = Some 101.
Proof.
  intros w.
  destruct (job "job-7" (exec (run_scan Lab.env "job-7" VULNERABILITY_SCAN "all" ∅) w))
    as [r' |] eqn:E; [| vm_compute in E; discriminate].
  exists r'. split; [reflexivity |].
  destruct (failed_job_records_error Lab.env "job-7" VULNERABILITY_SCAN "all" ∅ w
              (Lab.pending "job-7" VULNERABILITY_SCAN "all") r' eq_refl E)
    as [_ Hraised].
  apply (Hraised "probe timed out"
           (mkWorld (mkDB [Lab.host "10.0.0.3" [554]] []
                          [set_running 100 (Lab.pending "job-7" VULNERABILITY_SCAN "all")])
                    101 0)).
  vm_compute. reflexivity.
Defined.

(** ** OS detection in the profiler *)

(** The OS version of a profiled device is never set. *)
Lemma os_version_never_recorded env ip options w d w' :
  _scan_device_details env ip options w = (Ok (Some d), w') ->
  os_version d = None.
Proof.
  intros E.
  destruct (scan_device_details_run env ip options w)
    as (r & w1 & E1 & _ & Hfail & Hok).
  rewrite E1 in E. injection E as -> ->.
  destruct (profiling_fails env ip).
  - by specialize (Hfail eq_refl).
  - destruct (Hok eq_refl) as (d' & [= <-] & _ & Hv & _). exact Hv.
Qed.

(** C8, on the code: with [os_detection] set, and a first fingerprint match
    that carries a name, a vendor and a version, the profiled device has
    the name and the vendor of that match and nothing of the second match,
    but no OS version: [_detect_os] hands back the keys [name], [accuracy]
    and [vendor], and the profiler reads [version]. *)
Theorem os_version_is_not_recorded :
  let options : gmap string PyValue := <["os_detection" := PyBool true]> ∅ in
  let r := fst (_scan_device_details Lab.env "10.0.0.1" options (Lab.fresh [])) in
  nm_os_scan Lab.env "10.0.0.1" =
    Ok (Some [Lab.os_match "Linux 5.4" "98" "Linux" "5.4";
              Lab.os_match "FreeBSD 12" "85" "FreeBSD" "12"]) /\
  exists d, r = Ok (Some d) /\
    os_name d = Some "Linux 5.4" /\ vendor d = Some "Linux" /\
    os_version d = None.
Proof.
  split; [reflexivity |].
  eexists. split; [vm_compute; reflexivity |]. vm_compute. repeat split.
Qed.

(** Without the option, or with a false value for it, no OS field is
    set; with it, name and vendor come from the first match. *)
Lemma os_detection_only_on_request env ip options w d w' :
  _scan_device_details env ip options w = (Ok (Some d), w') ->
  (os_detection options = false -> os_name d = None /\ vendor d = None) /\
  (os_detection options = true ->
   forall best others,
     nm_os_scan env ip = Ok (Some (best :: others)) ->
     os_name d = Some (default "" (best !! "name")) /\
     vendor d = Some (default "" (best !! "vendor"))).
Proof.
  intros E.
  destruct (scan_device_details_run env ip options w)
    as (r & w1 & E1 & _ & Hfail & Hok).
  rewrite E1 in E. injection E as -> ->.
  destruct (profiling_fails env ip).
  - by specialize (Hfail eq_refl).
  - destruct (Hok eq_refl) as (d' & [= <-] & _ & _ & Hoff & Hon). by split.
Qed.

(** ** Target resolution *)

(** The range branch checks neither bound: every range that starts at a
    natural number and does not run backwards resolves, its last address
    included, however large. *)
Lemma range_without_upper_bound `{Netaddr} base a b :
  Py.has_char "/" base = false -> 0 <= a -> a <= b ->
  exists ip_ranges,
    resolve_target (base +:+ "." +:+ Py.str a +:+ "-" +:+ Py.str b) = Ok ip_ranges /\
    base +:+ "." +:+ Py.str b +:+ "/32" ∈ ip_ranges.
Proof.
  intros Hbase Ha Hab. unfold resolve_target.
  rewrite parse_target_range by (assumption || lia).
  assert (b ∈ seqZ a (b + 1 - a)) as Hin by (apply elem_of_seqZ; lia).
  destruct (seqZ a (b + 1 - a)) as [| x l]; [by apply elem_of_nil in Hin |].
  exists ((fun i => base +:+ "." +:+ Py.str i +:+ "/32") <$> (x :: l)).
  split; [reflexivity |].
  by apply (list_elem_of_fmap_2 (fun i => base +:+ "." +:+ Py.str i +:+ "/32")).
Qed.

(** C3, on the code: the range [10.0.0.254-257] ends beyond 255, and it
    resolves, whatever the address library accepts: the range branch
    checks neither bound, and the addresses 10.0.0.256 and 10.0.0.257 are
    part of the result. *)
Theorem range_beyond_255_resolves :
  forall `{Netaddr},
    _parse_target "10.0.0.254-257" =
      ["10.0.0.254/32"; "10.0.0.255/32"; "10.0.0.256/32"; "10.0.0.257/32"] /\
    resolve_target "10.0.0.254-257" =
      Ok ["10.0.0.254/32"; "10.0.0.255/32"; "10.0.0.256/32"; "10.0.0.257/32"].
Proof. intros N. split; reflexivity. Qed.

Section RangeFacts.
Context `{Netaddr}.

(** Two addresses of a range are the same text only for the same last
    octet. *)
Lemma range_entry_inj base i j :
  0 <= i -> 0 <= j ->
  base +:+ "." +:+ Py.str i +:+ "/32" = base +:+ "." +:+ Py.str j +:+ "/32" ->
  i = j.
Proof.
  intros Hi Hj E.
  pose proof (str_nonneg_digits i Hi) as Di.
  pose proof (str_nonneg_digits j Hj) as Dj.
  assert (forall k, all_digits (Py.str k) = true ->
            Py.rsplit1 "." (base +:+ "." +:+ Py.str k +:+ "/32") =
            Some (base, Py.str k +:+ "/32")) as Hsplit.
  { intros k Dk. apply (rsplit1_last "." base).
    rewrite has_char_app. by rewrite (all_digits_no_char "." _ eq_refl Dk). }
  pose proof (Hsplit i Di) as Ei. rewrite E, (Hsplit j Dj) in Ei.
  injection Ei as Ei.
  assert (forall k, all_digits (Py.str k) = true ->
            Py.split "/" (Py.str k +:+ "/32") = [Py.str k; "32"]) as Hs2.
  { intros k Dk. change ("/32") with (String "/" "32").
    rewrite split_first by by apply all_digits_no_char. reflexivity. }
  pose proof (Hs2 i Di) as Fi. rewrite <- Ei, (Hs2 j Dj) in Fi.
  injection Fi as Fi.
  pose proof (int_str i Hi) as Ii. rewrite <- Fi, (int_str j Hj) in Ii.
  congruence.
Qed.

Lemma dotted3_no_slash o1 o2 o3 :
  0 <= o1 -> 0 <= o2 -> 0 <= o3 ->
  Py.has_char "/" (Py.str o1 +:+ "." +:+ Py.str o2 +:+ "." +:+ Py.str o3) = false.
Proof.
  intros H1 H2 H3. rewrite !has_char_app. simpl.
  rewrite (all_digits_no_char "/" _ eq_refl (str_nonneg_digits o1 H1)).
  rewrite (all_digits_no_char "/" _ eq_refl (str_nonneg_digits o2 H2)).
  by rewrite (all_digits_no_char "/" _ eq_refl (str_nonneg_digits o3 H3)).
Qed.

End RangeFacts.

(** C4: a range [a.b.c.start-end] with [0 <= start <= end <= 255] resolves
    to one address for each integer of [start..end], in order and without
    repetition, with the first three octets as written, so that
    [10.0.0.1-3] resolves to 10.0.0.1, 10.0.0.2 and 10.0.0.3; every
    target without a slash that does not take the range branch (it has no
    hyphen, or no dot) resolves to itself alone when the address library
    accepts it as a literal address, as 10.0.0.5, and fails to resolve,
    with the error "Invalid target format", when the library rejects it,
    as 999.1.1.1.  The addresses are written as /32 blocks. *)
Theorem range_and_single_targets :
  forall `{Netaddr},
    (forall o1 o2 o3 start end_,
        0 <= o1 <= 255 -> 0 <= o2 <= 255 -> 0 <= o3 <= 255 ->
        0 <= start -> start <= end_ -> end_ <= 255 ->
        let base := Py.str o1 +:+ "." +:+ Py.str o2 +:+ "." +:+ Py.str o3 in
        let addresses :=
          (fun i => base +:+ "." +:+ Py.str i +:+ "/32") <$> seqZ start (end_ - start + 1) in
        resolve_target (base +:+ "." +:+ Py.str start +:+ "-" +:+ Py.str end_)
          = Ok addresses /\
        Z.of_nat (length addresses) = end_ - start + 1 /\
        NoDup addresses) /\
    resolve_target "10.0.0.1-3" = Ok ["10.0.0.1/32"; "10.0.0.2/32"; "10.0.0.3/32"] /\
    (forall target,
        Py.has_char "/" target = false ->
        (Py.has_char "-" target && Py.has_char "." target)%bool = false ->
        (IPAddress target = true -> resolve_target target = Ok [target +:+ "/32"]) /\
        (IPAddress target = false ->
         resolve_target target = Raise ("Invalid target format: " +:+ target))) /\
    (IPAddress "10.0.0.5" = true -> resolve_target "10.0.0.5" = Ok ["10.0.0.5/32"]) /\
    (IPAddress "999.1.1.1" = false ->
     resolve_target "999.1.1.1" = Raise "Invalid target format: 999.1.1.1").
Proof.
  intros N. split; [| split; [reflexivity | split; [| split]]].
  - intros o1 o2 o3 start end_ H1 H2 H3 Hs Hse He base addresses.
    assert (Py.has_char "/" base = false) as Hbase
      by (apply dotted3_no_slash; lia).
    split; [| split].
    + unfold resolve_target. rewrite parse_target_range by (assumption || lia).
      replace (end_ + 1 - start) with (end_ - start + 1) by lia.
      fold addresses. subst addresses.
      rewrite (seqZ_cons start) by lia. reflexivity.
    + subst addresses. rewrite length_fmap, length_seqZ. lia.
    + subst addresses. apply NoDup_fmap_2_strong; [| apply NoDup_seqZ].
      intros i j Hi%elem_of_seqZ Hj%elem_of_seqZ E.
      apply (range_entry_inj base i j); [lia | lia | exact E].
  - intros target Hslash Hrange.
    unfold resolve_target, _parse_target, parse_target_body.
    rewrite Hslash, Hrange. split; intros ->; reflexivity.
  - intros Hok. unfold resolve_target, _parse_target, parse_target_body.
    simpl. by rewrite Hok.
  - intros Hno. unfold resolve_target, _parse_target, parse_target_body.
    simpl. by rewrite Hno.
Qed.

Lemma range_and_single_targets_witness :
  @resolve_target strict_ipv4 "192.168.1.10-12" =
    Ok ["192.168.1.10/32"; "192.168.1.11/32"; "192.168.1.12/32"] /\
  @resolve_target strict_ipv4 "10.0.0.5" = Ok ["10.0.0.5/32"] /\
  @resolve_target strict_ipv4 "999.1.1.1" = Raise "Invalid target format: 999.1.1.1" /\
  @resolve_target strict_ipv4 "192.168.1.10" = Ok ["192.168.1.10/32"] /\
  @resolve_target strict_ipv4 "256.1.1.1" = Raise "Invalid target format: 256.1.1.1".
Proof.
  destruct (@range_and_single_targets strict_ipv4)
    as (Hrange & _ & Hsingle & Hone & Hbad).
  split; [| split; [| split; [| split]]].
  - apply (Hrange 192 168 1 10 12); lia.
  - apply Hone. reflexivity.
  - apply Hbad. reflexivity.
  - apply (Hsingle "192.168.1.10"); reflexivity.
  - apply (Hsingle "256.1.1.1"); reflexivity.
Defined.

(** ** Witnesses of the classifier and the merge *)

Lemma classifier_range_and_inputs_witness :
  _classify_device_type (Lab.host "10.0.0.7" [445; 135]) =
  _classify_device_type
    (set_os (Some "Windows 10") None (Some "Microsoft")
       (set_mac_address (Some "00:11:22:33:44:55")
          (Lab.host "10.0.0.8" [135; 445; 135]))) /\
  _classify_device_type (Lab.host "10.0.0.7" [445; 135]) <> MOBILE.
Proof.
  destruct classifier_range_and_inputs as [Hrange Hsame].
  split.
  - apply Hsame; [| reflexivity]. intros p. simpl.
    rewrite !elem_of_cons. tauto.
  - apply Hrange.
Defined.

(** ** Findings along whole jobs *)

Section JobsKeepKeys.
Variable env : Env.

Lemma run_scan_keeps_keys_distinct i ty target options :
  preserves (fun d => NoDup (vuln_key <$> vulnerabilities d))
            (run_scan env i ty target options).
Proof.
  unfold run_scan, run_scan_body, run_scan_failed.
  apply preserves_try.
  - apply preserves_bind; [apply preserves_utcnow |]. intros now.
    apply preserves_bind; [by apply preserves_modify_db |]. intros _.
    apply preserves_bind.
    + apply run_scan_kind_preserves.
      * intros d. apply (save_device_keeps (fun vs _ => NoDup (vuln_key <$> vs))).
      * intros v w Hw. rewrite save_vulnerability_run. simpl.
        by apply merge_vuln_NoDup.
    + intros [[ds vs] md].
      apply preserves_bind; [apply preserves_utcnow |]. intros now'.
      by apply preserves_modify_db.
  - intros e. apply preserves_bind; [apply preserves_utcnow |]. intros now.
    by apply preserves_modify_db.
Qed.

End JobsKeepKeys.

(** C5: two findings with the same dedup key (device identity, title, port)
    inserted into the store leave one stored record; over every sequence of
    vulnerability-scan merges, started from a store whose keys are
    distinct, the keys stay distinct and every merged key is stored exactly
    once; and whole jobs, of any kind and in any sequence, keep the stored
    keys distinct. *)
Theorem vulnerability_dedup :
  (forall w v1 v2,
      vuln_key v1 = vuln_key v2 ->
      vuln_key v1 ∉ vuln_key <$> vulnerabilities (db w) ->
      let w' := exec (save_vulnerabilities [v1; v2]) w in
      vulnerabilities (db w') = vulnerabilities (db w) ++ [v1] /\
      stored_with_key (vuln_key v1) w' = [v1]) /\
  (forall (batches : list (list Vulnerability)) w,
      NoDup (vuln_key <$> vulnerabilities (db w)) ->
      let w' := exec (for_each batches save_vulnerabilities) w in
      NoDup (vuln_key <$> vulnerabilities (db w')) /\
      forall v, v ∈ concat batches ->
                length (stored_with_key (vuln_key v) w') = 1%nat) /\
  (forall env (jobs : list (string * ScanType * string * gmap string PyValue)) w,
      NoDup (vuln_key <$> vulnerabilities (db w)) ->
      let w' := exec (for_each jobs
                        (fun '(i, ty, target, options) =>
                           run_scan env i ty target options)) w in
      NoDup (vuln_key <$> vulnerabilities (db w'))).
Proof.
  split; [| split].
  - intros w v1 v2 Hk Hfresh w'. subst w'. unfold exec, stored_with_key.
    rewrite save_vulnerabilities_run. simpl.
    assert (merge_vuln (vulnerabilities (db w)) v1 = vulnerabilities (db w) ++ [v1])
      as E1.
    { unfold merge_vuln. apply find_key_none in Hfresh. by rewrite Hfresh. }
    assert (merge_vuln (vulnerabilities (db w) ++ [v1]) v2 =
            vulnerabilities (db w) ++ [v1]) as E2.
    { unfold merge_vuln.
      destruct (find_one _ (vulnerabilities (db w) ++ [v1])) eqn:E; [reflexivity |].
      apply find_key_none in E. exfalso. apply E. rewrite <- Hk, fmap_app.
      apply elem_of_app. right. simpl. left. }
    rewrite E1, E2. split; [reflexivity |].
    rewrite filter_app.
    assert (filter (fun v => vuln_key v = vuln_key v1) (vulnerabilities (db w)) = [])
      as ->.
    { destruct (filter _ (vulnerabilities (db w))) as [| y ys] eqn:E; [reflexivity |].
      exfalso. apply Hfresh.
      assert (y ∈ filter (fun v => vuln_key v = vuln_key v1) (vulnerabilities (db w)))
        as Hy by (rewrite E; left).
      apply list_elem_of_filter in Hy as [Hy1 Hy2]. rewrite <- Hy1.
      by apply list_elem_of_fmap_2. }
    simpl. by rewrite filter_cons_True.
  - intros batches w Hnd w'. subst w'. unfold exec, stored_with_key.
    rewrite merge_sequence_run. simpl.
    split; [by apply fold_merge_NoDup |].
    intros v Hv. apply NoDup_keys_count; [by apply fold_merge_NoDup |].
    apply fold_merge_keys. right. by apply list_elem_of_fmap_2.
  - intros env jobs w Hnd w'. subst w'. unfold exec.
    apply (preserves_for_each (P := fun d => NoDup (vuln_key <$> vulnerabilities d)));
      [| exact Hnd].
    intros [[[i ty] target] options]. apply run_scan_keeps_keys_distinct.
Qed.

Lemma vulnerability_dedup_witness :
  let v1 := Lab.finding "v-1" "dev-A" "Telnet enabled" (Some 23) in
  let v2 := Lab.finding "v-2" "dev-A" "Telnet enabled" (Some 23) in
  let v3 := Lab.finding "v-3" "dev-A" "Telnet enabled" None in
  vulnerabilities (db (exec (save_vulnerabilities [v1; v2]) (Lab.fresh []))) = [v1] /\
  length (stored_with_key (vuln_key v2)
            (exec (for_each [[v1; v3]; [v2]; [v3; v1]] save_vulnerabilities)
                  (Lab.fresh []))) = 1%nat /\
  NoDup (vuln_key <$> vulnerabilities
           (db (exec (for_each [("job-1", VULNERABILITY_SCAN, "all", ∅);
                                ("job-2", VULNERABILITY_SCAN, "10.0.0.1", ∅)]
                        (fun '(i, ty, target, options) =>
                           run_scan Lab.env i ty target options))
                     (mkWorld (mkDB [Lab.host "10.0.0.1" [23]] []
                                    [Lab.pending "job-1" VULNERABILITY_SCAN "all"])
                              100 0)))).
Proof.
  intros v1 v2 v3. destruct vulnerability_dedup as (Htwo & Hseq & Hjobs). split; [| split].
  - apply (Htwo (Lab.fresh []) v1 v2); [reflexivity |].
    simpl. apply not_elem_of_nil.
  - apply (Hseq [[v1; v3]; [v2]; [v3; v1]] (Lab.fresh [])).
    + simpl. apply NoDup_nil_2.
    + simpl. rewrite !elem_of_cons. tauto.
  - apply Hjobs. simpl. apply NoDup_nil_2.
Defined.

(* ================================================================= *)
(** * Further properties *)

(** ** Integers as text *)

Section IntText.

(** [int(str(n)) == n], negative numbers included. *)
Lemma int_str_all n : Py.int (Py.str n) = Some n.
Proof.
  destruct (Z_le_gt_dec 0 n) as [Hn | Hn]; [by apply int_str |].
  destruct n as [| p | p]; [lia | lia |].
  pose proof (int_str (Z.pos p) ltac:(lia)) as Hp.
  pose proof (str_nonneg_digits (Z.pos p) ltac:(lia)) as Dp.
  rewrite int_all_digits in Hp by exact Dp.
  unfold Py.str in *. simpl in *.
  set (ds := NilZero.string_of_uint (Pos.to_uint p)) in *.
  unfold Py.int, Py.strip. simpl.
  rewrite (all_digits_rstrip ds Dp).
  destruct ds as [| c ds']; [discriminate Hp |].
  by rewrite Hp.
Qed.

Lemma str_inj a b : Py.str a = Py.str b -> a = b.
Proof.
  intros E. pose proof (int_str_all a) as Ha.
  rewrite E, int_str_all in Ha. congruence.
Qed.

End IntText.

(** ** More on the target parser *)

Section ParserEdges.
Context `{Netaddr}.

Lemma rsplit1_has_char sep s a b :
  Py.rsplit1 sep s = Some (a, b) -> Py.has_char sep s = true.
Proof.
  revert a b. induction s as [| c s IH]; intros a b; simpl; [discriminate |].
  destruct (Py.rsplit1 sep s) as [[a' b'] |].
  - intros _. rewrite (IH a' b' eq_refl). apply orb_true_r.
  - destruct (Ascii.eqb_spec c sep) as [-> | Hne]; [| discriminate].
    intros _. by rewrite Ascii.eqb_refl.
Qed.

(** The range branch, for any spelling of its two bounds. *)
Lemma parse_target_range_text base s e :
  Py.has_char "/" base = false ->
  Py.has_char "/" s = false -> Py.has_char "/" e = false ->
  Py.has_char "." s = false -> Py.has_char "." e = false ->
  Py.has_char "-" s = false -> Py.has_char "-" e = false ->
  parse_target_body (base +:+ "." +:+ s +:+ "-" +:+ e) =
  a ← Py.int s; b ← Py.int e;
  Some ((fun i => base +:+ "." +:+ Py.str i +:+ "/32") <$> seqZ a (b + 1 - a)).
Proof.
  intros Hbase Hs1 He1 Hs2 He2 Hs3 He3.
  assert (Py.has_char "/" (base +:+ "." +:+ s +:+ "-" +:+ e) = false) as H1
    by (rewrite !has_char_app, Hbase, Hs1, He1; reflexivity).
  assert (Py.has_char "-" (base +:+ "." +:+ s +:+ "-" +:+ e) = true) as H2
    by (rewrite !has_char_app; simpl Py.has_char; by rewrite !orb_true_r).
  assert (Py.has_char "." (base +:+ "." +:+ s +:+ "-" +:+ e) = true) as H3
    by (rewrite !has_char_app; simpl Py.has_char; by rewrite !orb_true_r).
  assert (Py.has_char "." (s +:+ "-" +:+ e) = false) as H4
    by (rewrite !has_char_app, Hs2, He2; reflexivity).
  assert (Py.has_char "-" (s +:+ "-" +:+ e) = true) as H5
    by (rewrite !has_char_app; simpl Py.has_char; by rewrite !orb_true_r).
  unfold parse_target_body. rewrite H1, H2, H3. cbn [andb].
  change ("." +:+ s +:+ "-" +:+ e) with (String "." (s +:+ "-" +:+ e)).
  rewrite (rsplit1_last "." base _ H4). cbn [mbind option_bind].
  rewrite H5. change ("-" +:+ e) with (String "-" e).
  rewrite (split_first "-" s e Hs3), (split_none "-" e He3).
  reflexivity.
Qed.

End ParserEdges.



(** X2: for a range whose two bounds are ASCII texts: when it runs
    backwards ([start > end]) it resolves to nothing and target resolution
    fails with "Invalid target format"; so does a range one of whose
    bounds [int()] does not read.  Bounds with characters outside ASCII
    are left out: [int()] reads the digits of other scripts too. *)
Theorem reversed_range_fails :
  forall `{Netaddr} base s e,
    Py.has_char "/" base = false ->
    Py.has_char "/" s = false -> Py.has_char "/" e = false ->
    Py.has_char "." s = false -> Py.has_char "." e = false ->
    Py.has_char "-" s = false -> Py.has_char "-" e = false ->
    ascii_text s = true -> ascii_text e = true ->
    match Py.int s, Py.int e with
    | Some a, Some b => b < a
    | _, _ => True
    end ->
    resolve_target (base +:+ "." +:+ s +:+ "-" +:+ e) =
    Raise ("Invalid target format: " +:+ base +:+ "." +:+ s +:+ "-" +:+ e).
Proof.
  intros N base s e Hbase Hs1 He1 Hs2 He2 Hs3 He3 _ _ Hlt.
  unfold resolve_target, _parse_target.
  rewrite parse_target_range_text by assumption.
  destruct (Py.int s) as [a |]; [| reflexivity].
  destruct (Py.int e) as [b |]; [| reflexivity].
  simpl. by rewrite seqZ_nil by lia.
Qed.

Lemma reversed_range_fails_witness :
  @resolve_target strict_ipv4 "10.0.0.50-10" = Raise "Invalid target format: 10.0.0.50-10" /\
  @resolve_target strict_ipv4 "10.0.0.a-b" = Raise "Invalid target format: 10.0.0.a-b".
Proof.
  split.
  - apply (@reversed_range_fails strict_ipv4 "10.0.0" "50" "10"); reflexivity.
  - apply (@reversed_range_fails strict_ipv4 "10.0.0" "a" "b");
      first [reflexivity | exact I].
Defined.

(** X3: a target with a hyphen and a dot, and no slash, is never handed to
    the address library: when the text after its last dot has no hyphen
    (a host name such as web-1.example.com) or more than one, it resolves
    to nothing, whatever the library would accept. *)
Theorem hyphenated_name_is_rejected :
  forall `{Netaddr} target base last,
    Py.has_char "/" target = false ->
    Py.has_char "-" target = true ->
    Py.rsplit1 "." target = Some (base, last) ->
    length (Py.split "-" last) <> 2%nat ->
    _parse_target target = [] /\
    resolve_target target = Raise ("Invalid target format: " +:+ target).
Proof.
  intros N target base last Hslash Hhyphen Hsplit Hparts.
  assert (_parse_target target = []) as Hnil.
  { unfold _parse_target, parse_target_body.
    rewrite Hslash, Hhyphen, (rsplit1_has_char _ _ _ _ Hsplit), Hsplit. simpl.
    destruct (Py.has_char "-" last); [| reflexivity].
    destruct (Py.split "-" last) as [| x [| y [| z l]]]; try reflexivity.
    by simpl in Hparts. }
  split; [exact Hnil |]. unfold resolve_target. by rewrite Hnil.
Qed.

Lemma hyphenated_name_is_rejected_witness :
  let accept_all := {| IPNetwork := fun t => Some t; IPAddress := fun _ => true |} in
  @_parse_target accept_all "web-1.example.com" = [] /\
  @_parse_target accept_all "10.0.0.1-2-3" = [] /\
  @_parse_target accept_all "example.com" = ["example.com/32"].
Proof.
  intros accept_all. split; [| split].
  - apply (@hyphenated_name_is_rejected accept_all "web-1.example.com"
             "web-1.example" "com"); try reflexivity. vm_compute. lia.
  - apply (@hyphenated_name_is_rejected accept_all "10.0.0.1-2-3"
             "10.0.0" "1-2-3"); try reflexivity. vm_compute. lia.
  - reflexivity.
Defined.

(** ** More on the classifier *)

Section ClassifierEdges.

Lemma truthy_lower s : Py.truthy_str (Py.lower s) = Py.truthy_str s.
Proof. by destruct s. Qed.

Lemma lower_idem_ascii c : Py.lower_ascii (Py.lower_ascii c) = Py.lower_ascii c.
Proof. destruct c as [[] [] [] [] [] [] [] []]; reflexivity. Qed.

Lemma lower_idem s : Py.lower (Py.lower s) = Py.lower s.
Proof.
  induction s as [| c s IH]; simpl; [reflexivity |].
  by rewrite lower_idem_ascii, IH.
Qed.

(** The host-name test reads the name through [lower()] only. *)
Lemma router_hostname_lower h :
  router_hostname (Py.lower <$> h) = router_hostname h.
Proof.
  destruct h as [s |]; simpl; [| reflexivity].
  by rewrite truthy_lower, lower_idem.
Qed.

Lemma any_false_iff {A} (f : A -> bool) l :
  Py.any f l = false <-> forall x, x ∈ l -> f x = false.
Proof.
  unfold Py.any. induction l as [| y l IH]; simpl.
  - split; [intros _ x Hx; by apply elem_of_nil in Hx | reflexivity].
  - rewrite orb_false_iff, IH. split.
    + intros [Hy Hl] x [-> | Hx]%elem_of_cons; auto.
    + intros Hall. split; [apply Hall; left | intros x Hx; apply Hall; by right].
Qed.

(** With no server port open, ports 80, 443 and 22 are closed, and the
    router ports that can be open are 23 and 161. *)
Lemma server_closes_web d :
  server_signature d = false ->
  port_open (port_set d) 80 = false /\ port_open (port_set d) 443 = false /\
  port_open (port_set d) 22 = false.
Proof.
  intros Hs. pose proof (proj1 (any_false_iff _ _) Hs) as Hall.
  repeat split; apply Hall; unfold server_ports; set_solver.
Qed.

Lemma router_ports_without_server d :
  server_signature d = false ->
  Py.any (port_open (port_set d)) router_ports =
  (port_open (port_set d) 23 || port_open (port_set d) 161)%bool.
Proof.
  intros Hs. destruct (server_closes_web d Hs) as (H80 & H443 & H22).
  unfold router_ports, Py.any. simpl. rewrite H80, H443, H22.
  by destruct (port_open (port_set d) 23), (port_open (port_set d) 161).
Qed.

End ClassifierEdges.

(** X4: the classification does not depend on the letter case of the host
    name: two devices with the same set of open ports whose host names are
    equal after [lower()] are classified alike. *)
Theorem classifier_ignores_hostname_case :
  forall d1 d2,
    port_set d1 = port_set d2 ->
    (Py.lower <$> hostname d1) = (Py.lower <$> hostname d2) ->
    _classify_device_type d1 = _classify_device_type d2.
Proof.
  intros d1 d2 Hp Hh. unfold _classify_device_type.
  fold (port_set d1). fold (port_set d2). rewrite Hp.
  by rewrite <- (router_hostname_lower (hostname d1)), Hh, router_hostname_lower.
Qed.

Lemma classifier_ignores_hostname_case_witness :
  _classify_device_type (sample (Some "Core-ROUTER.lan") [443; 23]) =
  _classify_device_type (sample (Some "core-router.LAN") [23; 443]) /\
  _classify_device_type (sample (Some "core-router.LAN") [23; 443]) = ROUTER.
Proof.
  split; [| vm_compute; reflexivity].
  apply classifier_ignores_hostname_case; vm_compute; reflexivity.
Defined.

(** X5: a device is classified as a switch exactly when port 161 is open,
    no server port and no printer port is open, and its host name does not
    make it a router.  The test of ports 80 and 443 in the switch rule
    never decides: the server rule has answered before for such a device. *)
Theorem switch_needs_only_snmp :
  forall d,
    _classify_device_type d = SWITCH <->
    port_open (port_set d) 161 = true /\
    server_signature d = false /\
    printer_signature d = false /\
    router_hostname (hostname d) = false.
Proof.
  intros d. unfold _classify_device_type. fold (port_set d).
  fold (server_signature d). fold (printer_signature d).
  destruct (server_signature d) eqn:Hs.
  { split; [destruct (_ && _)%bool; discriminate | intros (_ & [=] & _)]. }
  rewrite (router_ports_without_server d Hs).
  destruct (server_closes_web d Hs) as (H80 & H443 & _). rewrite H80, H443.
  destruct (port_open (port_set d) 23), (port_open (port_set d) 161),
    (router_hostname (hostname d)), (printer_signature d),
    (Py.any (port_open (port_set d)) workstation_ports);
    simpl; split; try discriminate; try tauto;
    intuition discriminate.
Qed.

(** X6: a device is unknown exactly when no server, printer or workstation
    port and no SNMP port is open and it is not a telnet host named as a
    router; so a device with only port 8080 open is unknown, and so is one
    with only port 23 open unless its name makes it a router. *)
Theorem unknown_means_no_signature :
  forall d,
    _classify_device_type d = UNKNOWN <->
    server_signature d = false /\
    printer_signature d = false /\
    Py.any (port_open (port_set d)) workstation_ports = false /\
    port_open (port_set d) 161 = false /\
    (port_open (port_set d) 23 && router_hostname (hostname d))%bool = false.
Proof.
  intros d. unfold _classify_device_type. fold (port_set d).
  fold (server_signature d). fold (printer_signature d).
  destruct (server_signature d) eqn:Hs.
  { split; [destruct (_ && _)%bool; discriminate | intros ([=] & _)]. }
  rewrite (router_ports_without_server d Hs).
  destruct (server_closes_web d Hs) as (H80 & H443 & _). rewrite H80, H443.
  destruct (port_open (port_set d) 23), (port_open (port_set d) 161),
    (router_hostname (hostname d)), (printer_signature d),
    (Py.any (port_open (port_set d)) workstation_ports);
    simpl; split; try discriminate; try tauto;
    intuition discriminate.
Qed.

(** ** The port scan and the profile of a host *)

Section PortScan.

Lemma port_rows_fold rows : forall o f c s,
  fold_left port_row_step rows (o, f, c, s) =
  (o ++ (row_port <$> rows_in_state "open" rows),
   f ++ (row_port <$> rows_in_state "filtered" rows),
   c ++ (row_port <$> rows_in_state "closed" rows),
   fold_left (fun m row => <[Py.str (row_port row) := service_of_row row]> m)
             (rows_in_state "open" rows) s).
Proof.
  unfold rows_in_state.
  induction rows as [| row rows IH]; intros o f c s; simpl.
  - by rewrite !app_nil_r.
  - destruct (row_state row =? "open")%string eqn:Eo.
    + assert ((row_state row =? "filtered")%string = false) as ->
        by (apply String.eqb_eq in Eo; by rewrite Eo).
      assert ((row_state row =? "closed")%string = false) as ->
        by (apply String.eqb_eq in Eo; by rewrite Eo).
      rewrite IH. simpl. by rewrite <- !app_assoc.
    + destruct (row_state row =? "filtered")%string eqn:Ef.
      * assert ((row_state row =? "closed")%string = false) as ->
          by (apply String.eqb_eq in Ef; by rewrite Ef).
        rewrite IH. simpl. by rewrite <- !app_assoc.
      * destruct (row_state row =? "closed")%string eqn:Ec.
        -- rewrite IH. simpl. by rewrite <- !app_assoc.
        -- apply IH.
Qed.

Lemma services_fold_entry (rows : list PortRow) : forall (s : gmap string ServiceInfo) k info,
  fold_left (fun m row => <[Py.str (row_port row) := service_of_row row]> m) rows s
    !! k = Some info ->
  s !! k = Some info \/
  exists row, row ∈ rows /\ k = Py.str (row_port row) /\ info = service_of_row row.
Proof.
  induction rows as [| row rows IH]; intros s k info; simpl; [auto |].
  intros [Hs | (r & Hr & Hk & Hi)]%IH.
  - destruct (decide (Py.str (row_port row) = k)) as [<- | Hne].
    + rewrite lookup_insert_eq in Hs. injection Hs as <-.
      right. exists row. split; [left | done].
    + rewrite lookup_insert_ne in Hs by done. by left.
  - right. exists r. split; [by right | done].
Qed.

Lemma services_fold_dom (rows : list PortRow) : forall (s : gmap string ServiceInfo) k,
  is_Some (fold_left (fun m row => <[Py.str (row_port row) := service_of_row row]> m)
             rows s !! k) <->
  is_Some (s !! k) \/ exists row, row ∈ rows /\ k = Py.str (row_port row).
Proof.
  induction rows as [| row rows IH]; intros s k; simpl.
  - split; [auto | intros [Hs | (r & Hr & _)]; [done | by apply elem_of_nil in Hr]].
  - rewrite IH. split.
    + intros [Hs | (r & Hr & Hk)].
      * destruct (decide (Py.str (row_port row) = k)) as [<- | Hne].
        -- right. exists row. split; [left | done].
        -- rewrite lookup_insert_ne in Hs by done. by left.
      * right. exists r. split; [by right | done].
    + intros [Hs | (r & [-> | Hr]%elem_of_cons & Hk)].
      * left. destruct (decide (Py.str (row_port row) = k)) as [<- | Hne].
        -- rewrite lookup_insert_eq. by eexists.
        -- by rewrite lookup_insert_ne.
      * left. subst k. rewrite lookup_insert_eq. by eexists.
      * right. by exists r.
Qed.

Lemma rows_in_state_elem state rows row :
  row ∈ rows_in_state state rows <-> row ∈ rows /\ row_state row = state.
Proof.
  unfold rows_in_state. rewrite !list_elem_of_In, filter_In, String.eqb_eq.
  reflexivity.
Qed.

End PortScan.

(** X7: the port scan sorts the rows of the engine's answer by state: the
    open, filtered and closed lists hold the ports of the rows in these
    states, in scan order, and rows in any other state are dropped; the
    service map has an entry for [str(p)] exactly for the open ports [p],
    and the entry found under [str(p)] is a record of port [p] in state
    open.  The store is not touched. *)
Theorem port_scan_sorts_rows_by_state :
  forall env ip rows w,
    nm_port_scan env ip = Ok (Some rows) ->
    exists svcs w',
      port_scan_device env ip w =
        (Ok (PortResults (row_port <$> rows_in_state "open" rows)
                         (row_port <$> rows_in_state "filtered" rows)
                         (row_port <$> rows_in_state "closed" rows) svcs), w') /\
      db w' = db w /\
      (forall k, is_Some (svcs !! k) <->
                 exists p, p ∈ row_port <$> rows_in_state "open" rows /\ k = Py.str p) /\
      (forall p info, svcs !! Py.str p = Some info ->
                      svc_port info = p /\ svc_state info = "open").
Proof.
  intros env ip rows w Hscan. unfold port_scan_device. rewrite Hscan.
  run_job. rewrite port_rows_fold. simpl.
  eexists _, _. split; [reflexivity |]. split; [reflexivity |]. split.
  - intros k. rewrite services_fold_dom. rewrite lookup_empty. split.
    + intros [[x Hx] | (row & Hrow & Hk)]; [discriminate |].
      exists (row_port row). split; [by apply list_elem_of_fmap_2 | exact Hk].
    + intros (p & (row & -> & Hrow)%list_elem_of_fmap & Hk).
      right. by exists row.
  - intros p info Hinfo.
    apply services_fold_entry in Hinfo as [Hempty | (row & Hrow & Hk & ->)].
    + by rewrite lookup_empty in Hempty.
    + apply rows_in_state_elem in Hrow as [_ Hstate].
      apply str_inj in Hk. simpl. by split.
Qed.

Lemma port_scan_sorts_rows_by_state_witness :
  exists svcs w',
    port_scan_device Lab.env "10.0.0.1" (Lab.fresh []) =
      (Ok (PortResults [22; 80] [] [443] svcs), w') /\
    is_Some (svcs !! "80") /\ svcs !! "443" = None.
Proof.
  destruct (port_scan_sorts_rows_by_state Lab.env "10.0.0.1"
              [Lab.row 22 "open" "ssh"; Lab.row 80 "open" "http";
               Lab.row 443 "closed" "https"] (Lab.fresh []) eq_refl)
    as (svcs & w' & E & _ & Hdom & _).
  exists svcs, w'. split; [exact E |]. split.
  - apply Hdom. exists 80. split; [| reflexivity]. vm_compute.
    apply elem_of_cons. right. apply elem_of_cons. by left.
  - destruct (svcs !! "443") as [info |] eqn:E443; [| reflexivity].
    exfalso. destruct (proj1 (Hdom "443") (ltac:(by eexists)))
      as (p & Hp & Hk).
    vm_compute in Hp. apply (str_inj 443 p) in Hk. subst p.
    apply elem_of_cons in Hp as [Hp | Hp]; [discriminate |].
    apply elem_of_cons in Hp as [Hp | Hp]; [discriminate |].
    by apply elem_of_nil in Hp.
Defined.

Section ProfileFields.
Variable env : Env.

Lemma classify_no_ports d : open_ports d = [] -> _classify_device_type d = UNKNOWN.
Proof.
  intros Hp. unfold _classify_device_type. rewrite Hp. reflexivity.
Qed.

Lemma classify_range_not d :
  _classify_device_type d <> MOBILE /\ _classify_device_type d <> IOT.
Proof.
  pose proof (classify_range d) as Hr.
  split; intros E; rewrite E in Hr;
    repeat (apply elem_of_cons in Hr as [Hr | Hr]; [discriminate |]);
    by apply elem_of_nil in Hr.
Qed.

(** The fields of a profiled device. *)
Lemma scan_device_details_fields ip options w d w' :
  _scan_device_details env ip options w = (Ok (Some d), w') ->
  db w' = db w /\ ip_address d = ip /\ id d = uuid4 env (uuids w) /\
  hostname d = resolved_name env ip /\
  open_ports d = scanned_open_ports env ip /\
  device_type d = _classify_device_type d /\
  is_active d = true /\
  mac_address d = (if Py.truthy_str (default "" (arp_n env ip)) then arp_n env ip
                   else None).
Proof.
  unfold _scan_device_details, resolved_name, scanned_open_ports, _detect_os,
    _get_mac_address.
  run_job.
  destruct (gethostbyaddr env ip) as [h | | msg]; simpl; [| | discriminate].
  all: destruct (nm_port_scan env ip) as [[rows |] | e]; simpl.
  all: try rewrite port_rows_fold; simpl.
  all: destruct (arp_n env ip) as [mac |];
    [destruct (Py.truthy_str mac) eqn:Hm |]; simpl.
  all: intros [= <- <-]; simpl; rewrite ?Hm.
  all: repeat split; repeat case_match; reflexivity.
Qed.

End ProfileFields.

(** X8: the profiler answers for every host.  When the reverse lookup
    fails with anything but the two silenced errors it answers no device.
    Otherwise it produces a device, which carries the requested address,
    the resolved host name if any, the open ports of the port scan, and a
    device type that is the classifier's answer for the finished record,
    hence never mobile or iot; it is active.  When the port scan raises,
    misses the host or finds nothing open, the device is still produced,
    with no port and the type unknown.  The store is untouched in every
    case. *)
Theorem profiled_device_is_consistent :
  forall env ip options w,
    (profiling_fails env ip = true ->
     exists w', _scan_device_details env ip options w = (Ok None, w') /\
                db w' = db w) /\
    (profiling_fails env ip = false ->
     exists d w',
       _scan_device_details env ip options w = (Ok (Some d), w') /\
       db w' = db w /\
       ip_address d = ip /\
       hostname d = resolved_name env ip /\
       open_ports d = scanned_open_ports env ip /\
       device_type d = _classify_device_type d /\
       device_type d <> MOBILE /\ device_type d <> IOT /\
       is_active d = true /\
       (scanned_open_ports env ip = [] -> device_type d = UNKNOWN) /\
       (nm_port_scan env ip = Ok None \/ (exists e, nm_port_scan env ip = Raise e) ->
        open_ports d = [] /\ device_type d = UNKNOWN)).
Proof.
  intros env ip options w.
  destruct (scan_device_details_run env ip options w)
    as (r & w' & E & Hdb & Hfail & Hok).
  split.
  - intros Hp. exists w'. rewrite E, (Hfail Hp). by split.
  - intros Hp. destruct (Hok Hp) as (d & -> & _).
    exists d, w'. split; [exact E |].
    destruct (scan_device_details_fields env ip options w d w' E)
      as (_ & Hip & _ & Hh & Hports & Ht & Ha & _).
    assert (scanned_open_ports env ip = [] -> device_type d = UNKNOWN) as Hnone.
    { intros Hnone. rewrite Ht. apply classify_no_ports. congruence. }
    refine (conj Hdb (conj Hip (conj Hh (conj Hports (conj Ht
             (conj _ (conj _ (conj Ha (conj Hnone _))))))))).
    + rewrite Ht. apply classify_range_not.
    + rewrite Ht. apply classify_range_not.
    + intros Hscan.
      assert (scanned_open_ports env ip = []) as Hempty
        by (unfold scanned_open_ports; by destruct Hscan as [-> | [e ->]]).
      split; [congruence | by apply Hnone].
Qed.

Lemma profiled_device_is_consistent_witness :
  (exists d w',
     _scan_device_details Lab.env "10.0.0.1" ∅ (Lab.fresh []) = (Ok (Some d), w') /\
     hostname d = Some "web-1" /\ open_ports d = [22; 80] /\
     device_type d = _classify_device_type d /\ device_type d <> IOT) /\
  (exists d w',
     _scan_device_details Lab.env "10.0.0.4" ∅ (Lab.fresh []) = (Ok (Some d), w') /\
     hostname d = None /\ open_ports d = [] /\ device_type d = UNKNOWN) /\
  (exists w',
     _scan_device_details Lab.env "10.0.0.3" ∅ (Lab.fresh []) = (Ok None, w')).
Proof.
  split; [| split].
  - destruct (profiled_device_is_consistent Lab.env "10.0.0.1" ∅ (Lab.fresh []))
      as [_ Hok].
    destruct (Hok eq_refl) as (d & w' & E & _ & _ & Hh & Hp & Ht & _ & Hiot & _).
    exists d, w'. rewrite Hh, Hp. by repeat split.
  - destruct (profiled_device_is_consistent Lab.env "10.0.0.4" ∅ (Lab.fresh []))
      as [_ Hok].
    destruct (Hok eq_refl)
      as (d & w' & E & _ & _ & Hh & _ & _ & _ & _ & _ & _ & Hmiss).
    destruct (Hmiss (or_introl eq_refl)) as [Hp Ht].
    exists d, w'. rewrite Hh. by repeat split.
  - destruct (profiled_device_is_consistent Lab.env "10.0.0.3" ∅ (Lab.fresh []))
      as [Hfail _].
    destruct (Hfail eq_refl) as (w' & E & _). by exists w'.
Defined.

(** ** Responsive hosts *)

Section Responsive.
Variable env : Env.

Lemma dict_set_NoDup k l : NoDup l -> NoDup (dict_set k l).
Proof.
  intros Hl. unfold dict_set. case_bool_decide as Hk; [exact Hl |].
  apply NoDup_app. split; [exact Hl |]. split; [| apply NoDup_singleton].
  intros x Hx Hx'%list_elem_of_singleton. by subst x.
Qed.

Lemma dict_set_elem k l x : x ∈ dict_set k l <-> x ∈ l \/ x = k.
Proof.
  unfold dict_set. case_bool_decide as Hk.
  - split; [auto | intros [Hx | ->]; done].
  - rewrite elem_of_app, list_elem_of_singleton. reflexivity.
Qed.

Lemma dict_set_prefix k l : exists extra, dict_set k l = l ++ extra.
Proof.
  unfold dict_set. case_bool_decide; [exists []; by rewrite app_nil_r | by eexists].
Qed.

Lemma dict_update_facts other : forall keys,
  NoDup keys ->
  NoDup (dict_update keys other) /\
  (forall x, x ∈ dict_update keys other <-> x ∈ keys \/ x ∈ other) /\
  (exists extra, dict_update keys other = keys ++ extra).
Proof.
  unfold dict_update. induction other as [| k other IH]; intros keys Hnd; simpl.
  - split; [exact Hnd |]. split.
    + intros x. rewrite elem_of_nil. tauto.
    + exists []. by rewrite app_nil_r.
  - destruct (IH (dict_set k keys) (dict_set_NoDup k keys Hnd))
      as (Hnd' & Helem & extra & Hpre).
    split; [exact Hnd' |]. split.
    + intros x. rewrite Helem, dict_set_elem, elem_of_cons. tauto.
    + destruct (dict_set_prefix k keys) as [e1 He1].
      exists (e1 ++ extra). by rewrite Hpre, He1, app_assoc.
Qed.

Lemma ping_fold_facts (hosts : list (string * string)) : forall acc,
  NoDup acc ->
  let r := fold_left
             (fun responsive_hosts '(host, state) =>
                if String.eqb state "up" then dict_set host responsive_hosts
                else responsive_hosts) hosts acc in
  NoDup r /\
  forall x, x ∈ r <->
            x ∈ acc \/
            x ∈ fst <$> List.filter (fun hs => String.eqb (snd hs) "up") hosts.
Proof.
  induction hosts as [| [host state] hosts IH]; intros acc Hnd; simpl.
  - split; [exact Hnd |]. intros x. rewrite elem_of_nil. tauto.
  - destruct (String.eqb state "up"); simpl.
    + destruct (IH (dict_set host acc) (dict_set_NoDup host acc Hnd)) as [Hnd' Helem].
      split; [exact Hnd' |]. intros x.
      rewrite Helem, dict_set_elem, elem_of_cons. tauto.
    + by apply IH.
Qed.

Lemma arp_fold_facts t (ips : list string) : forall acc,
  NoDup acc ->
  let r := fold_left
             (fun arp_results ip =>
                match in_network env ip t with
                | Some true => dict_set ip arp_results
                | _ => arp_results
                end) ips acc in
  NoDup r /\
  forall x, x ∈ r <->
            x ∈ acc \/
            x ∈ List.filter
                  (fun ip => match in_network env ip t with
                             | Some true => true
                             | _ => false
                             end) ips.
Proof.
  induction ips as [| ip ips IH]; intros acc Hnd; simpl.
  - split; [exact Hnd |]. intros x. rewrite elem_of_nil. tauto.
  - destruct (in_network env ip t) as [[] |]; simpl; try by apply IH.
    destruct (IH (dict_set ip acc) (dict_set_NoDup ip acc Hnd)) as [Hnd' Helem].
    split; [exact Hnd' |]. intros x.
    rewrite Helem, dict_set_elem, elem_of_cons. tauto.
Qed.

Lemma ping_sweep_facts t :
  NoDup (_ping_sweep env t) /\
  forall x, x ∈ _ping_sweep env t <-> x ∈ hosts_up env t.
Proof.
  unfold _ping_sweep, hosts_up. destruct (nm_ping_scan env t) as [hosts | e].
  - destruct (ping_fold_facts hosts [] (NoDup_nil_2)) as [Hnd Helem].
    split; [exact Hnd |]. intros x. rewrite Helem, elem_of_nil. tauto.
  - split; [apply NoDup_nil_2 | reflexivity].
Qed.

Lemma arp_scan_facts t :
  forall x, x ∈ _arp_scan env t <-> x ∈ arp_in_range env t.
Proof.
  unfold _arp_scan, arp_in_range. destruct (arp_a env) as [ips | e]; [| reflexivity].
  destruct (arp_fold_facts t ips [] (NoDup_nil_2)) as [_ Helem].
  intros x. rewrite Helem, elem_of_nil. tauto.
Qed.

End Responsive.

Section ResponsiveOrder.
Variable env : Env.

Lemma filter_agree {A} (P Q : A -> Prop) `{!forall x, Decision (P x)}
    `{!forall x, Decision (Q x)} (l : list A) :
  (forall x, x ∈ l -> (P x <-> Q x)) -> filter P l = filter Q l.
Proof.
  induction l as [| x l IH]; intros Hpq; [reflexivity |].
  assert (filter P l = filter Q l) as Hl
    by (apply IH; intros y Hy; apply Hpq; by right).
  destruct (decide (P x)) as [Hp | Hp].
  - rewrite (filter_cons_True P x l Hp).
    rewrite (filter_cons_True Q x l) by (apply Hpq; [by left | exact Hp]).
    by rewrite Hl.
  - rewrite (filter_cons_False P x l Hp).
    rewrite (filter_cons_False Q x l)
      by (intros Hq; apply Hp, Hpq; [by left | exact Hq]).
    exact Hl.
Qed.

(** Keys without repetition join a dictionary in their order, those
    already present being skipped. *)
Lemma dict_update_NoDup other : forall keys,
  NoDup other ->
  dict_update keys other = keys ++ filter (fun k => k ∉ keys) other.
Proof.
  induction other as [| k other IH]; intros keys Hnd.
  - unfold dict_update. simpl. by rewrite filter_nil, app_nil_r.
  - apply NoDup_cons in Hnd as [Hk Hnd].
    change (dict_update keys (k :: other)) with (dict_update (dict_set k keys) other).
    rewrite (IH _ Hnd). unfold dict_set. case_bool_decide as Hin.
    + by rewrite filter_cons_False by (intros Hn; exact (Hn Hin)).
    + rewrite filter_cons_True by exact Hin.
      rewrite <- app_assoc. simpl. do 2 f_equal.
      apply filter_agree. intros x Hx.
      rewrite elem_of_app, list_elem_of_singleton.
      split; [tauto |]. intros Hn [Hx' | ->]; [by apply Hn | by apply Hk].
Qed.

Lemma dict_update_nil_NoDup keys : NoDup keys -> dict_update [] keys = keys.
Proof.
  intros Hnd. rewrite (dict_update_NoDup keys [] Hnd). simpl.
  induction keys as [| k keys IH]; [reflexivity |].
  apply NoDup_cons in Hnd as [_ Hnd].
  rewrite filter_cons_True by apply not_elem_of_nil. by rewrite IH.
Qed.

Lemma ping_fold_dict (hosts : list (string * string)) : forall acc,
  fold_left
    (fun responsive_hosts '(host, state) =>
       if String.eqb state "up" then dict_set host responsive_hosts
       else responsive_hosts) hosts acc =
  dict_update acc (fst <$> List.filter (fun hs => String.eqb (snd hs) "up") hosts).
Proof.
  unfold dict_update.
  induction hosts as [| [host state] hosts IH]; intros acc; simpl; [reflexivity |].
  destruct (String.eqb state "up"); simpl; apply IH.
Qed.

Lemma arp_fold_dict t (ips : list string) : forall acc,
  fold_left
    (fun arp_results ip =>
       match in_network env ip t with
       | Some true => dict_set ip arp_results
       | _ => arp_results
       end) ips acc =
  dict_update acc
    (List.filter
       (fun ip => match in_network env ip t with Some true => true | _ => false end)
       ips).
Proof.
  unfold dict_update.
  induction ips as [| ip ips IH]; intros acc; simpl; [reflexivity |].
  destruct (in_network env ip t) as [[] |]; simpl; apply IH.
Qed.

(** The ping sweep and the ARP scan as dictionaries: the hosts the engine
    reports as up, and the ARP entries in range, in the order of the
    report, each at its first occurrence. *)
Lemma ping_sweep_order t : _ping_sweep env t = dict_update [] (hosts_up env t).
Proof.
  unfold _ping_sweep, hosts_up.
  destruct (nm_ping_scan env t) as [hosts | e]; [apply ping_fold_dict | reflexivity].
Qed.

Lemma arp_scan_order t : _arp_scan env t = dict_update [] (arp_in_range env t).
Proof.
  unfold _arp_scan, arp_in_range.
  destruct (arp_a env) as [ips | e]; [apply arp_fold_dict | reflexivity].
Qed.

Lemma arp_scan_NoDup t : NoDup (_arp_scan env t).
Proof.
  unfold _arp_scan. destruct (arp_a env) as [ips | e]; [| apply NoDup_nil_2].
  by destruct (arp_fold_facts env t ips [] (NoDup_nil_2)) as [Hnd _].
Qed.

End ResponsiveOrder.

(** X9: the responsive hosts of a range are listed once each.  They are
    the hosts that the engine reports as up, in the order of its report
    (each at its first occurrence), followed, on a local network only, by
    the in-range entries of the ARP table that the sweep did not find, in
    the order of the table.  A host reported down is responsive only
    through the ARP table. *)
Theorem responsive_hosts_are_distinct :
  forall env t,
    NoDup (responsive_hosts env t) /\
    (forall h, h ∈ responsive_hosts env t <->
               h ∈ hosts_up env t \/
               (_is_local_network env t = true /\ h ∈ arp_in_range env t)) /\
    _ping_sweep env t = dict_update [] (hosts_up env t) /\
    _arp_scan env t = dict_update [] (arp_in_range env t) /\
    responsive_hosts env t =
      _ping_sweep env t ++
      (if _is_local_network env t
       then filter (fun h => h ∉ _ping_sweep env t) (_arp_scan env t)
       else []) /\
    (NoDup (hosts_up env t) -> _ping_sweep env t = hosts_up env t) /\
    (NoDup (hosts_up env t) -> NoDup (arp_in_range env t) ->
     responsive_hosts env t =
       hosts_up env t ++
       (if _is_local_network env t
        then filter (fun h => h ∉ hosts_up env t) (arp_in_range env t)
        else [])).
Proof.
  intros env t.
  destruct (ping_sweep_facts env t) as [Hnd Hping].
  assert (responsive_hosts env t =
            _ping_sweep env t ++
            (if _is_local_network env t
             then filter (fun h => h ∉ _ping_sweep env t) (_arp_scan env t)
             else [])) as Horder.
  { unfold responsive_hosts. destruct (_is_local_network env t).
    - apply dict_update_NoDup, arp_scan_NoDup.
    - by rewrite app_nil_r. }
  assert (NoDup (responsive_hosts env t) /\
          (forall h, h ∈ responsive_hosts env t <->
                     h ∈ hosts_up env t \/
                     (_is_local_network env t = true /\ h ∈ arp_in_range env t)))
    as [Hdistinct Hmember].
  { unfold responsive_hosts. destruct (_is_local_network env t).
    - destruct (dict_update_facts (_arp_scan env t) (_ping_sweep env t) Hnd)
        as (Hnd' & Helem & _).
      split; [exact Hnd' |].
      intros h. rewrite Helem, Hping, arp_scan_facts. tauto.
    - split; [exact Hnd |].
      intros h. rewrite Hping. split; [auto | intros [Hh | [[=] _]]; exact Hh]. }
  split; [exact Hdistinct |]. split; [exact Hmember |].
  split; [apply ping_sweep_order |]. split; [apply arp_scan_order |].
  split; [exact Horder |]. split.
  - intros Hup. rewrite ping_sweep_order. by apply dict_update_nil_NoDup.
  - intros Hup Harp. rewrite Horder.
    rewrite arp_scan_order, (dict_update_nil_NoDup _ Harp).
    rewrite ping_sweep_order, (dict_update_nil_NoDup _ Hup). reflexivity.
Qed.

Lemma responsive_hosts_are_distinct_witness :
  responsive_hosts Lab.env "10.0.0.0/29" = ["10.0.0.1"; "10.0.0.2"; "10.0.0.3"] /\
  _is_local_network Lab.env "10.0.0.0/29" = true.
Proof.
  destruct (responsive_hosts_are_distinct Lab.env "10.0.0.0/29")
    as (_ & _ & _ & _ & _ & _ & Horder).
  split; [| reflexivity].
  rewrite Horder; [reflexivity | |]; apply (bool_decide_unpack _); vm_compute; exact I.
Defined.

(** ** The metadata of a discovery *)

Section DiscoveryMetadata.
Variable env : Env.
Variable options : gmap string PyValue.

(** The techniques the range loop records: those of each range, in the
    order of the ranges. *)
Lemma scan_ranges_facts ip_ranges : forall devices techniques w,
  exists ds w',
    scan_ranges env options ip_ranges devices techniques w =
      (Ok (ds, techniques ++ concat (techniques_of env <$> ip_ranges)), w').
Proof.
  induction ip_ranges as [| t ip_ranges IH]; intros devices techniques w.
  - exists devices, w. simpl. by rewrite app_nil_r.
  - simpl. unfold bind at 1.
    destruct (scan_hosts_run env options (responsive_hosts env t) devices w)
      as (ds1 & w1 & E1 & _).
    rewrite E1.
    destruct (IH ds1 (techniques ++ techniques_of env t) w1) as (ds & w' & E').
    exists ds, w'. by rewrite E', <- app_assoc.
Qed.

End DiscoveryMetadata.

(** X10: for a target that resolves, discovery never raises and does not
    touch the store; its metadata names the target, counts the returned
    devices, lists one ping sweep for each range, followed by an ARP scan
    on local ranges only, carries no error, and its duration is the
    recorded completion time minus the recorded start time, the start
    time being the clock reading at the call. *)
Theorem discovery_metadata_is_complete :
  forall env target options w ip_ranges,
    @resolve_target (env_netaddr env) target = Ok ip_ranges ->
    exists ds md w' completed,
      discover_network_devices env target options w = (Ok (ds, md), w') /\
      db w' = db w /\
      md_target md = Some target /\
      md_error md = None /\
      md_devices_found md = Some (Z.of_nat (length ds)) /\
      md_techniques_used md = concat (techniques_of env <$> ip_ranges) /\
      md_started_at md = Some (clock w) /\
      md_completed_at md = Some completed /\
      md_duration md = Some (completed - clock w).
Proof.
  intros env target options w ip_ranges Hres.
  unfold discover_network_devices. rewrite Hres.
  unfold bind at 1, utcnow at 1. unfold bind at 1.
  destruct (scan_ranges_facts env options ip_ranges [] []
              (mkWorld (db w) (clock w + 1) (uuids w)))
    as (ds1 & w1 & E1).
  destruct (scan_ranges_run env options ip_ranges [] []
              (mkWorld (db w) (clock w + 1) (uuids w)))
    as (ds2 & ts2 & w2 & E2 & Hdb & _).
  rewrite E1 in E2. injection E2 as <- <- <-.
  rewrite E1. run_job. simpl in Hdb.
  eexists ds1, _, _, (clock w1). split; [reflexivity |].
  repeat split; try reflexivity. exact Hdb.
Qed.

Lemma discovery_metadata_is_complete_witness :
  exists ds md w' completed,
    discover_network_devices Lab.env "10.0.0.0/29" ∅ (Lab.fresh []) = (Ok (ds, md), w') /\
    md_devices_found md = Some (Z.of_nat (length ds)) /\
    md_techniques_used md = ["ping_sweep"; "arp_scan"] /\
    md_started_at md = Some 100 /\
    md_duration md = Some (completed - 100).
Proof.
  destruct (discovery_metadata_is_complete Lab.env "10.0.0.0/29" ∅ (Lab.fresh [])
              ["10.0.0.0/29"] eq_refl)
    as (ds & md & w' & completed & E & _ & _ & _ & Hn & Ht & Hs & _ & Hd).
  exists ds, md, w', completed. by repeat split.
Defined.

Lemma job_after_two_updates i f g w r c u :
  job i w = Some r ->
  scan_id (f r) = scan_id r -> scan_id (g (f r)) = scan_id r ->
  job i (mkWorld (with_scan_results (update_one (by_scan_id i) g)
                    (with_scan_results (update_one (by_scan_id i) f) (db w))) c u) =
  Some (g (f r)).
Proof.
  intros Hr Hf Hg. unfold job. simpl.
  apply update_one_find.
  - by apply job_after_update.
  - apply find_some in Hr as [_ Hq]. unfold by_scan_id in *. by rewrite Hg.
Qed.

(** X11: a discovery job whose target does not resolve is not a failed
    job: it ends completed, with no device, a duration of zero and the
    fixed summary; the text "Invalid target format" is kept in the result
    metadata only, the error message of the record is left as it was, and
    the stores of devices and findings are untouched. *)
Theorem unresolvable_target_job_completes :
  forall env i target options w r e,
    job i w = Some r ->
    @resolve_target (env_netaddr env) target = Raise e ->
    let w' := exec (run_scan env i NETWORK_DISCOVERY target options) w in
    exists r',
      job i w' = Some r' /\
      status r' = COMPLETED /\
      devices_discovered r' = 0 /\
      duration_seconds r' = Some 0 /\
      md_error (results r') = Some e /\
      error_message r' = error_message r /\
      ai_summary r' = Some "Scan completed successfully" /\
      devices (db w') = devices (db w) /\
      vulnerabilities (db w') = vulnerabilities (db w).
Proof.
  intros env i target options w r e Hr Hres w'. subst w'.
  unfold exec, run_scan, try_except. rewrite run_scan_body_run.
  simpl run_scan_kind. unfold discover_network_devices. rewrite Hres.
  run_job. eexists. split; [by apply job_after_two_updates |].
  simpl. by repeat split.
Qed.

Lemma unresolvable_target_job_completes_witness :
  exists r',
    job "job-1"
        (exec (run_scan Lab.env "job-1" NETWORK_DISCOVERY "999.1.1.1" ∅)
              (Lab.fresh [Lab.pending "job-1" NETWORK_DISCOVERY "999.1.1.1"])) = Some r' /\
    status r' = COMPLETED /\
    md_error (results r') = Some "Invalid target format: 999.1.1.1" /\
    error_message r' = None.
Proof.
  destruct (unresolvable_target_job_completes Lab.env "job-1" "999.1.1.1" ∅
              (Lab.fresh [Lab.pending "job-1" NETWORK_DISCOVERY "999.1.1.1"])
              (Lab.pending "job-1" NETWORK_DISCOVERY "999.1.1.1")
              "Invalid target format: 999.1.1.1" eq_refl eq_refl)
    as (r' & Hjob & Hst & _ & _ & Hmd & Herr & _).
  exists r'. by repeat split.
Defined.

(** ** The device store along jobs *)

Section DeviceStore.

Lemma update_one_same_ip_list ip (device : Device) l :
  ip_address device = ip ->
  ip_address <$> update_one (by_ip ip) (fun _ => device) l = ip_address <$> l.
Proof.
  intros Hip. induction l as [| y l IH]; [reflexivity |].
  cbn [update_one]. unfold by_ip at 1.
  destruct (String.eqb_spec (ip_address y) ip) as [Heq | Hne]; rewrite !fmap_cons.
  - by rewrite Hip, Heq.
  - by rewrite IH.
Qed.

Lemma find_by_ip_elem ip (l : list Device) :
  is_Some (find_one (by_ip ip) l) <-> ip ∈ ip_address <$> l.
Proof.
  unfold find_one. split.
  - intros [x Hx]. apply find_some in Hx as [Hin Hq].
    apply String.eqb_eq in Hq. rewrite <- Hq.
    apply list_elem_of_fmap_2. by apply list_elem_of_In.
  - intros (x & -> & Hx)%list_elem_of_fmap.
    destruct (find (by_ip (ip_address x)) l) eqn:E; [by eexists |].
    apply list_elem_of_In in Hx.
    pose proof (find_none _ _ E x Hx) as Hq. unfold by_ip in Hq.
    by rewrite String.eqb_refl in Hq.
Qed.

(** The upsert on the list of stored addresses: an address is added at
    the end when it is new, and nothing changes otherwise. *)
Lemma save_device_ips device w :
  exists w',
    save_device device w = (Ok tt, w') /\
    stored_ips w' = dict_set (ip_address device) (stored_ips w) /\
    vulnerabilities (db w') = vulnerabilities (db w) /\
    scan_results (db w') = scan_results (db w).
Proof.
  unfold stored_ips, dict_set.
  destruct (find_one (by_ip (ip_address device)) (devices (db w))) as [x |] eqn:E.
  - rewrite (save_device_existing _ _ _ E). eexists. split; [reflexivity |]. simpl.
    rewrite (update_one_same_ip_list (ip_address device)
               (set_updated_at (clock w) device)) by reflexivity.
    rewrite bool_decide_eq_true_2
      by (apply find_by_ip_elem; rewrite E; by eexists).
    by repeat split.
  - rewrite (save_device_new _ _ E). eexists. split; [reflexivity |]. simpl.
    rewrite bool_decide_eq_false_2.
    + rewrite fmap_app. by repeat split.
    + intros Hin%find_by_ip_elem. rewrite E in Hin. by destruct Hin.
Qed.

Lemma save_devices_ips ds : forall w,
  exists w',
    for_each ds save_device w = (Ok tt, w') /\
    stored_ips w' = dict_update (stored_ips w) (ip_address <$> ds) /\
    vulnerabilities (db w') = vulnerabilities (db w) /\
    scan_results (db w') = scan_results (db w).
Proof.
  induction ds as [| d ds IH]; intros w; simpl.
  - exists w. by repeat split.
  - unfold bind at 1.
    destruct (save_device_ips d w) as (w1 & E1 & Hips1 & Hv1 & Hr1).
    rewrite E1. destruct (IH w1) as (w' & E' & Hips & Hv & Hr).
    exists w'. split; [exact E' |]. rewrite Hips, Hips1.
    repeat split; congruence.
Qed.

Lemma save_device_keeps_ips_distinct device :
  preserves (fun d => NoDup (ip_address <$> devices d)) (save_device device).
Proof.
  intros w Hw. destruct (save_device_ips device w) as (w' & E & Hips & _).
  rewrite E. simpl. unfold stored_ips in Hips. rewrite Hips.
  by apply dict_set_NoDup.
Qed.

(** The discovery branch on the store. *)
Lemma run_scan_kind_discovery_store env target options w :
  exists ds md w2,
    run_scan_kind env NETWORK_DISCOVERY target options w = (Ok (ds, [], md), w2) /\
    ip_address <$> ds = profiled env (all_responsive env target) /\
    stored_ips w2 = dict_update (stored_ips w) (ip_address <$> ds) /\
    vulnerabilities (db w2) = vulnerabilities (db w).
Proof.
  simpl. unfold bind at 1.
  destruct (discover_run env options target w) as (ds & md & w1 & E & Hdb & Hips).
  rewrite E. unfold bind at 1.
  destruct (save_devices_ips ds w1) as (w2 & E2 & Hips2 & Hv2 & _).
  rewrite E2. exists ds, md, w2. split; [reflexivity |].
  split; [exact Hips |]. unfold stored_ips in *. rewrite Hips2, Hv2, Hdb. by split.
Qed.

End DeviceStore.

(** X12: when no two stored devices share an IP address, no job of any
    kind, and no sequence of jobs, makes two stored devices share one: the
    upsert of the discovery job never adds a second record for an
    address. *)
Theorem jobs_keep_one_device_per_ip :
  forall env (jobs : list (string * ScanType * string * gmap string PyValue)) w,
    NoDup (stored_ips w) ->
    NoDup (stored_ips
             (exec (for_each jobs
                      (fun '(i, ty, target, options) =>
                         run_scan env i ty target options)) w)).
Proof.
  intros env jobs w Hnd. unfold exec, stored_ips in *.
  apply (preserves_for_each (P := fun d => NoDup (ip_address <$> devices d)));
    [| exact Hnd].
  intros [[[i ty] target] options].
  unfold run_scan, run_scan_body, run_scan_failed.
  apply preserves_try.
  - apply preserves_bind; [apply preserves_utcnow |]. intros now.
    apply preserves_bind; [by apply preserves_modify_db |]. intros _.
    apply preserves_bind.
    + apply run_scan_kind_preserves.
      * apply save_device_keeps_ips_distinct.
      * intros v. apply (save_vulnerability_keeps (fun ds _ => NoDup (ip_address <$> ds))).
    + intros [[ds vs] md].
      apply preserves_bind; [apply preserves_utcnow |]. intros now'.
      by apply preserves_modify_db.
  - intros e. apply preserves_bind; [apply preserves_utcnow |]. intros now.
    by apply preserves_modify_db.
Qed.

Lemma jobs_keep_one_device_per_ip_witness :
  NoDup (stored_ips
           (exec (for_each [("job-1", NETWORK_DISCOVERY, "10.0.0.0/29", ∅);
                            ("job-2", NETWORK_DISCOVERY, "10.0.0.1", ∅);
                            ("job-3", VULNERABILITY_SCAN, "all", ∅)]
                    (fun '(i, ty, target, options) =>
                       run_scan Lab.env i ty target options))
                 (mkWorld (mkDB [Lab.host "10.0.0.2" [631]] [] []) 100 0))).
Proof.
  apply jobs_keep_one_device_per_ip. unfold stored_ips. simpl.
  apply NoDup_singleton.
Defined.

(** X13: after a discovery job the stored addresses are those stored
    before, in their order, followed by the addresses of the devices the
    job produced that were not stored yet, once each; the findings are
    untouched. *)
Theorem discovery_job_extends_the_store :
  forall env i target options w,
    let w' := exec (run_scan env i NETWORK_DISCOVERY target options) w in
    stored_ips w' =
      dict_update (stored_ips w) (profiled env (all_responsive env target)) /\
    vulnerabilities (db w') = vulnerabilities (db w).
Proof.
  intros env i target options w w'. subst w'.
  unfold exec, run_scan, try_except. rewrite run_scan_body_run.
  destruct (run_scan_kind_discovery_store env target options
              (mkWorld (with_scan_results
                          (update_one (by_scan_id i) (set_running (clock w))) (db w))
                       (clock w + 1) (uuids w)))
    as (ds & md & w2 & E & Hips & Hst & Hv).
  rewrite E. unfold stored_ips in *. simpl in *.
  by rewrite Hst, Hv, Hips.
Qed.

(** ** The job record *)

Section JobFrame.
Variable env : Env.

Lemma update_one_other_job i j f (l : list ScanResult) :
  i <> j -> (forall r, scan_id (f r) = scan_id r) ->
  find_one (by_scan_id j) (update_one (by_scan_id i) f l) = find_one (by_scan_id j) l.
Proof.
  intros Hne Hf. unfold find_one. induction l as [| r l IH]; [reflexivity |].
  cbn [update_one]. destruct (by_scan_id i r) eqn:Hi; cbn [find].
  - apply String.eqb_eq in Hi. unfold by_scan_id. rewrite Hf, Hi.
    destruct (String.eqb_spec i j) as [Hj | Hnj]; [congruence | reflexivity].
  - by rewrite IH.
Qed.

Lemma update_one_ids i f (l : list ScanResult) :
  (forall r, scan_id (f r) = scan_id r) ->
  scan_id <$> update_one (by_scan_id i) f l = scan_id <$> l.
Proof.
  intros Hf. induction l as [| r l IH]; [reflexivity |].
  cbn [update_one]. destruct (by_scan_id i r); rewrite !fmap_cons;
    [by rewrite Hf | by rewrite IH].
Qed.

(** The job records after a job: those before, with two updates of the
    record of that job: the pickup, and then the completion or the
    failure. *)
Lemma run_scan_records i ty tgt options w :
  exists g t,
    ((exists n_dev n_vul md summary, g = set_completed t n_dev n_vul md summary) \/
     (exists e, g = set_failed t e)) /\
    scan_results (db (exec (run_scan env i ty tgt options) w)) =
    update_one (by_scan_id i) g
      (update_one (by_scan_id i) (set_running (clock w)) (scan_results (db w))).
Proof.
  unfold exec, run_scan, try_except. rewrite run_scan_body_run.
  set (w0 := mkWorld _ (clock w + 1) (uuids w)).
  pose proof (run_scan_kind_keeps_jobs env ty tgt options w0) as Hjobs.
  destruct (run_scan_kind env ty tgt options w0) as [[[[ds vs] md] | e] w1];
    simpl in Hjobs.
  - eexists _, (clock w1). split; [left; by eexists _, _, _, _ |].
    simpl. by rewrite Hjobs.
  - eexists _, (clock w1). split; [right; by eexists |].
    unfold run_scan_failed. run_job. by rewrite Hjobs.
Qed.

End JobFrame.

(** X14: a job whose record is stored ends in a terminal status: the
    record is then completed or failed, its start time is the clock
    reading of the pickup and a completion time is recorded; its
    identifier, scan type and target are as submitted.  A failed record
    carries an error message, and a completed one keeps the error message
    it had and carries a summary. *)
Theorem job_ends_in_terminal_status :
  forall env i ty tgt options w r,
    job i w = Some r ->
    exists r' t,
      job i (exec (run_scan env i ty tgt options) w) = Some r' /\
      (status r' = COMPLETED \/ status r' = FAILED) /\
      started_at r' = clock w /\
      completed_at r' = Some t /\
      scan_id r' = scan_id r /\ scan_type r' = scan_type r /\ target r' = target r /\
      (status r' = FAILED -> is_Some (error_message r')) /\
      (status r' = COMPLETED ->
       error_message r' = error_message r /\ is_Some (ai_summary r')).
Proof.
  intros env i ty tgt options w r Hr.
  destruct (run_scan_records env i ty tgt options w) as (g & t & Hg & Hrec).
  exists (g (set_running (clock w) r)), t.
  assert (scan_id (g (set_running (clock w) r)) = scan_id r) as Hid
    by (destruct Hg as [(n1 & n2 & md & sm & ->) | (e & ->)]; reflexivity).
  split.
  - unfold job. rewrite Hrec. apply update_one_find.
    + by apply job_after_update.
    + apply find_some in Hr as [_ Hq]. unfold by_scan_id in *. by rewrite Hid.
  - destruct Hg as [(n1 & n2 & md & sm & ->) | (e & ->)]; simpl.
    + split; [by left |]. do 5 (split; [reflexivity |]).
      split; [discriminate |]. intros _. by split.
    + split; [by right |]. do 5 (split; [reflexivity |]).
      split; [by intros _ | discriminate].
Qed.

Lemma job_ends_in_terminal_status_witness :
  exists r' t,
    job "job-1"
        (exec (run_scan Lab.env "job-1" NETWORK_DISCOVERY "10.0.0.0/29" ∅)
              (Lab.fresh [Lab.pending "job-1" NETWORK_DISCOVERY "10.0.0.0/29"])) = Some r' /\
    (status r' = COMPLETED \/ status r' = FAILED) /\
    started_at r' = 100 /\ completed_at r' = Some t.
Proof.
  destruct (job_ends_in_terminal_status Lab.env "job-1" NETWORK_DISCOVERY
              "10.0.0.0/29" ∅
              (Lab.fresh [Lab.pending "job-1" NETWORK_DISCOVERY "10.0.0.0/29"])
              (Lab.pending "job-1" NETWORK_DISCOVERY "10.0.0.0/29") eq_refl)
    as (r' & t & Hjob & Hst & Hs & Hc & _).
  exists r', t. by repeat split.
Defined.

(** X15: a job writes to no job record but its own: the record of every
    other identifier is as before, no record is added or removed, and when
    no record carries the identifier of the job the collection of job
    records is left as it was. *)
Theorem job_touches_only_its_record :
  forall env i ty tgt options w,
    let w' := exec (run_scan env i ty tgt options) w in
    (forall j, j <> i -> job j w' = job j w) /\
    scan_id <$> scan_results (db w') = scan_id <$> scan_results (db w) /\
    (job i w = None -> scan_results (db w') = scan_results (db w)).
Proof.
  intros env i ty tgt options w w'. subst w'.
  destruct (run_scan_records env i ty tgt options w) as (g & t & Hg & Hrec).
  assert (forall r, scan_id (g r) = scan_id r) as Hid
    by (intros r; destruct Hg as [(n1 & n2 & md & sm & ->) | (e & ->)]; reflexivity).
  rewrite Hrec. split; [| split].
  - intros j Hne. unfold job. rewrite Hrec.
    rewrite !update_one_other_job by (auto || done). reflexivity.
  - by rewrite !update_one_ids.
  - intros Hnone. unfold job in Hnone.
    rewrite (update_one_no_match _ (set_running (clock w)) _ Hnone).
    by apply update_one_no_match.
Qed.

(** ** Vulnerability jobs and the other scan types *)

Section VulnerabilityJob.
Variable env : Env.
Variable options : gmap string PyValue.

(** The loop over the target devices when the prober raises on none. *)
Lemma scan_target_devices_ok ds : forall fs vulns w,
  findings_of env options ds = Some fs ->
  scan_target_devices env options ds vulns w =
  (Ok (vulns ++ fs),
   mkWorld (mkDB (devices (db w)) (fold_left merge_vuln fs (vulnerabilities (db w)))
                 (scan_results (db w)))
           (clock w) (uuids w)).
Proof.
  induction ds as [| d ds IH]; intros fs vulns w; simpl.
  - intros [= <-]. rewrite app_nil_r. by destruct w as [[dv vl rs] c u].
  - destruct (scan_device_vulnerabilities env d options) as [[vs md] | e];
      [| discriminate].
    destruct (findings_of env options ds) as [more |] eqn:E; [| discriminate].
    intros [= <-]. unfold bind.
    change (for_each vs save_vulnerability) with (save_vulnerabilities vs).
    rewrite save_vulnerabilities_run.
    rewrite (IH more (vulns ++ vs) _ eq_refl). simpl.
    by rewrite fold_left_app, app_assoc.
Qed.

(** The loop when the prober raises on the device after [ds]. *)
Lemma scan_target_devices_raise ds : forall fs d rest e vulns w,
  findings_of env options ds = Some fs ->
  scan_device_vulnerabilities env d options = Raise e ->
  scan_target_devices env options (ds ++ d :: rest) vulns w =
  (Raise e,
   mkWorld (mkDB (devices (db w)) (fold_left merge_vuln fs (vulnerabilities (db w)))
                 (scan_results (db w)))
           (clock w) (uuids w)).
Proof.
  induction ds as [| d0 ds IH]; intros fs d rest e vulns w; simpl.
  - intros [= <-] ->. by destruct w as [[dv vl rs] c u].
  - destruct (scan_device_vulnerabilities env d0 options) as [[vs md] | e0];
      [| discriminate].
    destruct (findings_of env options ds) as [more |] eqn:E; [| discriminate].
    intros [= <-] Hraise. unfold bind.
    change (for_each vs save_vulnerability) with (save_vulnerabilities vs).
    rewrite save_vulnerabilities_run.
    rewrite (IH more d rest e (vulns ++ vs) _ eq_refl Hraise). simpl.
    by rewrite fold_left_app.
Qed.

Lemma fold_merge_length fs : forall stored,
  (length stored <= length (fold_left merge_vuln fs stored) <= length stored + length fs)%nat.
Proof.
  induction fs as [| v fs IH]; intros stored; simpl; [lia |].
  specialize (IH (merge_vuln stored v)).
  assert (length stored <= length (merge_vuln stored v) <= length stored + 1)%nat.
  { unfold merge_vuln. destruct (find_one _ stored); [lia |].
    unfold insert_one. rewrite length_app. simpl. lia. }
  lia.
Qed.

Lemma job_find_two i f g w r :
  job i w = Some r ->
  scan_id (f r) = scan_id r -> scan_id (g (f r)) = scan_id r ->
  find_one (by_scan_id i)
    (update_one (by_scan_id i) g
       (update_one (by_scan_id i) f (scan_results (db w)))) = Some (g (f r)).
Proof.
  intros Hr Hf Hg. apply update_one_find.
  - by apply job_after_update.
  - apply find_some in Hr as [_ Hq]. unfold by_scan_id in *. by rewrite Hg.
Qed.

(** The vulnerability branch, after the pickup of job [i]. *)
Lemma vulnerability_kind_ok i tgt w fs :
  findings_of env options (vulnerability_targets tgt w) = Some fs ->
  run_scan_kind env VULNERABILITY_SCAN tgt options
    (mkWorld (with_scan_results
                (update_one (by_scan_id i) (set_running (clock w))) (db w))
             (clock w + 1) (uuids w)) =
  (Ok ([], fs, empty_metadata),
   mkWorld (mkDB (devices (db w)) (fold_left merge_vuln fs (vulnerabilities (db w)))
                 (update_one (by_scan_id i) (set_running (clock w))
                    (scan_results (db w))))
           (clock w + 1) (uuids w)).
Proof.
  intros Hfs. unfold vulnerability_targets in Hfs.
  simpl. unfold bind at 1, get_db at 1. cbn [db devices with_scan_results].
  unfold bind at 1.
  by rewrite (scan_target_devices_ok _ fs [] _ Hfs).
Qed.

Lemma vulnerability_kind_raise i tgt w ds d rest fs e :
  vulnerability_targets tgt w = ds ++ d :: rest ->
  findings_of env options ds = Some fs ->
  scan_device_vulnerabilities env d options = Raise e ->
  run_scan_kind env VULNERABILITY_SCAN tgt options
    (mkWorld (with_scan_results
                (update_one (by_scan_id i) (set_running (clock w))) (db w))
             (clock w + 1) (uuids w)) =
  (Raise e,
   mkWorld (mkDB (devices (db w)) (fold_left merge_vuln fs (vulnerabilities (db w)))
                 (update_one (by_scan_id i) (set_running (clock w))
                    (scan_results (db w))))
           (clock w + 1) (uuids w)).
Proof.
  intros Htargets Hfs Hraise. unfold vulnerability_targets in Htargets.
  simpl. unfold bind at 1, get_db at 1. cbn [db devices with_scan_results].
  unfold bind at 1. rewrite Htargets.
  by rewrite (scan_target_devices_raise ds fs d rest e [] _ Hfs Hraise).
Qed.

End VulnerabilityJob.

(** X16: a vulnerability job on which the prober raises for no device ends
    completed.  Its [vulnerabilities_found] is the number of findings the
    prober returned, those that were already stored included, while the
    store grows by at most that number; its [devices_discovered] is 0 and
    its summary the fixed text; the device store is untouched.  The
    target "all" selects the active stored devices, any other target the
    stored devices of that IP address. *)
Theorem vulnerability_job_counts_all_findings :
  forall env i tgt options w r fs,
    job i w = Some r ->
    findings_of env options (vulnerability_targets tgt w) = Some fs ->
    let w' := exec (run_scan env i VULNERABILITY_SCAN tgt options) w in
    exists r',
      job i w' = Some r' /\
      status r' = COMPLETED /\
      vulnerabilities_found r' = Z.of_nat (length fs) /\
      devices_discovered r' = 0 /\
      ai_summary r' = Some "Scan completed successfully" /\
      vulnerabilities (db w') = fold_left merge_vuln fs (vulnerabilities (db w)) /\
      (length (vulnerabilities (db w')) <= length (vulnerabilities (db w)) + length fs)%nat /\
      devices (db w') = devices (db w).
Proof.
  intros env i tgt options w r fs Hr Hfs w'.
  pose proof (vulnerability_kind_ok env options i tgt w fs Hfs) as Hkind.
  subst w'. unfold exec, run_scan, try_except.
  rewrite run_scan_body_run, Hkind. simpl.
  eexists. split; [unfold job; simpl; by apply job_find_two |]. simpl.
  repeat split. apply fold_merge_length.
Qed.

Lemma vulnerability_job_counts_all_findings_witness :
  let w := mkWorld (mkDB [Lab.host "10.0.0.1" [23]] []
                         [Lab.pending "job-5" VULNERABILITY_SCAN "10.0.0.1"]) 100 0 in
  let w' := exec (run_scan Lab.env "job-5" VULNERABILITY_SCAN "10.0.0.1" ∅) w in
  exists r',
    job "job-5" w' = Some r' /\ status r' = COMPLETED /\
    vulnerabilities_found r' = 2 /\
    length (vulnerabilities (db w')) = 1%nat.
Proof.
  intros w w'.
  destruct (vulnerability_job_counts_all_findings Lab.env "job-5" "10.0.0.1" ∅ w
              (Lab.pending "job-5" VULNERABILITY_SCAN "10.0.0.1")
              [Lab.finding "v-1" "dev-10.0.0.1" "Telnet enabled" (Some 23);
               Lab.finding "v-2" "dev-10.0.0.1" "Telnet enabled" (Some 23)]
              eq_refl eq_refl)
    as (r' & Hjob & Hst & Hn & _ & _ & Hv & _).
  exists r'. split; [exact Hjob |]. split; [exact Hst |]. split; [exact Hn |].
  subst w'. rewrite Hv. vm_compute. reflexivity.
Defined.

(** X17: when the prober raises on a device, the vulnerability job ends
    failed with the text of that exception, and the findings of the
    devices scanned before it stay merged in the store: nothing is rolled
    back, and the devices after it are not scanned. *)
Theorem failed_vulnerability_job_keeps_progress :
  forall env i tgt options w r ds d rest fs e,
    job i w = Some r ->
    vulnerability_targets tgt w = ds ++ d :: rest ->
    findings_of env options ds = Some fs ->
    scan_device_vulnerabilities env d options = Raise e ->
    let w' := exec (run_scan env i VULNERABILITY_SCAN tgt options) w in
    exists r',
      job i w' = Some r' /\
      status r' = FAILED /\
      error_message r' = Some e /\
      vulnerabilities_found r' = vulnerabilities_found r /\
      vulnerabilities (db w') = fold_left merge_vuln fs (vulnerabilities (db w)) /\
      devices (db w') = devices (db w).
Proof.
  intros env i tgt options w r ds d rest fs e Hr Htargets Hfs Hraise w'.
  pose proof (vulnerability_kind_raise env options i tgt w ds d rest fs e
                Htargets Hfs Hraise) as Hkind.
  subst w'. unfold exec, run_scan, try_except.
  rewrite run_scan_body_run, Hkind. unfold run_scan_failed. run_job.
  eexists. split; [unfold job; simpl; by apply job_find_two |]. simpl.
  by repeat split.
Qed.

Lemma failed_vulnerability_job_keeps_progress_witness :
  let w := mkWorld (mkDB [Lab.host "10.0.0.1" [23]; Lab.host "10.0.0.3" [554];
                          Lab.host "10.0.0.2" [631]] []
                         [Lab.pending "job-6" VULNERABILITY_SCAN "all"]) 100 0 in
  let w' := exec (run_scan Lab.env "job-6" VULNERABILITY_SCAN "all" ∅) w in
  exists r',
    job "job-6" w' = Some r' /\ status r' = FAILED /\
    error_message r' = Some "probe timed out" /\
    length (vulnerabilities (db w')) = 1%nat.
Proof.
  intros w w'.
  destruct (failed_vulnerability_job_keeps_progress Lab.env "job-6" "all" ∅ w
              (Lab.pending "job-6" VULNERABILITY_SCAN "all")
              [Lab.host "10.0.0.1" [23]] (Lab.host "10.0.0.3" [554])
              [Lab.host "10.0.0.2" [631]]
              [Lab.finding "v-1" "dev-10.0.0.1" "Telnet enabled" (Some 23);
               Lab.finding "v-2" "dev-10.0.0.1" "Telnet enabled" (Some 23)]
              "probe timed out" eq_refl eq_refl eq_refl eq_refl)
    as (r' & Hjob & Hst & He & _ & Hv & _).
  exists r'. split; [exact Hjob |]. split; [exact Hst |]. split; [exact He |].
  subst w'. rewrite Hv. vm_compute. reflexivity.
Defined.

(** X18: a job of a scan type that [run_scan] has no branch for (port
    scan, SMB scan, AD scan) does no scanning and still ends completed,
    with both counters at 0, a duration of 0, empty result metadata and the
    fixed summary; the stores of devices and findings are untouched. *)
Theorem unsupported_scan_types_complete :
  forall env i ty tgt options w r,
    job i w = Some r ->
    unsupported ty = true ->
    let w' := exec (run_scan env i ty tgt options) w in
    exists r',
      job i w' = Some r' /\
      status r' = COMPLETED /\
      devices_discovered r' = 0 /\ vulnerabilities_found r' = 0 /\
      duration_seconds r' = Some 0 /\
      results r' = empty_metadata /\
      ai_summary r' = Some "Scan completed successfully" /\
      devices (db w') = devices (db w) /\
      vulnerabilities (db w') = vulnerabilities (db w).
Proof.
  intros env i ty tgt options w r Hr Hty w'. subst w'.
  unfold exec, run_scan, try_except. rewrite run_scan_body_run.
  destruct ty; try discriminate Hty; simpl run_scan_kind; run_job;
    (eexists; split; [by apply job_after_two_updates |]); simpl; by repeat split.
Qed.

Lemma unsupported_scan_types_complete_witness :
  exists r',
    job "job-9"
        (exec (run_scan Lab.env "job-9" PORT_SCAN "10.0.0.1" ∅)
              (Lab.fresh [Lab.pending "job-9" PORT_SCAN "10.0.0.1"])) = Some r' /\
    status r' = COMPLETED /\ devices_discovered r' = 0.
Proof.
  destruct (unsupported_scan_types_complete Lab.env "job-9" PORT_SCAN "10.0.0.1" ∅
              (Lab.fresh [Lab.pending "job-9" PORT_SCAN "10.0.0.1"])
              (Lab.pending "job-9" PORT_SCAN "10.0.0.1") eq_refl eq_refl)
    as (r' & Hjob & Hst & Hn & _).
  by exists r'.
Defined.

(** ** Network statistics *)

Section Tally.
Context {A : Type} (key : A -> option string).

Lemma incr_lookup k k' (m : gmap string Z) :
  default 0 (Stats.incr k m !! k') =
  default 0 (m !! k') + (if decide (k = k') then 1 else 0).
Proof.
  unfold Stats.incr. destruct (decide (k = k')) as [<- | Hne].
  - by rewrite lookup_insert_eq.
  - rewrite lookup_insert_ne by done. lia.
Qed.

Lemma incr_is_Some k k' (m : gmap string Z) :
  is_Some (Stats.incr k m !! k') <-> is_Some (m !! k') \/ k = k'.
Proof.
  unfold Stats.incr. destruct (decide (k = k')) as [<- | Hne].
  - rewrite lookup_insert_eq. split; [auto | by eexists].
  - rewrite lookup_insert_ne by done. split; [auto | intros [? | ?]; done].
Qed.

(** A tally adds to each key the number of elements of that key, and has
    an entry for a key exactly when it had one or some element has that
    key. *)
Lemma tally_lookup xs : forall m k,
  default 0 (tally key xs m !! k) =
  default 0 (m !! k) + Stats.count (fun x => bool_decide (key x = Some k)) xs.
Proof.
  unfold tally, Stats.count.
  induction xs as [| x xs IH]; intros m k; simpl; [lia |].
  rewrite IH. destruct (key x) as [kx |] eqn:E.
  - rewrite incr_lookup. case_bool_decide as Hk.
    + injection Hk as ->. rewrite decide_True by done. simpl length. lia.
    + rewrite decide_False by congruence. lia.
  - rewrite bool_decide_eq_false_2 by done. lia.
Qed.

Lemma tally_is_Some xs : forall m k,
  is_Some (tally key xs m !! k) <->
  is_Some (m !! k) \/ exists x, x ∈ xs /\ key x = Some k.
Proof.
  unfold tally.
  induction xs as [| x xs IH]; intros m k; simpl.
  - split; [auto | intros [? | (x & Hx & _)]; [done | by apply elem_of_nil in Hx]].
  - rewrite IH. destruct (key x) as [kx |] eqn:E.
    + rewrite incr_is_Some. split.
      * intros [[? | ->] | (y & Hy & Hk)]; [by left | |].
        -- right. exists x. split; [left | done].
        -- right. exists y. split; [by right | done].
      * intros [? | (y & [-> | Hy]%elem_of_cons & Hk)].
        -- by left; left.
        -- left. right. congruence.
        -- right. by exists y.
    + split.
      * intros [? | (y & Hy & Hk)]; [by left |].
        right. exists y. split; [by right | done].
      * intros [? | (y & [-> | Hy]%elem_of_cons & Hk)]; [by left | congruence |].
        right. by exists y.
Qed.

End Tally.

Section StatsFields.

Lemma device_type_value_inj t1 t2 :
  Stats.device_type_value t1 = Stats.device_type_value t2 -> t1 = t2.
Proof. destruct t1, t2; simpl; intros [=]; reflexivity. Qed.

Lemma tally_app {A} (key : A -> option string) xs ys m :
  tally key (xs ++ ys) m = tally key ys (tally key xs m).
Proof. unfold tally. apply fold_left_app. Qed.

(** The loop of [get_network_statistics], field by field. *)
Lemma stats_fold ds : forall s,
  let r := fold_left Stats.stats_step ds s in
  Stats.total_devices r = Stats.total_devices s /\
  Stats.active_devices r = Stats.active_devices s /\
  Stats.device_types r =
    tally (fun d => Some (Stats.device_type_value (device_type d))) ds
          (Stats.device_types s) /\
  Stats.common_ports r =
    tally (fun p => Some (Py.str p)) (all_open_ports ds) (Stats.common_ports s) /\
  Stats.os_distribution r = tally os_key ds (Stats.os_distribution s) /\
  Stats.devices_with_ssh r =
    Stats.devices_with_ssh s + Stats.count (fun d => Stats.has_port d 22) ds /\
  Stats.devices_with_rdp r =
    Stats.devices_with_rdp s + Stats.count (fun d => Stats.has_port d 3389) ds /\
  Stats.devices_with_web r =
    Stats.devices_with_web s +
    Stats.count (fun d => Py.any (Stats.has_port d) [80; 443; 8080; 8443]) ds /\
  Stats.devices_with_smb r =
    Stats.devices_with_smb s + Stats.count (fun d => Stats.has_port d 445) ds.
Proof.
  unfold Stats.count, all_open_ports.
  induction ds as [| d ds IH]; intros s; cbn zeta.
  - simpl. repeat split; lia.
  - cbn [fold_left]. specialize (IH (Stats.stats_step s d)). cbn zeta in IH.
    destruct IH as (H1 & H2 & H3 & H4 & H5 & H6 & H7 & H8 & H9).
    rewrite H1, H2, H3, H4, H5, H6, H7, H8, H9. clear.
    rewrite fmap_cons. cbn [concat]. rewrite tally_app.
    unfold Stats.stats_step, Stats.bump; cbn [Stats.total_devices
      Stats.active_devices Stats.device_types Stats.common_ports
      Stats.os_distribution Stats.devices_with_ssh Stats.devices_with_rdp
      Stats.devices_with_web Stats.devices_with_smb List.filter].
    repeat split.
    + unfold tally at 2, os_key. simpl.
      destruct (os_name d) as [n |]; [destruct (Py.truthy_str n) |]; reflexivity.
    + destruct (Stats.has_port d 22); simpl length; lia.
    + destruct (Stats.has_port d 3389); simpl length; lia.
    + destruct (Py.any _ _); simpl length; lia.
    + destruct (Stats.has_port d 445); simpl length; lia.
Qed.

Lemma count_ext {A} (f g : A -> bool) l :
  (forall x, f x = g x) -> Stats.count f l = Stats.count g l.
Proof.
  intros Hfg. unfold Stats.count. f_equal. f_equal.
  induction l as [| x l IH]; simpl; [reflexivity |]. by rewrite Hfg, IH.
Qed.

Lemma count_le {A} (f : A -> bool) l : 0 <= Stats.count f l <= Z.of_nat (length l).
Proof.
  unfold Stats.count. pose proof (List.filter_length_le f l). lia.
Qed.

End StatsFields.

(** X19: in the statistics, the entry of a device type is the number of
    devices of that type, so the type entries add up device by device; a
    type has an entry exactly when some device has that type; the total is
    the number of devices and the active count the number of active ones,
    never more than the total. *)
Theorem statistics_count_device_types :
  forall ds t,
    let stats := Stats.get_network_statistics ds in
    default 0 (Stats.device_types stats !! Stats.device_type_value t) =
      Stats.count (fun d => bool_decide (device_type d = t)) ds /\
    (is_Some (Stats.device_types stats !! Stats.device_type_value t) <->
     exists d, d ∈ ds /\ device_type d = t) /\
    Stats.total_devices stats = Z.of_nat (length ds) /\
    Stats.active_devices stats = Stats.count is_active ds /\
    0 <= Stats.active_devices stats <= Stats.total_devices stats.
Proof.
  intros ds t stats. subst stats. unfold Stats.get_network_statistics.
  destruct (stats_fold ds
              {| Stats.total_devices := Z.of_nat (length ds);
                 Stats.active_devices := Z.of_nat (length (List.filter is_active ds));
                 Stats.device_types := ∅; Stats.common_ports := ∅;
                 Stats.os_distribution := ∅; Stats.devices_with_ssh := 0;
                 Stats.devices_with_rdp := 0; Stats.devices_with_web := 0;
                 Stats.devices_with_smb := 0 |})
    as (H1 & H2 & H3 & _).
  cbn zeta in *. rewrite H1, H2, H3. simpl.
  split; [| split; [| split; [reflexivity | split; [reflexivity | apply count_le]]]].
  - rewrite tally_lookup, lookup_empty. cbn [default]. rewrite Z.add_0_l.
    apply count_ext. intros d. apply bool_decide_ext. split.
    + intros [= E]. by apply device_type_value_inj.
    + by intros ->.
  - rewrite tally_is_Some, lookup_empty. split.
    + intros [[x Hx] | (d & Hd & [= E])]; [discriminate |].
      exists d. split; [exact Hd | by apply device_type_value_inj].
    + intros (d & Hd & <-). right. by exists d.
Qed.

(** X20: in the statistics, the entry under [str(p)] of the common ports
    is the number of times port [p] occurs in the open-port lists of the
    devices, and a port has an entry exactly when it is open on some
    device. *)
Theorem statistics_count_ports :
  forall ds p,
    let stats := Stats.get_network_statistics ds in
    default 0 (Stats.common_ports stats !! Py.str p) =
      Stats.count (Z.eqb p) (all_open_ports ds) /\
    (is_Some (Stats.common_ports stats !! Py.str p) <->
     exists d, d ∈ ds /\ p ∈ open_ports d).
Proof.
  intros ds p stats. subst stats. unfold Stats.get_network_statistics.
  destruct (stats_fold ds
              {| Stats.total_devices := Z.of_nat (length ds);
                 Stats.active_devices := Z.of_nat (length (List.filter is_active ds));
                 Stats.device_types := ∅; Stats.common_ports := ∅;
                 Stats.os_distribution := ∅; Stats.devices_with_ssh := 0;
                 Stats.devices_with_rdp := 0; Stats.devices_with_web := 0;
                 Stats.devices_with_smb := 0 |})
    as (_ & _ & _ & H4 & _).
  cbn zeta in *. rewrite H4. simpl. split.
  - rewrite tally_lookup, lookup_empty. cbn [default]. rewrite Z.add_0_l.
    apply count_ext. intros q. destruct (Z.eqb_spec p q) as [-> | Hne].
    + by rewrite bool_decide_eq_true_2.
    + rewrite bool_decide_eq_false_2; [reflexivity |].
      intros [= E]. apply str_inj in E. congruence.
  - rewrite tally_is_Some, lookup_empty. unfold all_open_ports. split.
    + intros [[x Hx] | (q & Hq & [= E])]; [discriminate |].
      apply str_inj in E. subst q.
      apply list_elem_of_In, in_concat in Hq as (l & Hl & Hp).
      apply list_elem_of_In, list_elem_of_fmap in Hl as (d & -> & Hd).
      exists d. split; [exact Hd | by apply list_elem_of_In].
    + intros (d & Hd & Hp). right. exists p. split; [| reflexivity].
      apply list_elem_of_In, in_concat. exists (open_ports d).
      split; [| by apply list_elem_of_In].
      apply list_elem_of_In. by apply list_elem_of_fmap_2.
Qed.

(** X21: the four counters of the security summary are the numbers of
    devices with port 22, with port 3389, with one of the ports 80, 443,
    8080 and 8443, and with port 445 open; none exceeds the total; and a
    device is counted as a web device on port 8080 or 8443 alone although
    the classifier calls such a device unknown. *)
Theorem statistics_security_summary :
  forall ds,
    let stats := Stats.get_network_statistics ds in
    Stats.devices_with_ssh stats = Stats.count (fun d => Stats.has_port d 22) ds /\
    Stats.devices_with_rdp stats = Stats.count (fun d => Stats.has_port d 3389) ds /\
    Stats.devices_with_web stats =
      Stats.count (fun d => Py.any (Stats.has_port d) [80; 443; 8080; 8443]) ds /\
    Stats.devices_with_smb stats = Stats.count (fun d => Stats.has_port d 445) ds /\
    Stats.devices_with_ssh stats <= Stats.total_devices stats /\
    Stats.devices_with_rdp stats <= Stats.total_devices stats /\
    Stats.devices_with_web stats <= Stats.total_devices stats /\
    Stats.devices_with_smb stats <= Stats.total_devices stats /\
    (forall d, open_ports d = [8080] \/ open_ports d = [8443] ->
               Stats.devices_with_web (Stats.get_network_statistics [d]) = 1 /\
               _classify_device_type d = UNKNOWN).
Proof.
  intros ds stats. subst stats. unfold Stats.get_network_statistics.
  destruct (stats_fold ds
              {| Stats.total_devices := Z.of_nat (length ds);
                 Stats.active_devices := Z.of_nat (length (List.filter is_active ds));
                 Stats.device_types := ∅; Stats.common_ports := ∅;
                 Stats.os_distribution := ∅; Stats.devices_with_ssh := 0;
                 Stats.devices_with_rdp := 0; Stats.devices_with_web := 0;
                 Stats.devices_with_smb := 0 |})
    as (H1 & _ & _ & _ & _ & H6 & H7 & H8 & H9).
  cbn zeta in *. rewrite H1, H6, H7, H8, H9. simpl.
  repeat split; try apply count_le.
  - destruct H as [Hp | Hp]; unfold Stats.stats_step, Stats.bump, Stats.has_port;
      simpl; rewrite Hp; reflexivity.
  - destruct H as [Hp | Hp]; unfold _classify_device_type; rewrite Hp;
      vm_compute; reflexivity.
Qed.

(** X22: in the statistics, the entry of an OS name is the number of
    devices with that OS name; devices with no OS name, or an empty one,
    are counted under no name. *)
Theorem statistics_count_os_names :
  forall ds name,
    name <> "" ->
    let stats := Stats.get_network_statistics ds in
    default 0 (Stats.os_distribution stats !! name) =
      Stats.count (fun d => bool_decide (os_name d = Some name)) ds /\
    Stats.os_distribution stats !! "" = None.
Proof.
  intros ds name Hname stats. subst stats. unfold Stats.get_network_statistics.
  destruct (stats_fold ds
              {| Stats.total_devices := Z.of_nat (length ds);
                 Stats.active_devices := Z.of_nat (length (List.filter is_active ds));
                 Stats.device_types := ∅; Stats.common_ports := ∅;
                 Stats.os_distribution := ∅; Stats.devices_with_ssh := 0;
                 Stats.devices_with_rdp := 0; Stats.devices_with_web := 0;
                 Stats.devices_with_smb := 0 |})
    as (_ & _ & _ & _ & H5 & _).
  cbn zeta in *. rewrite H5. simpl. split.
  - rewrite tally_lookup, lookup_empty. cbn [default]. rewrite Z.add_0_l.
    apply count_ext. intros d. apply bool_decide_ext. unfold os_key.
    destruct (os_name d) as [n |]; [| done].
    destruct n as [| c n]; simpl; [| done].
    split; [discriminate | intros [= E]; by subst name].
  - destruct (tally os_key ds ∅ !! "") eqn:E; [| reflexivity].
    exfalso. assert (is_Some (tally os_key ds ∅ !! "")) as Hs by by eexists.
    apply tally_is_Some in Hs as [[x Hx] | (d & _ & Hk)]; [by rewrite lookup_empty in Hx |].
    unfold os_key in Hk. destruct (os_name d) as [[| c n] |]; simpl in Hk; discriminate.
Qed.

Lemma statistics_count_os_names_witness :
  let ds := [set_os (Some "Linux 5.4") None None (Lab.host "10.0.0.1" [22]);
             set_os (Some "") None None (Lab.host "10.0.0.2" [631]);
             set_os (Some "Linux 5.4") None None (Lab.host "10.0.0.3" [22]);
             Lab.host "10.0.0.4" []] in
  default 0 (Stats.os_distribution (Stats.get_network_statistics ds) !! "Linux 5.4") = 2 /\
  Stats.os_distribution (Stats.get_network_statistics ds) !! "" = None.
Proof.
  intros ds.
  destruct (statistics_count_os_names ds "Linux 5.4" ltac:(discriminate)) as [Hn He].
  split; [| exact He]. rewrite Hn. vm_compute. reflexivity.
Defined.

(** ** The endpoints around a job *)

Section Endpoints.
Variable env : Env.

Lemma find_one_app_new {A} (q : A -> bool) l x :
  find_one q l = None -> q x = true -> find_one q (l ++ [x]) = Some x.
Proof.
  unfold find_one. intros Hnone Hq. induction l as [| y l IH]; simpl in *.
  - by rewrite Hq.
  - destruct (q y); [discriminate |]. by apply IH.
Qed.

(** The background task never raises: its handler catches everything. *)
Lemma run_scan_total i ty tgt options w :
  exists w', run_scan env i ty tgt options w = (Ok tt, w').
Proof.
  unfold run_scan, try_except. rewrite run_scan_body_run.
  destruct (run_scan_kind env ty tgt options _) as [[[[ds vs] md] | e] w1].
  - by eexists.
  - unfold run_scan_failed. run_job. by eexists.
Qed.

Lemma create_scan_run req w :
  let r := {| scan_id := uuid4 env (uuids w); scan_type := Api.req_scan_type req;
              target := Api.req_target req; status := PENDING;
              started_at := clock w; completed_at := None; duration_seconds := None;
              devices_discovered := 0; vulnerabilities_found := 0;
              ports_scanned := 0; results := empty_metadata; error_message := None;
              ai_summary := None; created_by := None |} in
  Api.create_scan env req w =
  (Ok r, mkWorld (mkDB (devices (db w)) (vulnerabilities (db w))
                       (scan_results (db w) ++ [r]))
                 (clock w + 1) (S (uuids w))).
Proof. reflexivity. Qed.

End Endpoints.

(** X23: a scan request whose fresh identifier is not yet that of a stored
    job is answered with a pending record of the requested type and
    target; a lookup of that identifier then returns this record; and when
    the scheduled task has run, the stored record of that identifier is
    completed or failed, with the type and the target as submitted. *)
Theorem submitted_job_reaches_terminal_status :
  forall env req w,
    job (uuid4 env (uuids w)) w = None ->
    exists r w1 r' w',
      Api.create_scan env req w = (Ok r, w1) /\
      scan_id r = uuid4 env (uuids w) /\ status r = PENDING /\
      scan_type r = Api.req_scan_type req /\ target r = Api.req_target req /\
      Api.get_scan (scan_id r) w1 = (Ok (Api.Response r), w1) /\
      Api.submit_and_run env req w = (Ok r, w') /\
      job (scan_id r) w' = Some r' /\
      (status r' = COMPLETED \/ status r' = FAILED) /\
      scan_type r' = Api.req_scan_type req /\ target r' = Api.req_target req.
Proof.
  intros env req w Hfresh.
  pose proof (create_scan_run env req w) as Hcreate. cbn zeta in Hcreate.
  set (r := {| scan_id := uuid4 env (uuids w); status := PENDING |}) in *.
  set (w1 := mkWorld _ (clock w + 1) (S (uuids w))) in *.
  assert (job (scan_id r) w1 = Some r) as Hjob.
  { unfold job. simpl. apply find_one_app_new; [exact Hfresh |].
    unfold by_scan_id. simpl. apply String.eqb_refl. }
  destruct (run_scan_total env (scan_id r) (Api.req_scan_type req) (Api.req_target req)
              (default ∅ (Api.req_options req)) w1) as [w' Hrun].
  destruct (run_scan_records env (scan_id r) (Api.req_scan_type req)
              (Api.req_target req) (default ∅ (Api.req_options req)) w1)
    as (g & t & Hg & Hrec).
  unfold exec in Hrec. rewrite Hrun in Hrec. cbn [snd] in Hrec.
  exists r, w1, (g (set_running (clock w1) r)), w'.
  split; [exact Hcreate |]. do 4 (split; [reflexivity |]).
  split.
  { unfold Api.get_scan, bind, get_db. unfold job in Hjob. by rewrite Hjob. }
  split.
  { unfold Api.submit_and_run, bind. rewrite Hcreate.
    unfold Api.background_task. by rewrite Hrun. }
  assert (scan_id (g (set_running (clock w1) r)) = scan_id r) as Hid
    by (destruct Hg as [(n1 & n2 & md & sm & ->) | (e & ->)]; reflexivity).
  split.
  { unfold job. rewrite Hrec. apply update_one_find.
    - by apply job_after_update.
    - unfold by_scan_id. rewrite Hid. apply String.eqb_refl. }
  destruct Hg as [(n1 & n2 & md & sm & ->) | (e & ->)]; simpl; auto.
Qed.

Lemma submitted_job_reaches_terminal_status_witness :
  exists r w1 r' w',
    Api.create_scan Lab.env
      (Api.mkScanRequest NETWORK_DISCOVERY "10.0.0.0/29" None) (Lab.fresh []) = (Ok r, w1) /\
    scan_id r = "uuid-0" /\ status r = PENDING /\
    Api.submit_and_run Lab.env
      (Api.mkScanRequest NETWORK_DISCOVERY "10.0.0.0/29" None) (Lab.fresh []) = (Ok r, w') /\
    job "uuid-0" w' = Some r' /\
    (status r' = COMPLETED \/ status r' = FAILED).
Proof.
  destruct (submitted_job_reaches_terminal_status Lab.env
              (Api.mkScanRequest NETWORK_DISCOVERY "10.0.0.0/29" None) (Lab.fresh [])
              eq_refl)
    as (r & w1 & r' & w' & Hc & Hid & Hst & _ & _ & _ & Hrun & Hjob & Hfin & _).
  exists r, w1, r', w'. rewrite Hid in Hjob. by repeat split.
Defined.

(** X24: the manual add of a device always inserts a new record, with a
    fresh identifier, the submitted address, name and type, no port, and
    the active flag; it does not look for the address, so the number of
    stored records of that address grows by one even when the address was
    stored already.  A lookup of the fresh identifier returns the new
    record when no stored device carried that identifier. *)
Theorem add_device_always_inserts :
  forall env data w,
    exists d w',
      Api.add_device env data w = (Ok d, w') /\
      devices (db w') = devices (db w) ++ [d] /\
      id d = uuid4 env (uuids w) /\
      ip_address d = Api.new_ip_address data /\
      hostname d = Api.new_hostname data /\
      device_type d = Api.new_device_type data /\
      open_ports d = [] /\ is_active d = true /\
      length (stored_with_ip (ip_address d) w') =
        S (length (stored_with_ip (ip_address d) w)) /\
      (find_one (Api.by_device_id (id d)) (devices (db w)) = None ->
       Api.get_device (id d) w' = (Ok (Api.Response d), w')).
Proof.
  intros env data w. unfold Api.add_device. run_job.
  eexists _, _. split; [reflexivity |]. simpl.
  do 7 (split; [reflexivity |]). split.
  - unfold stored_with_ip, insert_one. simpl. rewrite filter_app, length_app.
    rewrite filter_cons_True by reflexivity. simpl. lia.
  - intros Hfresh. unfold Api.get_device. run_job. unfold insert_one.
    rewrite (find_one_app_new _ _ _ Hfresh); [reflexivity |].
    unfold Api.by_device_id. simpl. apply String.eqb_refl.
Qed.

(** X25: when several stored records carry the address of a discovered
    device, as after a manual add of a stored address, the upsert of the
    discovery job rewrites the first of them only: the records before it
    and after it, the later records of that address included, are left as
    they were. *)
Theorem upsert_rewrites_first_record_only :
  forall device before x after w,
    devices (db w) = before ++ x :: after ->
    ip_address x = ip_address device ->
    (forall y, y ∈ before -> ip_address y <> ip_address device) ->
    devices (db (exec (save_device device) w)) =
    before ++ set_updated_at (clock w) device :: after.
Proof.
  intros device before x after w Hdev Hx Hbefore.
  assert (forall l, (forall y, y ∈ l -> ip_address y <> ip_address device) ->
            find_one (by_ip (ip_address device)) (l ++ x :: after) = Some x /\
            update_one (by_ip (ip_address device))
              (fun _ => set_updated_at (clock w) device) (l ++ x :: after) =
            l ++ set_updated_at (clock w) device :: after) as Hgen.
  { induction l as [| y l IH]; intros Hl; simpl.
    - unfold find_one, by_ip. simpl. rewrite Hx, String.eqb_refl. by split.
    - unfold find_one in *. simpl. unfold by_ip at 1 3.
      destruct (String.eqb_spec (ip_address y) (ip_address device)) as [E | _].
      + exfalso. apply (Hl y); [left | exact E].
      + destruct IH as [IH1 IH2]; [intros z Hz; apply Hl; by right |].
        split; [exact IH1 | by rewrite IH2]. }
  destruct (Hgen before Hbefore) as [Hfind Hupd].
  unfold exec. rewrite (save_device_existing device x w) by (by rewrite Hdev).
  simpl. by rewrite Hdev, Hupd.
Qed.

Lemma upsert_rewrites_first_record_only_witness :
  let stale := Lab.host "10.0.0.1" [21] in
  devices (db (exec (save_device Lab.seen_again)
                 (mkWorld (mkDB [Lab.host "10.0.0.2" [631]; Lab.first_seen; stale] [] [])
                          60 0))) =
  [Lab.host "10.0.0.2" [631]; set_updated_at 60 Lab.seen_again; stale].
Proof.
  intros stale.
  apply (upsert_rewrites_first_record_only Lab.seen_again
           [Lab.host "10.0.0.2" [631]] Lab.first_seen [stale]);
    [reflexivity | reflexivity |].
  intros y Hy%list_elem_of_singleton. subst y. discriminate.
Defined.

(** ** The OS fields of a profile *)

Section OsFields.
Variable env : Env.

(** With the option set and no usable fingerprint (the scan raises, the
    host or the key is missing, or the list of matches is empty), the OS
    fields stay unset. *)
Lemma os_fields_without_match ip options w d w' :
  _scan_device_details env ip options w = (Ok (Some d), w') ->
  (forall best others, nm_os_scan env ip <> Ok (Some (best :: others))) ->
  os_name d = None /\ vendor d = None.
Proof.
  unfold _scan_device_details, _detect_os, _get_mac_address. run_job.
  intros E Hnone. revert E.
  destruct (gethostbyaddr env ip) as [h | | msg]; simpl; [| | discriminate].
  all: destruct (nm_port_scan env ip) as [[rows |] | e]; simpl.
  all: try destruct (fold_left port_row_step rows _) as [[[o f] c] sv]; simpl.
  all: destruct (nm_os_scan env ip) as [[[| b os] |] | e'];
    try (exfalso; by apply (Hnone b os)); simpl.
  all: destruct (truthy (default (PyBool false) (options !! "os_detection"))); simpl.
  all: intros [= <- <-]; split; by repeat case_match.
Qed.

End OsFields.

(** X26: the OS fields of a profiled device.  The option is read as a
    truth value, so any non-empty text, the text "false" included,
    enables it, and its absence disables it.  Without it no OS field is
    set.  With it, the name and the vendor are those of the first match,
    an absent key giving the empty text rather than no value, and the
    other matches are ignored; when there is no match the fields stay
    unset. *)
Theorem os_fields_follow_first_match :
  forall env ip options w d w',
    _scan_device_details env ip options w = (Ok (Some d), w') ->
    (os_detection options = false -> os_name d = None /\ vendor d = None) /\
    (os_detection options = true ->
     forall best others,
       nm_os_scan env ip = Ok (Some (best :: others)) ->
       os_name d = Some (default "" (best !! "name")) /\
       vendor d = Some (default "" (best !! "vendor"))) /\
    ((forall best others, nm_os_scan env ip <> Ok (Some (best :: others))) ->
     os_name d = None /\ vendor d = None) /\
    (forall s, options !! "os_detection" = Some (PyStr s) ->
               os_detection options = Py.truthy_str s) /\
    (options !! "os_detection" = None -> os_detection options = false).
Proof.
  intros env ip options w d w' E.
  destruct (os_detection_only_on_request env ip options w d w' E) as [Hoff Hon].
  split; [exact Hoff |]. split; [exact Hon |].
  split; [by apply (os_fields_without_match env ip options w d w') |].
  unfold os_detection. split; [by intros s -> | by intros ->].
Qed.

Lemma os_fields_follow_first_match_witness :
  let options : gmap string PyValue := <["os_detection" := PyStr "false"]> ∅ in
  exists d w',
    _scan_device_details Lab.env "10.0.0.2" options (Lab.fresh []) = (Ok (Some d), w') /\
    os_detection options = true /\
    os_name d = Some "Linux 5.4" /\ vendor d = Some "Linux".
Proof.
  intros options.
  destruct (_scan_device_details Lab.env "10.0.0.2" options (Lab.fresh []))
    as [[[d |] | e] w'] eqn:E; try (vm_compute in E; discriminate).
  exists d, w'. split; [reflexivity |].
  destruct (os_fields_follow_first_match Lab.env "10.0.0.2" options (Lab.fresh [])
              d w' E) as (_ & Hon & _ & Htext & _).
  assert (os_detection options = true) as Hopt by (by rewrite (Htext "false")).
  split; [exact Hopt |].
  destruct (Hon Hopt (Lab.os_match "Linux 5.4" "98" "Linux" "5.4")
                [Lab.os_match "FreeBSD 12" "85" "FreeBSD" "12"] eq_refl) as [Hn Hv].
  rewrite Hn, Hv. split; reflexivity.
Defined.

(** ** Rediscoveries and the other devices *)

Section Rediscovery.

Lemma dict_update_known keys : forall stored,
  (forall k, k ∈ keys -> k ∈ stored) -> dict_update stored keys = stored.
Proof.
  unfold dict_update. induction keys as [| k keys IH]; intros stored Hin; simpl;
    [reflexivity |].
  unfold dict_set at 2. rewrite bool_decide_eq_true_2 by (apply Hin; left).
  apply IH. intros k' Hk'. apply Hin. by right.
Qed.

Lemma dict_update_length keys : forall stored,
  (length stored <= length (dict_update stored keys) <= length stored + length keys)%nat.
Proof.
  unfold dict_update. induction keys as [| k keys IH]; intros stored; simpl; [lia |].
  specialize (IH (dict_set k stored)).
  assert (length stored <= length (dict_set k stored) <= length stored + 1)%nat.
  { unfold dict_set. case_bool_decide; [lia |]. rewrite length_app. simpl. lia. }
  lia.
Qed.

Lemma find_by_ip_app_other ip (l : list Device) d :
  ip_address d <> ip -> find_one (by_ip ip) (l ++ [d]) = find_one (by_ip ip) l.
Proof.
  intros Hne. unfold find_one. induction l as [| y l IH]; simpl.
  - unfold by_ip. by destruct (String.eqb_spec (ip_address d) ip).
  - destruct (by_ip ip y); [reflexivity | exact IH].
Qed.

Lemma find_by_ip_update_other ip (d : Device) (l : list Device) :
  ip_address d <> ip ->
  find_one (by_ip ip) (update_one (by_ip (ip_address d)) (fun _ => d) l) =
  find_one (by_ip ip) l.
Proof.
  intros Hne. unfold find_one. induction l as [| y l IH]; [reflexivity |].
  cbn [update_one]. destruct (by_ip (ip_address d) y) eqn:Hy; cbn [find].
  - apply String.eqb_eq in Hy. unfold by_ip. rewrite Hy.
    by destruct (String.eqb_spec (ip_address d) ip).
  - by rewrite IH.
Qed.

(** The upsert leaves the record of every other address alone. *)
Lemma save_device_other_ip device ip w :
  ip_address device <> ip ->
  find_one (by_ip ip) (devices (db (snd (save_device device w)))) =
  find_one (by_ip ip) (devices (db w)).
Proof.
  intros Hne.
  destruct (find_one (by_ip (ip_address device)) (devices (db w))) as [x |] eqn:E.
  - rewrite (save_device_existing _ _ _ E). simpl.
    apply (find_by_ip_update_other ip (set_updated_at (clock w) device)).
    exact Hne.
  - rewrite (save_device_new _ _ E). simpl. by apply find_by_ip_app_other.
Qed.

Lemma save_devices_other_ip ds ip : forall w,
  ip ∉ ip_address <$> ds ->
  find_one (by_ip ip) (devices (db (snd (for_each ds save_device w)))) =
  find_one (by_ip ip) (devices (db w)).
Proof.
  induction ds as [| d ds IH]; intros w Hnot; [reflexivity |].
  cbn [for_each]. unfold bind.
  pose proof (save_device_other_ip d ip w) as Hd.
  destruct (save_device_ips d w) as (w1 & E1 & _).
  rewrite E1 in *. simpl in Hd.
  rewrite fmap_cons in Hnot. apply not_elem_of_cons in Hnot as [Hne Hnot].
  rewrite (IH w1 Hnot). apply Hd. congruence.
Qed.

End Rediscovery.

(** X27: a discovery job counts every device it produced, rediscovered
    ones included: when all the profiled addresses are stored already, the
    job reports their number as [devices_discovered] and the list of
    stored addresses is exactly as before; in general the store grows by
    no more records than the job counts. *)
Theorem rediscoveries_are_counted :
  forall env i tgt options w r,
    job i w = Some r ->
    let w' := exec (run_scan env i NETWORK_DISCOVERY tgt options) w in
    let found := profiled env (all_responsive env tgt) in
    (exists r', job i w' = Some r' /\
                devices_discovered r' = Z.of_nat (length found)) /\
    (length (stored_ips w) <= length (stored_ips w')
       <= length (stored_ips w) + length found)%nat /\
    ((forall ip, ip ∈ found -> ip ∈ stored_ips w) -> stored_ips w' = stored_ips w).
Proof.
  intros env i tgt options w r Hr w' found.
  destruct (discovery_job_completes env i tgt options w r Hr)
    as (r' & Hjob & _ & Hn & _).
  assert (stored_ips w' = dict_update (stored_ips w) found) as Hips.
  { subst w' found. unfold exec, run_scan, try_except. rewrite run_scan_body_run.
    destruct (run_scan_kind_discovery_store env tgt options
                (mkWorld (with_scan_results
                            (update_one (by_scan_id i) (set_running (clock w))) (db w))
                         (clock w + 1) (uuids w)))
      as (ds & md & w2 & E & Hips & Hst & _).
    rewrite E. unfold stored_ips in *. simpl in *. by rewrite Hst, Hips. }
  split; [by exists r' |]. rewrite Hips. split.
  - apply dict_update_length.
  - apply dict_update_known.
Qed.

Lemma rediscoveries_are_counted_witness :
  let w := mkWorld (mkDB [Lab.first_seen] []
                         [Lab.pending "job-2" NETWORK_DISCOVERY "10.0.0.1"]) 100 0 in
  let w' := exec (run_scan Lab.env "job-2" NETWORK_DISCOVERY "10.0.0.1" ∅) w in
  (exists r', job "job-2" w' = Some r' /\ devices_discovered r' = 1) /\
  stored_ips w' = ["10.0.0.1"].
Proof.
  intros w w'.
  destruct (rediscoveries_are_counted Lab.env "job-2" "10.0.0.1" ∅ w
              (Lab.pending "job-2" NETWORK_DISCOVERY "10.0.0.1") eq_refl)
    as ((r' & Hjob & Hn) & _ & Hsame).
  split.
  - exists r'. split; [exact Hjob |]. rewrite Hn. vm_compute. reflexivity.
  - subst w'. rewrite Hsame; [reflexivity |].
    intros ip Hip. vm_compute in Hip. exact Hip.
Defined.

(** X28: a discovery job leaves the stored record of every address it did
    not produce a device for exactly as it was. *)
Theorem discovery_job_spares_other_devices :
  forall env i tgt options w ip,
    ip ∉ profiled env (all_responsive env tgt) ->
    find_one (by_ip ip)
      (devices (db (exec (run_scan env i NETWORK_DISCOVERY tgt options) w))) =
    find_one (by_ip ip) (devices (db w)).
Proof.
  intros env i tgt options w ip Hnot.
  unfold exec, run_scan, try_except. rewrite run_scan_body_run.
  set (w0 := mkWorld _ (clock w + 1) (uuids w)).
  assert (exists ds md w2,
            run_scan_kind env NETWORK_DISCOVERY tgt options w0 = (Ok (ds, [], md), w2) /\
            find_one (by_ip ip) (devices (db w2)) = find_one (by_ip ip) (devices (db w)))
    as (ds & md & w2 & E & Hframe).
  { simpl run_scan_kind. unfold bind at 1.
    destruct (discover_run env options tgt w0) as (ds & md & w1 & E & Hdb & Hips).
    rewrite E. unfold bind at 1.
    pose proof (save_devices_other_ip ds ip w1) as Hother.
    destruct (save_devices_total ds w1) as [w2 E2]. rewrite E2 in *.
    exists ds, md, w2. split; [reflexivity |].
    simpl in Hother. rewrite Hother by (by rewrite Hips). by rewrite Hdb. }
  rewrite E. simpl. exact Hframe.
Qed.

Lemma discovery_job_spares_other_devices_witness :
  find_one (by_ip "10.0.0.9")
    (devices (db (exec (run_scan Lab.env "job-1" NETWORK_DISCOVERY "10.0.0.0/29" ∅)
                       (mkWorld (mkDB [Lab.host "10.0.0.9" [21]; Lab.first_seen] []
                                      [Lab.pending "job-1" NETWORK_DISCOVERY "10.0.0.0/29"])
                                100 0)))) =
  Some (Lab.host "10.0.0.9" [21]).
Proof.
  rewrite discovery_job_spares_other_devices; [reflexivity |].
  vm_compute. intros Hin.
  repeat (apply elem_of_cons in Hin as [Hin | Hin]; [discriminate |]).
  by apply elem_of_nil in Hin.
Defined.
